(** * kdrive: the 9anime scraper ([scrape.py]), embedded and verified

    The development follows the layout of [scrape.py]:
    - the Python string operations the scraper uses ([str.lower], [in],
      [str.split], [str.replace], ...);
    - the records it builds and its two duplicate-removal loops
      ([scrape_all], [scrape_recently_added_multiple_pages]);
    - [urllib.parse.urljoin], which gives every record its [url];
    - the parsed document as an interface, [extract_anime_info], the
      section scrapers, the aggregator and the two writers;
    - the statements proved about them, and their proofs.

    Strings are Rocq [string]s: a Python [str] over the code points
    0-255 (Latin-1), with [len] as [String.length]. *)

From Stdlib Require Import Ascii ZArith Lia Bool.
From Stdlib Require String DecimalString.
From stdpp Require Import base gmap strings list sorting.

(** ** Python string operations *)

Module Py.

(** [c.lower()] on one character: the capital letters of Latin-1
    (A-Z, and 0xC0-0xDE without the multiplication sign 0xD7) move up by
    32; every other character is kept. *)
Definition lower_char (c : ascii) : ascii :=
  let n := nat_of_ascii c in
  if ((65 <=? n)%nat && (n <=? 90)%nat)
     || ((192 <=? n)%nat && (n <=? 222)%nat && negb (n =? 215)%nat)
  then ascii_of_nat (n + 32) else c.

(** [s.lower()], on strings of code points 0-255, where it keeps the
    length; beyond that range Python's [lower] can lengthen a string
    (U+0130 becomes two code points), so what the code measures after
    lowercasing is stated of the lowercased string. *)
Fixpoint lower (s : string) : string :=
  match s with
  | EmptyString => EmptyString
  | String c rest => String (lower_char c) (lower rest)
  end.

(** [bool(s)]: a string is true when it is not empty. *)
Definition truthy (s : string) : bool :=
  match s with
  | EmptyString => false
  | String _ _ => true
  end.

(** [sub in s] *)
Fixpoint contains (sub s : string) : bool :=
  String.prefix sub s ||
  match s with
  | EmptyString => false
  | String _ rest => contains sub rest
  end.

(** [c in s] for one character. *)
Fixpoint has_char (c : ascii) (s : string) : bool :=
  match s with
  | EmptyString => false
  | String d rest => Ascii.eqb d c || has_char c rest
  end.

(** [s.split(sep)] for a one-character separator: never empty. *)
Fixpoint split (sep : ascii) (s : string) : list string :=
  match s with
  | EmptyString => [EmptyString]
  | String c rest =>
      if Ascii.eqb c sep then EmptyString :: split sep rest
      else match split sep rest with
           | piece :: pieces => String c piece :: pieces
           | [] => [String c EmptyString]
           end
  end.

(** [l[-1]] on a list of strings that is not empty. *)
Definition last_item (l : list string) : string := List.last l EmptyString.

(** [sep.join(l)] *)
Fixpoint join (sep : string) (l : list string) : string :=
  match l with
  | [] => EmptyString
  | [piece] => piece
  | piece :: pieces => piece +:+ sep +:+ join sep pieces
  end.

(** [s.partition(c)] when [c] occurs: the text before the first [c] and
    the text after it ([s[:i]] and [s[i+1:]] for [i = s.find(c)]);
    [None] when [s.find(c)] is [-1]. *)
Fixpoint partition (c : ascii) (s : string) : option (string * string) :=
  match s with
  | EmptyString => None
  | String d rest =>
      if Ascii.eqb d c then Some (EmptyString, rest)
      else match partition c rest with
           | Some (before, after) => Some (String d before, after)
           | None => None
           end
  end.

(** [s.replace(c, new)] for a one-character [c]. *)
Fixpoint replace (c : ascii) (new : string) (s : string) : string :=
  match s with
  | EmptyString => EmptyString
  | String d rest =>
      if Ascii.eqb d c then new +:+ replace c new rest
      else String d (replace c new rest)
  end.

(** [s.lstrip(chars)] *)
Fixpoint lstrip (chars : ascii -> bool) (s : string) : string :=
  match s with
  | EmptyString => EmptyString
  | String c rest => if chars c then lstrip chars rest else s
  end.

(** [s.rstrip(chars)] *)
Fixpoint rstrip (chars : ascii -> bool) (s : string) : string :=
  match s with
  | EmptyString => EmptyString
  | String c rest =>
      match rstrip chars rest with
      | EmptyString => if chars c then EmptyString else String c EmptyString
      | kept => String c kept
      end
  end.

Definition strip (chars : ascii -> bool) (s : string) : string :=
  lstrip chars (rstrip chars s).

(** [s[:2]] and [s[:1]] compared with a literal. *)
Definition startswith (p s : string) : bool := String.prefix p s.

(** [s[n:]] *)
Fixpoint slice_from (n : nat) (s : string) : string :=
  match n, s with
  | O, _ => s
  | S n, String _ rest => slice_from n rest
  | S _, EmptyString => EmptyString
  end.

Definition is_ascii_alpha (c : ascii) : bool :=
  let n := nat_of_ascii c in
  ((65 <=? n)%nat && (n <=? 90)%nat) || ((97 <=? n)%nat && (n <=? 122)%nat).

Definition is_digit (c : ascii) : bool :=
  let n := nat_of_ascii c in (48 <=? n)%nat && (n <=? 57)%nat.

(** [c.isspace()] *)
Definition is_space (c : ascii) : bool :=
  let n := nat_of_ascii c in
  ((9 <=? n)%nat && (n <=? 13)%nat) || ((28 <=? n)%nat && (n <=? 32)%nat)
  || (n =? 133)%nat || (n =? 160)%nat.

Fixpoint forall_chars (p : ascii -> bool) (s : string) : bool :=
  match s with
  | EmptyString => true
  | String c rest => p c && forall_chars p rest
  end.

End Py.

(** ** Records

    A record is the dict built by [extract_anime_info] and tagged by the
    section scrapers.  Every key holds a string except ['genres'] (a list
    of strings) and ['page'] (an integer); the dict is kept as the map of
    its string-valued keys together with these two entries. *)

Record AnimeInfo := mkAnimeInfo {
  strs : gmap string string;
  genres : option (list string);
  page : option Z
}.

(** [anime.get(key, '')] for a string-valued key. *)
Definition get_default (anime : AnimeInfo) (key : string) : string :=
  default "" (strs anime !! key).

(** ** Duplicate removal in [scrape_all] (lines 419-431) *)

Record Seen := mkSeen {
  unique_anime : list AnimeInfo;
  seen_titles : gset string;
  seen_urls : gset string
}.

Definition no_seen : Seen :=
  {| unique_anime := []; seen_titles := ∅; seen_urls := ∅ |}.

(** [title = anime.get('title', '').lower()] *)
Definition title_key (anime : AnimeInfo) : string :=
  Py.lower (get_default anime "title").

(** [url = anime.get('url', '')] *)
Definition url_key (anime : AnimeInfo) : string :=
  get_default anime "url".

Definition remember (anime : AnimeInfo) (st : Seen) : Seen :=
  {| unique_anime := unique_anime st ++ [anime];
     seen_titles := {[title_key anime]} ∪ seen_titles st;
     seen_urls := {[url_key anime]} ∪ seen_urls st |}.

(** One iteration of the loop at line 424. *)
Definition scrape_all_step (st : Seen) (anime : AnimeInfo) : Seen :=
  let title := title_key anime in
  let url := url_key anime in
  if bool_decide (title ∉ seen_titles st)
     && bool_decide (url ∉ seen_urls st)
     && Py.truthy title && Py.truthy url
     && (3 <? String.length title)%nat
  then remember anime st
  else st.

Definition scrape_all_unique (all_anime : list AnimeInfo) : list AnimeInfo :=
  unique_anime (foldl scrape_all_step no_seen all_anime).

(** ** Duplicate removal in [scrape_recently_added_multiple_pages]
       (lines 336-348) *)

Definition multiple_pages_step (st : Seen) (anime : AnimeInfo) : Seen :=
  let title := title_key anime in
  let url := url_key anime in
  if bool_decide (title ∉ seen_titles st)
     && bool_decide (url ∉ seen_urls st)
     && Py.truthy title && Py.truthy url
  then remember anime st
  else st.

Definition multiple_pages_unique (all_anime : list AnimeInfo) : list AnimeInfo :=
  unique_anime (foldl multiple_pages_step no_seen all_anime).

(** ** [urllib.parse]: the part of the standard library behind [urljoin]

    The functions follow CPython's [urllib/parse.py] (3.11/3.12:
    [urlsplit], [urlparse], [urlunsplit], [urlunparse], [urljoin]) on
    [str] arguments.  A result of [None] stands for the [ValueError] the
    library raises on a malformed bracketed host; on the code points
    0-255 the library raises no other error. *)

Module UrlParse.

Record SplitResult := mkSplit {
  scheme : string;
  netloc : string;
  path : string;
  query : string;
  fragment : string
}.

Record ParseResult := mkParse {
  p_scheme : string;
  p_netloc : string;
  p_path : string;
  p_params : string;
  p_query : string;
  p_fragment : string
}.

Definition uses_relative : list string :=
  [""; "ftp"; "http"; "gopher"; "nntp"; "imap"; "wais"; "file"; "https";
   "shttp"; "mms"; "prospero"; "rtsp"; "rtspu"; "sftp"; "svn"; "svn+ssh";
   "ws"; "wss"].

Definition uses_netloc : list string :=
  [""; "ftp"; "http"; "gopher"; "nntp"; "telnet"; "imap"; "wais"; "file";
   "mms"; "https"; "shttp"; "snews"; "prospero"; "rtsp"; "rtspu"; "rsync";
   "svn"; "svn+ssh"; "sftp"; "nfs"; "git"; "git+ssh"; "ws"; "wss"].

Definition uses_params : list string :=
  [""; "ftp"; "hdl"; "prospero"; "http"; "imap"; "https"; "shttp"; "rtsp";
   "rtspu"; "sip"; "sips"; "mms"; "sftp"; "tel"].

(** [x in l] for a list of strings. *)
Definition in_list (x : string) (l : list string) : bool :=
  bool_decide (x ∈ l).

(** [_WHATWG_C0_CONTROL_OR_SPACE]: the characters 0x00-0x20. *)
Definition c0_control_or_space (c : ascii) : bool :=
  (nat_of_ascii c <=? 32)%nat.

(** [scheme_chars]: letters, digits and [+-.]. *)
Definition scheme_char (c : ascii) : bool :=
  Py.is_ascii_alpha c || Py.is_digit c
  || Ascii.eqb c "+" || Ascii.eqb c "-" || Ascii.eqb c ".".

(** The loop over [_UNSAFE_URL_BYTES_TO_REMOVE] (tab, CR, LF). *)
Definition remove_unsafe (s : string) : string :=
  Py.replace "010" "" (Py.replace "013" "" (Py.replace "009" "" s)).

Definition is_delim (c : ascii) : bool :=
  Ascii.eqb c "/" || Ascii.eqb c "?" || Ascii.eqb c "#".

(** [_splitnetloc(url, 2)], given [url[2:]]: the text before the first
    of [/?#] and the text from it on. *)
Fixpoint splitnetloc (s : string) : string * string :=
  match s with
  | EmptyString => (EmptyString, EmptyString)
  | String c rest =>
      if is_delim c then (EmptyString, s)
      else let '(domain, tail) := splitnetloc rest in (String c domain, tail)
  end.

(** [s.rpartition(c)] when [c] occurs: the text before the last [c] and
    the text after it. *)
Fixpoint rpartition (c : ascii) (s : string) : option (string * string) :=
  match s with
  | EmptyString => None
  | String d rest =>
      match rpartition c rest with
      | Some (before, after) => Some (String d before, after)
      | None => if Ascii.eqb d c then Some (EmptyString, rest) else None
      end
  end.

(** [s[:-1]] *)
Fixpoint drop_last (s : string) : string :=
  match s with
  | EmptyString => EmptyString
  | String c EmptyString => EmptyString
  | String c rest => String c (drop_last rest)
  end.

(** [_splitparams] *)
Definition splitparams (url : string) : string * string :=
  if Py.has_char "/" url then
    (* i = url.find(';', url.rfind('/')) *)
    match rpartition "/" url with
    | Some (dir, seg) =>
        match Py.partition ";" seg with
        | Some (before, after) => (dir +:+ "/" +:+ before, after)
        | None => (url, "")
        end
    | None => (url, "")
    end
  else
    match Py.partition ";" url with
    | Some (before, after) => (before, after)
    | None => (drop_last url, url)
    end.

(** [urlunsplit] *)
Definition urlunsplit (r : SplitResult) : string :=
  let url := path r in
  let url :=
    if Py.truthy (netloc r)
       || (Py.truthy (scheme r) && in_list (scheme r) uses_netloc
           && negb (Py.startswith "//" url))
    then
      let url :=
        if Py.truthy url && negb (Py.startswith "/" url)
        then "/" +:+ url else url in
      "//" +:+ netloc r +:+ url
    else url in
  let url := if Py.truthy (scheme r) then scheme r +:+ ":" +:+ url else url in
  let url := if Py.truthy (query r) then url +:+ "?" +:+ query r else url in
  let url :=
    if Py.truthy (fragment r) then url +:+ "#" +:+ fragment r else url in
  url.

(** [urlunparse] *)
Definition urlunparse (r : ParseResult) : string :=
  let url :=
    if Py.truthy (p_params r) then p_path r +:+ ";" +:+ p_params r
    else p_path r in
  urlunsplit (mkSplit (p_scheme r) (p_netloc r) url (p_query r) (p_fragment r)).

(** One iteration of the loop over [segments] in [urljoin]. *)
Definition resolve_step (resolved_path : list string) (seg : string)
  : list string :=
  if String.eqb seg ".." then removelast resolved_path
  else if String.eqb seg "." then resolved_path
  else resolved_path ++ [seg].

(** [segments[1:-1] = filter(None, segments[1:-1])] *)
Definition filter_middle (segments : list string) : list string :=
  match segments with
  | [] => []
  | [seg] => [seg]
  | seg :: rest =>
      seg :: filter (fun s => Is_true (Py.truthy s)) (removelast rest)
          ++ [Py.last_item rest]
  end.

(** The scheme part of [urlsplit]: with [i = url.find(':')], the text
    before the colon is the scheme when [i > 0], [url[0]] is an ASCII
    letter and every character of [url[:i]] is in [scheme_chars]. *)
Definition split_scheme (scheme url : string) : string * string :=
  match Py.partition ":" url with
  | Some (String c0 _ as before, after) =>
      if Py.is_ascii_alpha c0 && Py.forall_chars scheme_char before
      then (Py.lower before, after)
      else (scheme, url)
  | _ => (scheme, url)
  end.

(** The end of [urlsplit]: the fragment is cut at the first [#], then
    the query at the first [?]. *)
Definition split_fragment_query (scheme netloc url : string) : SplitResult :=
  let '(url, fragment) :=
    match Py.partition "#" url with
    | Some (before, after) => (before, after)
    | None => (url, "")
    end in
  let '(url, query) :=
    match Py.partition "?" url with
    | Some (before, after) => (before, after)
    | None => (url, "")
    end in
  mkSplit scheme netloc url query fragment.

Section WithHostCheck.

(** [_check_bracketed_netloc(netloc)] validates an IPv6 or IPvFuture
    literal through the [ipaddress] module; the check is taken as given:
    [true] when it returns, [false] when it raises [ValueError]. *)
Variable check_bracketed_netloc : string -> bool.

(** [urlsplit(url, scheme)] *)
Definition urlsplit (url scheme : string) : option SplitResult :=
  let url := Py.lstrip c0_control_or_space url in
  let scheme := Py.strip c0_control_or_space scheme in
  let url := remove_unsafe url in
  let scheme := remove_unsafe scheme in
  let '(scheme, url) := split_scheme scheme url in
  if Py.startswith "//" url then
    let '(netloc, url) := splitnetloc (Py.slice_from 2 url) in
    let open_br := Py.has_char "[" netloc in
    let close_br := Py.has_char "]" netloc in
    if (open_br && negb close_br) || (close_br && negb open_br) then None
    else if open_br && close_br && negb (check_bracketed_netloc netloc)
    then None
    else Some (split_fragment_query scheme netloc url)
  else Some (split_fragment_query scheme "" url).

(** [urlparse(url, scheme)] *)
Definition urlparse (url scheme : string) : option ParseResult :=
  match urlsplit url scheme with
  | None => None
  | Some r =>
      let '(url, params) :=
        if in_list (UrlParse.scheme r) uses_params && Py.has_char ";" (path r)
        then splitparams (path r)
        else (path r, "") in
      Some (mkParse (UrlParse.scheme r) (netloc r) url params
                    (query r) (fragment r))
  end.

(** [urljoin(base, url)] *)
Definition urljoin (base url : string) : option string :=
  if negb (Py.truthy base) then Some url
  else if negb (Py.truthy url) then Some base
  else
    match urlparse base "" with
    | None => None
    | Some b =>
    match urlparse url (p_scheme b) with
    | None => None
    | Some u =>
      if negb (String.eqb (p_scheme u) (p_scheme b))
         || negb (in_list (p_scheme u) uses_relative)
      then Some url
      else if in_list (p_scheme u) uses_netloc && Py.truthy (p_netloc u)
      then Some (urlunparse u)
      else
        let netloc :=
          if in_list (p_scheme u) uses_netloc then p_netloc b
          else p_netloc u in
        if negb (Py.truthy (p_path u)) && negb (Py.truthy (p_params u))
        then
          let query :=
            if negb (Py.truthy (p_query u)) then p_query b else p_query u in
          Some (urlunparse (mkParse (p_scheme u) netloc (p_path b)
                                    (p_params b) query (p_fragment u)))
        else
          let base_parts := Py.split "/" (p_path b) in
          let base_parts :=
            if negb (String.eqb (Py.last_item base_parts) "")
            then removelast base_parts else base_parts in
          let segments :=
            if Py.startswith "/" (p_path u) then Py.split "/" (p_path u)
            else filter_middle (base_parts ++ Py.split "/" (p_path u)) in
          let resolved_path := foldl resolve_step [] segments in
          let resolved_path :=
            if in_list (Py.last_item segments) ["."; ".."]
            then resolved_path ++ [""] else resolved_path in
          let joined := Py.join "/" resolved_path in
          Some (urlunparse (mkParse (p_scheme u) netloc
                                    (if Py.truthy joined then joined else "/")
                                    (p_params u) (p_query u) (p_fragment u)))
    end
    end.

End WithHostCheck.

End UrlParse.

(** ** The parsed document (BeautifulSoup)

    HTML parsing and tree search belong to the [bs4] library.  The
    scraper reaches the tree only through [find], [find_all], [parent],
    [get_text(strip=True)] and attribute lookup, which form the interface
    below; the code of [scrape.py] is embedded over any implementation
    of it. *)

(** The value a search compares a class or an attribute with: a string, or
    one of the compiled regular expressions of [scrape.py], all of which
    are alternations of literal words. *)
Inductive pattern :=
  | Exact (s : string)              (* class_='dynamic-name' *)
  | Search (words : list string)    (* re.compile(r'w1|w2|...') *)
  | SearchEnd (words : list string) (* re.compile(r'(w1|w2|...)$') *).

(** The arguments of one [find] or [find_all] call: tag names (the empty
    list when no name is given), [class_=] and [href=]. *)
Record selector := mkSelector {
  sel_names : list string;
  sel_class : option pattern;
  sel_href : option pattern
}.

Class Markup (Tag : Type) := {
  find : Tag -> selector -> option Tag;
  find_all : Tag -> selector -> list Tag;
  parent : Tag -> option Tag;
  (** [tag.get_text(strip=True)] *)
  get_text : Tag -> string;
  (** [tag.get(name)] for a single-valued attribute *)
  get : Tag -> string -> option string;
  (** [tag.get('class', [])] *)
  get_class : Tag -> list string
}.

Definition by_class (c : string) : selector :=
  mkSelector [] (Some (Exact c)) None.
Definition by_names (names : list string) : selector :=
  mkSelector names None None.
Definition by_name_class (name c : string) : selector :=
  mkSelector [name] (Some (Exact c)) None.
Definition by_name_href (name : string) (p : pattern) : selector :=
  mkSelector [name] None (Some p).
Definition by_names_class_re (names words : list string) : selector :=
  mkSelector names (Some (Search words)) None.
Definition by_class_re (words : list string) : selector :=
  mkSelector [] (Some (Search words)) None.

(** ** The scraper object *)

(** [self.base_url]: assigned in [__init__] and never again. *)
Definition base_url : string := "https://9animetv.to".

(** [anime_info[key] = value] for a string value. *)
Definition set_str (key value : string) (info : AnimeInfo) : AnimeInfo :=
  {| strs := <[key := value]> (strs info);
     genres := genres info; page := page info |}.

Definition set_genres (value : list string) (info : AnimeInfo) : AnimeInfo :=
  {| strs := strs info; genres := Some value; page := page info |}.

Definition set_page (value : Z) (info : AnimeInfo) : AnimeInfo :=
  {| strs := strs info; genres := genres info; page := Some value |}.

(** [anime_info = {}] *)
Definition empty_info : AnimeInfo :=
  {| strs := ∅; genres := None; page := None |}.

(** [bool(anime_info)]: a dict is true when it has a key. *)
Definition dict_truthy (info : AnimeInfo) : bool :=
  negb (bool_decide (strs info = ∅))
  || bool_decide (is_Some (genres info)) || bool_decide (is_Some (page info)).

(** The body of the [try] block of [extract_anime_info] runs step by
    step on the dict; an exception leaves the dict as it is at that point
    and skips the remaining steps. *)
Inductive attempt :=
  | Ok (info : AnimeInfo)
  | Except (info : AnimeInfo).

Definition and_then (a : attempt) (step : AnimeInfo -> attempt) : attempt :=
  match a with
  | Ok info => step info
  | Except info => Except info
  end.

Notation "a >>= step" := (and_then a step) (at level 50, left associativity).

(** [except Exception: logger.warning(...)], then [return anime_info]. *)
Definition returned (a : attempt) : AnimeInfo :=
  match a with
  | Ok info => info
  | Except info => info
  end.

(** The navigation words of line 69. *)
Definition stoplist : list string :=
  ["updated"; "added"; "ongoing"; "upcoming"; "home"].

(** [re.match(r'\d{4}', text)] *)
Definition match_4_digits (text : string) : bool :=
  match text with
  | String a (String b (String c (String d _))) =>
      Py.is_digit a && Py.is_digit b && Py.is_digit c && Py.is_digit d
  | _ => false
  end.

(** The four tests of the chain at lines 108-115. *)
Definition is_episodes (class_list : list string) (text : string) : bool :=
  existsb (fun cls => Py.contains "ep" (Py.lower cls)) class_list
  || Py.contains "Ep" text.
Definition is_status (class_list : list string) : bool :=
  Py.contains "status" (Py.lower (Py.join " " class_list)).
Definition is_year (text : string) : bool := match_4_digits text.
Definition is_type (class_list : list string) : bool :=
  Py.contains "type" (Py.lower (Py.join " " class_list)).

Section Extractor.

Context {Tag : Type} `{Markup Tag}.
Variable check_bracketed_netloc : string -> bool.

Definition urljoin := UrlParse.urljoin check_bracketed_netloc.

(** Lines 58-70: the title. *)
Definition select_title (anime_element : Tag) : option Tag :=
  let title_element := find anime_element (by_class "dynamic-name") in
  let title_element :=
    match title_element with
    | None => find anime_element (by_class "film-name")
    | Some _ => title_element
    end in
  match title_element with
  | None => find anime_element (by_names ["h3"; "h2"; ".title"; ".name"; "a"])
  | Some _ => title_element
  end.

Definition extract_title (anime_element : Tag) (anime_info : AnimeInfo)
  : attempt :=
  match select_title anime_element with
  | Some title_element =>
      let title := get_text title_element in
      if (3 <? String.length title)%nat
         && negb (UrlParse.in_list (Py.lower title) stoplist)
      then Ok (set_str "title" title anime_info)
      else Ok anime_info
  | None => Ok anime_info
  end.

(** Lines 72-79: the anchor. *)
Definition select_link (anime_element : Tag) : option Tag :=
  let link_element := find anime_element (by_name_class "a" "dynamic-name") in
  let link_element :=
    match link_element with
    | None => find anime_element (by_name_href "a" (Search ["/watch/"]))
    | Some _ => link_element
    end in
  let link_element :=
    match link_element with
    | None => find anime_element (by_name_class "a" "film-poster-ahref")
    | Some _ => link_element
    end in
  match link_element with
  | None => find anime_element (by_names ["a"])
  | Some _ => link_element
  end.

(** Lines 81-89: [url], [id] and [japanese_name]. *)
Definition extract_link (anime_element : Tag) (anime_info : AnimeInfo)
  : attempt :=
  match select_link anime_element with
  | Some link_element =>
      match get link_element "href" with
      | Some href =>
          if Py.truthy href && Py.contains "/watch/" href then
            match urljoin base_url href with
            | None => Except anime_info
            | Some url =>
                let anime_info := set_str "url" url anime_info in
                let anime_info :=
                  set_str "id" (Py.last_item (Py.split "/" href)) anime_info in
                match get link_element "data-jname" with
                | Some jname =>
                    if Py.truthy jname
                    then Ok (set_str "japanese_name" jname anime_info)
                    else Ok anime_info
                | None => Ok anime_info
                end
            end
          else Ok anime_info
      | None => Ok anime_info
      end
  | None => Ok anime_info
  end.

(** Lines 91-100: the image, searched in the element, its parent and its
    grandparent. *)
Definition select_image (anime_element : Tag) : option Tag :=
  let img_element := find anime_element (by_names ["img"]) in
  let img_element :=
    match img_element, parent anime_element with
    | None, Some p => find p (by_names ["img"])
    | _, _ => img_element
    end in
  match img_element, parent anime_element with
  | None, Some p =>
      match parent p with
      | Some pp => find pp (by_names ["img"])
      | None => img_element
      end
  | _, _ => img_element
  end.

Definition extract_image (anime_element : Tag) (anime_info : AnimeInfo)
  : attempt :=
  match select_image anime_element with
  | Some img_element =>
      match urljoin base_url (default "" (get img_element "src")) with
      | None => Except anime_info
      | Some image_url =>
          Ok (set_str "alt_text" (default "" (get img_element "alt"))
                (set_str "image_url" image_url anime_info))
      end
  | None => Ok anime_info
  end.

(** Lines 104-115: one iteration of the loop over [info_elements]. *)
Definition classify (anime_info : AnimeInfo) (elem : Tag) : AnimeInfo :=
  let text := get_text elem in
  let class_list := get_class elem in
  if is_episodes class_list text then set_str "episodes" text anime_info
  else if is_status class_list then set_str "status" text anime_info
  else if is_year text then set_str "year" text anime_info
  else if is_type class_list then set_str "type" text anime_info
  else anime_info.

Definition extract_info (anime_element : Tag) (anime_info : AnimeInfo)
  : attempt :=
  let info_elements :=
    find_all anime_element
      (by_names_class_re ["span"; "div"; "p"]
         ["episode"; "status"; "year"; "genre"; "rating"; "ep"; "type"]) in
  Ok (foldl classify anime_info info_elements).

(** Lines 117-120 *)
Definition extract_rating (anime_element : Tag) (anime_info : AnimeInfo)
  : attempt :=
  match find anime_element (by_class_re ["rating"; "score"; "star"]) with
  | Some rating_element =>
      Ok (set_str "rating" (get_text rating_element) anime_info)
  | None => Ok anime_info
  end.

(** Lines 126-132: one iteration of the loop over [genre_elements]. *)
Definition collect_genre (genres : list string) (genre : Tag) : list string :=
  let genre_text := get_text genre in
  if Py.truthy genre_text && Py.has_char "," genre_text
  then genres ++ map (Py.strip Py.is_space) (Py.split "," genre_text)
  else genres ++ [genre_text].

(** Lines 122-133 *)
Definition extract_genres (anime_element : Tag) (anime_info : AnimeInfo)
  : attempt :=
  match find_all anime_element (by_class_re ["genre"; "tag"]) with
  | [] => Ok anime_info
  | genre_elements =>
      let genres := foldl collect_genre [] genre_elements in
      Ok (set_genres (filter (fun g => Is_true (Py.truthy g)) genres)
                     anime_info)
  end.

(** Lines 135-138 *)
Definition extract_description (anime_element : Tag) (anime_info : AnimeInfo)
  : attempt :=
  match find anime_element
          (by_names_class_re ["p"; "div"] ["desc"; "summary"; "synopsis"]) with
  | Some desc_element =>
      Ok (set_str "description" (get_text desc_element) anime_info)
  | None => Ok anime_info
  end.

(** [extract_anime_info] *)
Definition extract_anime_info (anime_element : Tag) : AnimeInfo :=
  returned
    (Ok empty_info
       >>= extract_title anime_element
       >>= extract_link anime_element
       >>= extract_image anime_element
       >>= extract_info anime_element
       >>= extract_rating anime_element
       >>= extract_genres anime_element
       >>= extract_description anime_element).

End Extractor.

(** ** Section scrapers and the aggregator *)

(** [str(n)] for an integer. *)
Definition str_of_int (n : Z) : string :=
  DecimalString.NilZero.string_of_int (Z.to_int n).

(** [self.scraped_anime] is the only attribute the methods reassign. *)
Record NineAnimeScraper := mkScraper {
  scraped_anime : list AnimeInfo
}.

(** [len(anime_info.get('title', '')) > 3] *)
Definition long_title (anime_info : AnimeInfo) : bool :=
  (3 <? String.length (get_default anime_info "title"))%nat.

(** [anime_info and anime_info.get('title')] *)
Definition has_title (anime_info : AnimeInfo) : bool :=
  dict_truthy anime_info && Py.truthy (get_default anime_info "title").

Definition listing_words : list string := ["anime"; "item"; "card"; "show"].
Definition listing_words_movie : list string :=
  ["anime"; "item"; "card"; "show"; "movie"].

(** [re.compile(r'/(home|updated|added|ongoing|upcoming)$')] *)
Definition nav_link : pattern :=
  SearchEnd ["/home"; "/updated"; "/added"; "/ongoing"; "/upcoming"].

Section Scrapers.

Context {Tag : Type} `{Markup Tag}.
Variable check_bracketed_netloc : string -> bool.

(** [self.get_page(url)]: the document the site answers with, or [None]
    once the retries are used up. *)
Variable get_page : string -> option Tag.

Definition extract := extract_anime_info check_bracketed_netloc.

(** A loop that extracts each element, tests the record and appends it
    after tagging. *)
Definition scrape_elements (skip : Tag -> bool) (accept : AnimeInfo -> bool)
    (tag : AnimeInfo -> AnimeInfo) (anime_elements : list Tag)
  : list AnimeInfo :=
  foldl (fun found element =>
           if skip element then found
           else
             let anime_info := extract element in
             if accept anime_info then found ++ [tag anime_info] else found)
        [] anime_elements.

Definition no_skip (element : Tag) : bool := false.

(** [element.find('a', href=re.compile(r'/(home|...)$'))] is found *)
Definition has_nav_link (element : Tag) : bool :=
  bool_decide (is_Some (find element (by_name_href "a" nav_link))).

Definition scrape_homepage_anime : list AnimeInfo :=
  match get_page base_url with
  | None => []
  | Some soup =>
      let anime_sections :=
        find_all soup
          (by_names_class_re ["section"; "div"]
             ["anime"; "show"; "movie"; "trending"; "popular"; "latest"]) in
      foldl (fun homepage_anime section =>
               homepage_anime ++
               scrape_elements no_skip has_title (set_str "category" "homepage")
                 (find_all section
                    (by_names_class_re ["div"; "article"; "li"] listing_words)))
            [] anime_sections
  end.

Definition scrape_ongoing_anime : list AnimeInfo :=
  match get_page (base_url +:+ "/ongoing") with
  | None => []
  | Some soup =>
      scrape_elements no_skip has_title (set_str "category" "ongoing")
        (find_all soup (by_names_class_re ["div"; "article"; "li"] listing_words))
  end.

Definition scrape_upcoming_anime : list AnimeInfo :=
  match get_page (base_url +:+ "/upcoming") with
  | None => []
  | Some soup =>
      scrape_elements has_nav_link
        (fun anime_info => has_title anime_info && long_title anime_info)
        (set_str "category" "upcoming")
        (find_all soup
           (by_names_class_re ["div"; "article"; "li"] listing_words_movie))
  end.

(** Lines 254-256: the address of a genre page. *)
Definition genre_slug (genre : string) : string :=
  Py.replace "&" "and" (Py.replace " " "-" (Py.lower genre)).

Definition genre_page_url (genre : string) : string :=
  base_url +:+ "/genre/" +:+ genre_slug genre.

Definition scrape_by_genre (genre : string) : list AnimeInfo :=
  match get_page (genre_page_url genre) with
  | None => []
  | Some soup =>
      scrape_elements no_skip
        (fun anime_info => has_title anime_info && long_title anime_info)
        (fun anime_info =>
           set_str "genre" genre
             (set_str "category" ("genre_" +:+ Py.lower genre) anime_info))
        (find_all soup
           (by_names_class_re ["div"; "article"; "li"] listing_words_movie))
  end.

Definition scrape_recently_updated : list AnimeInfo :=
  match get_page (base_url +:+ "/recently-updated") with
  | None => []
  | Some soup =>
      scrape_elements has_nav_link
        (fun anime_info => has_title anime_info && long_title anime_info)
        (set_str "category" "recently_updated")
        (find_all soup
           (by_names_class_re ["div"; "article"; "li"] listing_words_movie))
  end.

Definition scrape_recently_added (page : Z) : list AnimeInfo :=
  let added_url :=
    if (page =? 1)%Z then base_url +:+ "/recently-added"
    else base_url +:+ "/recently-added?page=" +:+ str_of_int page in
  match get_page added_url with
  | None => []
  | Some soup =>
      scrape_elements no_skip
        (fun anime_info => has_title anime_info && long_title anime_info)
        (fun anime_info =>
           set_page page (set_str "category" "recently_added" anime_info))
        (find_all soup (by_name_class "div" "film-detail"))
  end.

(** [scrape_recently_added_multiple_pages]: pages [1..max_pages], then the
    duplicate removal of lines 336-348. *)
Definition recently_added_pages (max_pages : Z) : list AnimeInfo :=
  foldl (fun all_anime page => all_anime ++ scrape_recently_added page)
        [] (seqZ 1 max_pages).

Definition scrape_recently_added_multiple_pages (max_pages : Z)
  : list AnimeInfo :=
  multiple_pages_unique (recently_added_pages max_pages).

Definition popular_genres : list string :=
  ["Action"; "Comedy"; "Drama"; "Romance"; "Fantasy"].

(** Lines 400-417: everything [scrape_all] gathers before it removes
    duplicates. *)
Definition gather_all : list AnimeInfo :=
  scrape_homepage_anime ++ scrape_recently_updated ++ scrape_recently_added 1
  ++ scrape_ongoing_anime ++ scrape_upcoming_anime
  ++ foldl (fun all_anime genre => all_anime ++ take 10 (scrape_by_genre genre))
           [] popular_genres.

(** [scrape_all]: the new state of the object and the list returned. *)
Definition scrape_all (self : NineAnimeScraper)
  : NineAnimeScraper * list AnimeInfo :=
  let unique_anime := scrape_all_unique gather_all in
  ({| scraped_anime := unique_anime |}, unique_anime).

End Scrapers.

(** ** Persistence

    The files of the working directory are a map from file name to
    content; [open(filename, 'w')] followed by writes replaces the content
    under that name. *)

(** [anime.keys()] *)
Definition keys (anime : AnimeInfo) : gset string :=
  dom (strs anime)
  ∪ (if genres anime is Some _ then {["genres"]} else ∅)
  ∪ (if page anime is Some _ then {["page"]} else ∅).

(** [sorted(all_keys)] *)
Definition sorted (all_keys : gset string) : list string :=
  merge_sort String.le (elements all_keys).

Section Persistence.

(** The text [json] produces for one record nested at an indent level,
    and the text [csv.DictWriter] produces for a header and its rows:
    both are the libraries' and taken as given. *)
Variable json_dict : nat -> AnimeInfo -> string.
Variable csv_document : list string -> list AnimeInfo -> string.

(** [json.dump(lst, f, indent=2, ensure_ascii=False)] on a list: the
    empty list is written as [[]], any other with one item per line. *)
Definition json_dump (lst : list AnimeInfo) : string :=
  match lst with
  | [] => "[]"
  | _ =>
      let newline_indent := String "010" "  " in
      "[" +:+ newline_indent
          +:+ Py.join ("," +:+ newline_indent) (map (json_dict 1) lst)
          +:+ String "010" "]"
  end.

Definition save_to_json (self : NineAnimeScraper) (filename : string)
    (files : gmap string string) : gmap string string :=
  <[filename := json_dump (scraped_anime self)]> files.

Definition save_to_csv (self : NineAnimeScraper) (filename : string)
    (files : gmap string string) : gmap string string :=
  match scraped_anime self with
  | [] => files
  | _ =>
      let all_keys :=
        foldl (fun all_keys anime => all_keys ∪ keys anime) ∅
              (scraped_anime self) in
      <[filename := csv_document (sorted all_keys) (scraped_anime self)]> files
  end.

End Persistence.

(** ** A document tree

    A small implementation of the [Markup] interface: elements with a
    name, class tokens, attributes and children, searched in document
    order.  The examples run the scraper on such trees. *)

Module Doc.

#[local] Unset Elimination Schemes.
Inductive html :=
  | Text (s : string)
  | Element (name : string) (class_ : list string)
            (attrs : list (string * string)) (children : list html).
#[local] Set Elimination Schemes.

(** An element together with its ancestors, nearest first. *)
Definition tag : Type := html * list html.

Fixpoint ends_with (w s : string) : bool :=
  String.eqb w s ||
  match s with
  | EmptyString => false
  | String _ rest => ends_with w rest
  end.

Definition matches (p : pattern) (value : string) : bool :=
  match p with
  | Exact s => String.eqb s value
  | Search words => existsb (fun w => Py.contains w value) words
  | SearchEnd words => existsb (fun w => ends_with w value) words
  end.

Fixpoint lookup_attr (name : string) (attrs : list (string * string))
  : option string :=
  match attrs with
  | [] => None
  | (k, v) :: rest => if String.eqb k name then Some v else lookup_attr name rest
  end.

Definition selected (sel : selector) (h : html) : bool :=
  match h with
  | Text _ => false
  | Element name class_ attrs _ =>
      (match sel_names sel with
       | [] => true
       | names => UrlParse.in_list name names
       end)
      && (match sel_class sel with
          | None => true
          | Some p => existsb (matches p) class_
          end)
      && (match sel_href sel with
          | None => true
          | Some p =>
              match lookup_attr "href" attrs with
              | Some v => matches p v
              | None => false
              end
          end)
  end.

(** The elements below [h], in document order. *)
Fixpoint descendants (up : list html) (h : html) : list tag :=
  match h with
  | Text _ => []
  | Element _ _ _ children =>
      List.flat_map
        (fun child =>
           match child with
           | Text _ => []
           | Element _ _ _ _ => (child, h :: up) :: descendants (h :: up) child
           end)
        children
  end.

Definition doc_find_all (t : tag) (sel : selector) : list tag :=
  List.filter (fun d => selected sel (fst d)) (descendants (snd t) (fst t)).

Definition doc_find (t : tag) (sel : selector) : option tag :=
  head (doc_find_all t sel).

Definition doc_parent (t : tag) : option tag :=
  match snd t with
  | [] => None
  | p :: up => Some (p, up)
  end.

(** The stripped text pieces below [h], joined. *)
Fixpoint text_of (h : html) : string :=
  match h with
  | Text s => Py.strip Py.is_space s
  | Element _ _ _ children =>
      List.fold_right (fun child acc => text_of child +:+ acc) "" children
  end.

Definition doc_get (t : tag) (name : string) : option string :=
  match fst t with
  | Text _ => None
  | Element _ _ attrs _ => lookup_attr name attrs
  end.

Definition doc_get_class (t : tag) : list string :=
  match fst t with
  | Text _ => []
  | Element _ class_ _ _ => class_
  end.

#[global] Instance markup : Markup tag := {|
  find := doc_find;
  find_all := doc_find_all;
  parent := doc_parent;
  get_text t := text_of (fst t);
  get := doc_get;
  get_class := doc_get_class
|}.

(** A detached element. *)
Definition root (h : html) : tag := (h, []).

(** The host check used when examples are run: no bracketed host
    occurs in them. *)
Definition no_brackets (netloc : string) : bool := false.

End Doc.

(** ** Statements about the duplicate removal *)

(** Both loops are one loop, up to the test on the length of the title. *)
Definition keep_step (long_enough : string -> bool) (st : Seen)
    (anime : AnimeInfo) : Seen :=
  let title := title_key anime in
  let url := url_key anime in
  if bool_decide (title ∉ seen_titles st)
     && bool_decide (url ∉ seen_urls st)
     && Py.truthy title && Py.truthy url
     && long_enough title
  then remember anime st
  else st.

Definition longer_than_3 (title : string) : bool :=
  (3 <? String.length title)%nat.

Definition any_length (title : string) : bool := true.

(** The rule on the records kept so far: neither the lowercased title nor
    the url of [anime] occurs among them, both are non-empty, and the title
    is long enough. *)
Definition seen_rule (long_enough : string -> bool) (kept : list AnimeInfo)
    (anime : AnimeInfo) : bool :=
  bool_decide (title_key anime ∉ title_key <$> kept)
  && bool_decide (url_key anime ∉ url_key <$> kept)
  && Py.truthy (title_key anime) && Py.truthy (url_key anime)
  && long_enough (title_key anime).

(** The rule on the pair: the (lowercased title, url) pair of [anime] does
    not occur among the records kept so far, both are non-empty, and the
    title is longer than 3. *)
Definition pair_key (anime : AnimeInfo) : string * string :=
  (title_key anime, url_key anime).

Definition pair_rule (kept : list AnimeInfo) (anime : AnimeInfo) : bool :=
  bool_decide (pair_key anime ∉ pair_key <$> kept)
  && Py.truthy (title_key anime) && Py.truthy (url_key anime)
  && longer_than_3 (title_key anime).

(** A list no record of which the rule would drop. *)
Definition all_kept (long_enough : string -> bool) (l : list AnimeInfo) : Prop :=
  NoDup (title_key <$> l) ∧ NoDup (url_key <$> l)
  ∧ Forall (fun anime =>
              Py.truthy (title_key anime) = true
              ∧ Py.truthy (url_key anime) = true
              ∧ long_enough (title_key anime) = true) l.

(** The sets of seen titles and urls are those of the records kept. *)
Definition consistent (st : Seen) : Prop :=
  (∀ t, t ∈ seen_titles st ↔ t ∈ title_key <$> unique_anime st)
  ∧ (∀ u, u ∈ seen_urls st ↔ u ∈ url_key <$> unique_anime st).

(** A record with only a title and a url. *)
Definition titled (title url : string) : AnimeInfo :=
  set_str "url" url (set_str "title" title empty_info).

(** The records a loop keeps, with the test on the title as a parameter. *)
Definition unique_of (long_enough : string -> bool) (l : list AnimeInfo)
  : list AnimeInfo :=
  unique_anime (foldl (keep_step long_enough) no_seen l).

(** Records used in the examples. *)
Definition naruto_677 : AnimeInfo :=
  titled "Naruto" "https://9animetv.to/watch/naruto-677".
Definition naruto_355 : AnimeInfo :=
  titled "Naruto" "https://9animetv.to/watch/naruto-shippuden-355".
Definition air_1234 : AnimeInfo :=
  titled "Air" "https://9animetv.to/watch/air-1234".

(** ** Statements about [extract_anime_info] *)

(** The chain of lines 108-115 as a list of branches, in source order:
    the test of each and the key it writes. *)
Definition branches (class_list : list string) (text : string)
  : list (bool * string) :=
  [(is_episodes class_list text, "episodes");
   (is_status class_list, "status");
   (is_year text, "year");
   (is_type class_list, "type")].

Definition first_match (bs : list (bool * string)) : option string :=
  snd <$> List.find fst bs.

Definition last_match (bs : list (bool * string)) : option string :=
  first_match (reverse bs).

(** Writing [text] under the chosen key, or nothing when no branch
    matches. *)
Definition assign (key : option string) (text : string) (info : AnimeInfo)
  : AnimeInfo :=
  match key with
  | Some key => set_str key text info
  | None => info
  end.

(** Two strings are equal when case is ignored. *)
Definition same_ignoring_case (a b : string) : Prop :=
  Py.lower a = Py.lower b.

(** Scheme and network location of a URL, as [urlsplit] reads them. *)
Definition origin (check_bracketed_netloc : string -> bool) (url : string)
  : option (string * string) :=
  (fun r => (UrlParse.scheme r, UrlParse.netloc r))
    <$> UrlParse.urlsplit check_bracketed_netloc url "".

(** The final segment of the path of a URL. *)
Definition final_path_segment (check_bracketed_netloc : string -> bool)
    (url : string) : option string :=
  (fun r => Py.last_item (Py.split "/" (UrlParse.path r)))
    <$> UrlParse.urlsplit check_bracketed_netloc url "".

(** An href that names no scheme other than [https] and no host other
    than [9animetv.to]. *)
Definition names_no_other_origin (check_bracketed_netloc : string -> bool)
    (href : string) : bool :=
  match UrlParse.urlsplit check_bracketed_netloc href "" with
  | Some r =>
      (String.eqb (UrlParse.scheme r) "" || String.eqb (UrlParse.scheme r) "https")
      && (String.eqb (UrlParse.netloc r) ""
          || String.eqb (UrlParse.netloc r) "9animetv.to")
  | None => false
  end.

(** A character other than [?], [#], [;], tab, CR and LF. *)
Definition plain_char (c : ascii) : bool :=
  negb (Ascii.eqb c "?" || Ascii.eqb c "#" || Ascii.eqb c ";"
        || Ascii.eqb c "009" || Ascii.eqb c "013" || Ascii.eqb c "010").

(** An href that is a path from the root of the site, without query,
    fragment, parameters or line breaks, and not ending in a dot
    segment. *)
Definition rooted_path (href : string) : bool :=
  Py.startswith "/" href && negb (Py.startswith "//" href)
  && Py.forall_chars plain_char href
  && negb (UrlParse.in_list (Py.last_item (Py.split "/" href)) ["."; ".."]).

(** A step of the extractor that leaves a key of the dict as it was. *)
Definition keeps (key : string) (step : AnimeInfo -> attempt) : Prop :=
  ∀ info, strs (returned (step info)) !! key = strs info !! key.

(** Markup used in the examples: one listing entry, with the anchor's
    href and the class tokens and text of one metadata element left
    open. *)
Definition anchor_html (href : string) : Doc.html :=
  Doc.Element "a" ["dynamic-name"]
    [("href", href); ("data-jname", "Wan Pisu")] [Doc.Text " One Piece "].

Definition name_html (href : string) : Doc.html :=
  Doc.Element "h3" ["film-name"] [] [anchor_html href].

Definition listing_html (href : string) (meta_class : list string)
    (meta_text : string) : Doc.html :=
  Doc.Element "div" ["film-detail"] []
    [name_html href;
     Doc.Element "div" ["fd-infor"] []
       [Doc.Element "span" meta_class [] [Doc.Text meta_text]]].

Definition listing (href : string) (meta_class : list string)
    (meta_text : string) : Doc.tag :=
  Doc.root (listing_html href meta_class meta_text).

(** The anchor of the entry, as the searches return it. *)
Definition listing_anchor (href : string) (meta_class : list string)
    (meta_text : string) : Doc.tag :=
  (anchor_html href,
   [name_html href; listing_html href meta_class meta_text]).

(** ** Statements about the genre address *)

(** The slug, character by character: a space becomes a hyphen, an
    ampersand becomes [and], any other character is lowercased. *)
Definition slug_char (c : ascii) : string :=
  if Ascii.eqb c " " then "-"
  else if Ascii.eqb c "&" then "and"
  else String (Py.lower_char c) "".

Fixpoint slug_by_char (genre : string) : string :=
  match genre with
  | EmptyString => EmptyString
  | String c rest => slug_char c +:+ slug_by_char rest
  end.

(** A metadata element whose class matches the episode test and the
    type test at once. *)
Definition episode_type_span : Doc.tag :=
  Doc.root (Doc.Element "span" ["fdi-item"; "episode-type"] [] [Doc.Text "TV"]).

(** ** Statements about addresses *)

(** A text that is empty or starts with one of [/?#]. *)
Definition starts_at_delim (rest : string) : Prop :=
  rest = "" ∨ ∃ c tail, rest = String c tail ∧ UrlParse.is_delim c = true.

(** The path [urlunsplit] writes after a network location. *)
Definition after_netloc (url : string) : string :=
  if Py.truthy url && negb (Py.startswith "/" url) then "/" +:+ url else url.

(** The path [urljoin] resolves for an href that is a rooted path. *)
Definition resolved (href : string) : string :=
  let joined :=
    Py.join "/" (foldl UrlParse.resolve_step [] (Py.split "/" href)) in
  if Py.truthy joined then joined else "/".

(** ** The page fetcher ([get_page], lines 35-48)

    The site is a function from the number of the request to what that
    request gives: a parsed document, or [None] for a
    [requests.RequestException] (time-out, refused connection, error
    status).  What the method does besides returning is kept as a list of
    events. *)

Inductive event :=
  | Request (url : string)     (* self.session.get(url, timeout=10) *)
  | Warning (attempt : Z)      (* logger.warning("Attempt {attempt + 1} failed ...") *)
  | Sleep (seconds : Z)        (* time.sleep(2) *)
  | Error (retries : Z)        (* logger.error("Failed to fetch ... after {retries} attempts") *).

Section PageFetcher.

Context {Tag : Type}.
Variable respond : nat -> option Tag.

(** The iterations of [for attempt in range(retries)] from [attempt] on;
    [remaining] is the number of iterations left. *)
Fixpoint get_page_loop (url : string) (retries : Z) (attempt remaining : nat)
  : option Tag * list event :=
  match remaining with
  | O => (None, [])
  | S remaining =>
      match respond attempt with
      | Some soup => (Some soup, [Request url])
      | None =>
          if (Z.of_nat attempt <? retries - 1)%Z then
            let '(result, events) :=
              get_page_loop url retries (S attempt) remaining in
            (result,
             Request url :: Warning (Z.of_nat attempt + 1) :: Sleep 2 :: events)
          else
            (None, [Request url; Warning (Z.of_nat attempt + 1); Error retries])
      end
  end.

(** [get_page(url, retries)] *)
Definition get_page_retry (url : string) (retries : Z)
  : option Tag * list event :=
  get_page_loop url retries 0 (Z.to_nat retries).

End PageFetcher.

Definition is_request (e : event) : bool :=
  match e with Request _ => true | _ => false end.
Definition is_warning (e : event) : bool :=
  match e with Warning _ => true | _ => false end.
Definition is_sleep (e : event) : bool :=
  match e with Sleep _ => true | _ => false end.
Definition is_error (e : event) : bool :=
  match e with Error _ => true | _ => false end.

(** How many events of a kind a run has. *)
Definition count (kind : event -> bool) (events : list event) : nat :=
  length (List.filter kind events).

(** The seconds slept in a run. *)
Definition slept (events : list event) : Z :=
  foldr (fun e total => match e with Sleep s => (s + total)%Z | _ => total end)
        0%Z events.

(** ** The remaining section scrapers *)

Section MoreScrapers.

Context {Tag : Type} `{Markup Tag}.
Variable check_bracketed_netloc : string -> bool.
Variable get_page : string -> option Tag.

Definition scrape_updated_anime : list AnimeInfo :=
  match get_page (base_url +:+ "/updated") with
  | None => []
  | Some soup =>
      scrape_elements check_bracketed_netloc no_skip has_title
        (set_str "category" "updated")
        (find_all soup (by_names_class_re ["div"; "article"; "li"] listing_words))
  end.

Definition scrape_added_anime : list AnimeInfo :=
  match get_page (base_url +:+ "/added") with
  | None => []
  | Some soup =>
      scrape_elements check_bracketed_netloc no_skip has_title
        (set_str "category" "added")
        (find_all soup (by_names_class_re ["div"; "article"; "li"] listing_words))
  end.

End MoreScrapers.

(** ** The detail page ([scrape_anime_details], lines 353-394) *)

(** One entry of [details['episodes']]: the dict with the keys
    ['number'], ['title'] and ['url']. *)
Record EpInfo := mkEpInfo {
  ep_number : string;
  ep_title : string;
  ep_url : string
}.

(** A value of the [details] dict. *)
Inductive detail :=
  | DStr (s : string)
  | DInt (n : Z)
  | DEpisodes (episodes : list EpInfo).

Section Details.

Context {Tag : Type} `{Markup Tag}.
Variable check_bracketed_netloc : string -> bool.
Variable get_page : string -> option Tag.

(** Lines 373-376: the loop over [zip(labels, values)]. *)
Definition add_labels (details : gmap string detail)
    (labels values : list Tag) : gmap string detail :=
  foldl (fun details pair =>
           let label_text := Py.lower (get_text pair.1) in
           let value_text := get_text pair.2 in
           <[label_text := DStr value_text]> details)
        details (zip labels values).

(** Lines 384-388: the dict of one episode, or [None] when building it
    raises ([KeyError] for an anchor without href, [ValueError] from
    [urljoin]). *)
Definition episode_info (ep : Tag) : option EpInfo :=
  let number :=
    match find ep (by_class_re ["number"; "ep"]) with
    | Some e => get_text e
    | None => ""
    end in
  let title :=
    match find ep (by_class_re ["title"]) with
    | Some e => get_text e
    | None => ""
    end in
  match find ep (by_names ["a"]) with
  | Some a =>
      match get a "href" with
      | Some href =>
          match UrlParse.urljoin check_bracketed_netloc base_url href with
          | Some url => Some (mkEpInfo number title url)
          | None => None
          end
      | None => None
      end
  | None => Some (mkEpInfo number title "")
  end.

(** Lines 383-389: the entries appended to [details['episodes']] until
    the loop ends or an exception leaves it. *)
Fixpoint episode_infos (episodes : list Tag) : list EpInfo :=
  match episodes with
  | [] => []
  | ep :: rest =>
      match episode_info ep with
      | Some ep_info => ep_info :: episode_infos rest
      | None => []
      end
  end.

(** [scrape_anime_details(anime_url)] *)
Definition scrape_anime_details (anime_url : string) : gmap string detail :=
  match get_page anime_url with
  | None => ∅
  | Some soup =>
      let details : gmap string detail := ∅ in
      let details :=
        match find soup (by_names_class_re ["div"; "section"]
                           ["description"; "summary"; "synopsis"]) with
        | Some desc_element =>
            <["description" := DStr (get_text desc_element)]> details
        | None => details
        end in
      let info_sections :=
        find_all soup (by_names_class_re ["div"; "dl"]
                         ["info"; "details"; "metadata"]) in
      let details :=
        foldl (fun details section =>
                 add_labels details
                   (find_all section (by_names_class_re ["dt"; "span"] ["label"]))
                   (find_all section (by_names_class_re ["dd"; "span"] ["value"])))
              details info_sections in
      let episodes :=
        find_all soup (by_names_class_re ["div"; "li"] ["episode"]) in
      match episodes with
      | [] => details
      | _ =>
          <["episodes" := DEpisodes (episode_infos (take 10 episodes))]>
            (<["episode_count" := DInt (Z.of_nat (length episodes))]> details)
      end
  end.

End Details.

(** ** The summary ([print_summary], lines 462-489) *)

(** [categories[category] = categories.get(category, 0) + 1] on a dict
    that keeps its keys in the order they were first written. *)
Fixpoint bump (category : string) (categories : list (string * nat))
  : list (string * nat) :=
  match categories with
  | [] => [(category, 1%nat)]
  | (c, n) :: rest =>
      if String.eqb c category then (c, S n) :: rest
      else (c, n) :: bump category rest
  end.

(** [anime.get('category', 'unknown')] *)
Definition category_of (anime : AnimeInfo) : string :=
  default "unknown" (strs anime !! "category").

(** Lines 471-474 *)
Definition count_categories (scraped : list AnimeInfo) : list (string * nat) :=
  foldl (fun categories anime => bump (category_of anime) categories)
        [] scraped.

(** [categories.get(category, 0)] *)
Fixpoint category_count (category : string) (categories : list (string * nat))
  : nat :=
  match categories with
  | [] => O
  | (c, n) :: rest =>
      if String.eqb c category then n else category_count category rest
  end.

(** Lines 481-486: the lines printed for the record at position [i]. *)
Definition sample_lines (i : nat) (anime : AnimeInfo) : list string :=
  ["  " +:+ str_of_int (Z.of_nat i + 1) +:+ ". "
        +:+ default "Unknown" (strs anime !! "title") +:+ " - "
        +:+ default "Unknown" (strs anime !! "category")]
  ++ (if Py.truthy (get_default anime "type")
      then ["      Type: " +:+ get_default anime "type"] else [])
  ++ (if Py.truthy (get_default anime "episodes")
      then ["      Episodes: " +:+ get_default anime "episodes"] else []).

(** [print_summary]: the strings printed, one per [print] call. *)
Definition print_summary (self : NineAnimeScraper) : list string :=
  match scraped_anime self with
  | [] => ["No anime data found"]
  | scraped =>
      [String "010" "=== 9ANIME.TO SCRAPING SUMMARY ===";
       "Total anime found: " +:+ str_of_int (Z.of_nat (length scraped));
       String "010" "By category:"]
      ++ map (fun entry =>
                "  " +:+ entry.1 +:+ ": " +:+ str_of_int (Z.of_nat entry.2))
             (count_categories scraped)
      ++ [String "010" "Sample anime:"]
      ++ concat (imap sample_lines (take 5 scraped))
      ++ (if (5 <? length scraped)%nat
          then ["  ... and "
                  +:+ str_of_int (Z.of_nat (length scraped) - 5) +:+ " more"]
          else [])
  end.

(** ** The driver ([main], lines 491-512)

    The run as far as no file write fails and no interrupt arrives: the
    files afterwards and the strings printed. *)

Section Main.

Context {Tag : Type} `{Markup Tag}.
Variable check_bracketed_netloc : string -> bool.
Variable get_page : string -> option Tag.
Variable json_dict : nat -> AnimeInfo -> string.
Variable csv_document : list string -> list AnimeInfo -> string.

Definition main (files : gmap string string)
  : gmap string string * list string :=
  let scraper := {| scraped_anime := [] |} in
  let '(scraper, anime_data) :=
    scrape_all check_bracketed_netloc get_page scraper in
  match anime_data with
  | [] =>
      (files,
       ["No anime data could be scraped. The site structure might have changed."])
  | _ =>
      let files := save_to_json json_dict scraper "9anime_anime.json" files in
      let files := save_to_csv csv_document scraper "9anime_anime.csv" files in
      (files, print_summary scraper)
  end.

End Main.

(** More markup for the examples: an entry whose anchor has a host in
    unbalanced brackets, an entry with an image without [src], and an
    entry with two episode counters. *)
Definition poster_html : Doc.html :=
  Doc.Element "div" ["film-poster"] []
    [Doc.Element "img" ["film-poster-img"] [("alt", "One Piece")] []].

Definition first_counter_html : Doc.html :=
  Doc.Element "span" ["tick-eps"] [] [Doc.Text "Ep 1"].
Definition second_counter_html : Doc.html :=
  Doc.Element "span" ["tick-eps"] [] [Doc.Text "Ep 12"].
Definition counters_html : Doc.html :=
  Doc.Element "div" ["fd-infor"] [] [first_counter_html; second_counter_html].

(** The selector of line 103. *)
Definition info_selector : selector :=
  by_names_class_re ["span"; "div"; "p"]
    ["episode"; "status"; "year"; "genre"; "rating"; "ep"; "type"].

(** ** Statements about the section scrapers *)

(** A record whose title passed the test of line 69. *)
Definition valid_title (anime : AnimeInfo) : Prop :=
  ∃ title,
    strs anime !! "title" = Some title
    ∧ (3 < String.length title)%nat
    ∧ Py.lower title ∉ stoplist.

(** A record stamped with a category. *)
Definition tagged (category : string) (anime : AnimeInfo) : Prop :=
  strs anime !! "category" = Some category.

(** The categories [scrape_all] can produce. *)
Definition scrape_all_categories : list string :=
  ["homepage"; "recently_updated"; "recently_added"; "ongoing"; "upcoming";
   "genre_action"; "genre_comedy"; "genre_drama"; "genre_romance";
   "genre_fantasy"].

(** The keys [extract_anime_info] can write. *)
Definition extractor_keys : list string :=
  ["title"; "url"; "id"; "japanese_name"; "image_url"; "alt_text";
   "episodes"; "status"; "year"; "type"; "rating"; "description"].

(** The records of a list that carry a given category. *)
Definition in_category (category : string) (l : list AnimeInfo)
  : list AnimeInfo :=
  filter (fun anime => category_of anime = category) l.

(** The message [main] prints when nothing was scraped. *)
Definition nothing_scraped : string :=
  "No anime data could be scraped. The site structure might have changed.".

(** A site that answers every request with the same page, holding one
    listing entry; and a site that answers none. *)
Definition one_entry_site (url : string) : option Doc.tag :=
  Some (Doc.root
          (Doc.Element "body" [] []
             [listing_html "/watch/one-piece-100" ["tick-eps"] "Ep 12"])).

Definition dead_site (url : string) : option Doc.tag := None.

(** Renderers used when examples are run. *)
Definition no_json (level : nat) (anime : AnimeInfo) : string := "{}".
Definition no_csv (header : list string) (rows : list AnimeInfo) : string := "".

(** [sum(categories.values())] *)
Definition total_count (categories : list (string * nat)) : nat :=
  foldr (fun entry total => (entry.2 + total)%nat) O categories.

(** The selector of line 379. *)
Definition episode_selector : selector :=
  by_names_class_re ["div"; "li"] ["episode"].

(** A detail page with two episodes, the second with an anchor that has
    no href. *)
Definition episode_page : Doc.html :=
  Doc.Element "body" [] []
    [Doc.Element "li" ["episode"] []
       [Doc.Element "a" ["ep-number"] [("href", "/watch/one-piece-100?ep=1")]
          [Doc.Text "1"]];
     Doc.Element "li" ["episode"] []
       [Doc.Element "a" ["ep-number"] [] [Doc.Text "2"]]].

Definition episode_site (url : string) : option Doc.tag :=
  Some (Doc.root episode_page).

(** The fields a record can have. *)
Definition recognized_fields : list string :=
  extractor_keys ++ ["genres"; "category"; "genre"; "page"].

(** Every key of a record is a recognized field. *)
Definition known_keys (anime : AnimeInfo) : Prop :=
  ∀ k, k ∈ keys anime → k ∈ recognized_fields.

(** A genre page with 12 entries, on a site that serves only the Action
    genre. *)
Definition genre_entry (number : string) : Doc.html :=
  Doc.Element "div" ["flw-item"] []
    [Doc.Element "a" ["dynamic-name"] [("href", "/watch/show-" +:+ number)]
       [Doc.Text ("Show " +:+ number)]].

Definition action_page : Doc.html :=
  Doc.Element "body" [] []
    (genre_entry <$> ["01"; "02"; "03"; "04"; "05"; "06";
                      "07"; "08"; "09"; "10"; "11"; "12"]).

Definition action_site (url : string) : option Doc.tag :=
  if String.eqb url "https://9animetv.to/genre/action"
  then Some (Doc.root action_page) else None.

(** * Proofs *)

(** ** Strings *)

Lemma str_app_cons c s t : String c s +:+ t = String c (s +:+ t).
Proof. done. Qed.

Lemma str_app_nil t : "" +:+ t = t.
Proof. done. Qed.

(** ** Duplicate removal *)

Section Dedup.

Variable long_enough : string -> bool.

Lemma consistent_no_seen : consistent no_seen.
Proof. split; intros x; cbn; set_solver. Qed.

Lemma keep_step_consistent st anime :
  consistent st → consistent (keep_step long_enough st anime).
Proof.
  intros [Ht Hu]. unfold keep_step.
  destruct (_ && _); [|by split].
  split; intros x; cbn; rewrite fmap_app; cbn.
  - rewrite elem_of_union, elem_of_singleton, elem_of_app, list_elem_of_singleton, Ht.
    tauto.
  - rewrite elem_of_union, elem_of_singleton, elem_of_app, list_elem_of_singleton, Hu.
    tauto.
Qed.

Lemma foldl_keep_consistent l st :
  consistent st → consistent (foldl (keep_step long_enough) st l).
Proof.
  revert st. induction l as [|a l IH]; intros st Hst; [done|].
  cbn. by apply IH, keep_step_consistent.
Qed.

Lemma keep_step_rule st anime :
  consistent st →
  unique_anime (keep_step long_enough st anime)
  = unique_anime st
    ++ (if seen_rule long_enough (unique_anime st) anime then [anime] else []).
Proof.
  intros [Ht Hu]. unfold keep_step, seen_rule.
  rewrite (bool_decide_ext _ (title_key anime ∉ title_key <$> unique_anime st))
    by (by rewrite Ht).
  rewrite (bool_decide_ext (url_key anime ∉ seen_urls st)
             (url_key anime ∉ url_key <$> unique_anime st))
    by (by rewrite Hu).
  destruct (_ && _); cbn; [done|by rewrite app_nil_r].
Qed.

Lemma unique_of_snoc l anime :
  unique_of long_enough (l ++ [anime])
  = unique_of long_enough l
    ++ (if seen_rule long_enough (unique_of long_enough l) anime
        then [anime] else []).
Proof.
  unfold unique_of. rewrite foldl_app. cbn.
  apply keep_step_rule, foldl_keep_consistent, consistent_no_seen.
Qed.

(** What a prefix of the input kept stays, in place, whatever follows. *)
Lemma unique_of_app l more :
  ∃ rest, unique_of long_enough (l ++ more) = unique_of long_enough l ++ rest.
Proof.
  induction more as [|a more IH] using rev_ind.
  - exists []. by rewrite !app_nil_r.
  - destruct IH as [rest IH]. rewrite app_assoc, unique_of_snoc, IH.
    eexists. by rewrite <- app_assoc.
Qed.

Lemma seen_rule_inv kept anime :
  seen_rule long_enough kept anime = true →
  (title_key anime ∉ title_key <$> kept)
  ∧ (url_key anime ∉ url_key <$> kept)
  ∧ Py.truthy (title_key anime) = true
  ∧ Py.truthy (url_key anime) = true
  ∧ long_enough (title_key anime) = true.
Proof.
  unfold seen_rule. rewrite !andb_true_iff, !bool_decide_eq_true. tauto.
Qed.

Lemma seen_rule_intro kept anime :
  title_key anime ∉ title_key <$> kept →
  url_key anime ∉ url_key <$> kept →
  Py.truthy (title_key anime) = true →
  Py.truthy (url_key anime) = true →
  long_enough (title_key anime) = true →
  seen_rule long_enough kept anime = true.
Proof.
  intros. unfold seen_rule.
  rewrite !andb_true_iff, !bool_decide_eq_true. tauto.
Qed.

Lemma all_kept_snoc l anime :
  all_kept long_enough l →
  seen_rule long_enough l anime = true →
  all_kept long_enough (l ++ [anime]).
Proof.
  intros (Ht & Hu & Hall) (Hnt & Hnu & H1 & H2 & H3)%seen_rule_inv.
  unfold all_kept. rewrite !fmap_app. cbn. repeat split.
  - apply NoDup_app. repeat split; [done| |apply NoDup_singleton].
    intros x Hx ->%list_elem_of_singleton. done.
  - apply NoDup_app. repeat split; [done| |apply NoDup_singleton].
    intros x Hx ->%list_elem_of_singleton. done.
  - apply Forall_app. split; [done|]. by apply Forall_singleton.
Qed.

Lemma all_kept_unique_of l : all_kept long_enough (unique_of long_enough l).
Proof.
  induction l as [|a l IH] using rev_ind.
  - repeat split; cbn; constructor.
  - rewrite unique_of_snoc.
    destruct (seen_rule _ _ _) eqn:E.
    + by apply all_kept_snoc.
    + by rewrite app_nil_r.
Qed.

Lemma all_kept_prefix l anime :
  all_kept long_enough (l ++ [anime]) →
  all_kept long_enough l ∧ seen_rule long_enough l anime = true.
Proof.
  unfold all_kept. rewrite !fmap_app. cbn.
  intros (Ht & Hu & Hall).
  apply NoDup_app in Ht as (Ht & Hta & _).
  apply NoDup_app in Hu as (Hu & Hua & _).
  apply Forall_app in Hall as (Hall & (H1 & H2 & H3)%Forall_inv).
  split; [done|].
  apply seen_rule_intro; try done.
  - intros Hin. apply (Hta _ Hin). by apply list_elem_of_singleton.
  - intros Hin. apply (Hua _ Hin). by apply list_elem_of_singleton.
Qed.

Lemma unique_of_all_kept l :
  all_kept long_enough l → unique_of long_enough l = l.
Proof.
  induction l as [|a l IH] using rev_ind; [done|].
  intros [Hl Ha]%all_kept_prefix.
  by rewrite unique_of_snoc, (IH Hl), Ha.
Qed.

Lemma unique_of_idempotent l :
  unique_of long_enough (unique_of long_enough l) = unique_of long_enough l.
Proof. apply unique_of_all_kept, all_kept_unique_of. Qed.

(** What follows a prefix contributes a selection of its own records. *)
Lemma unique_of_app_sublist l more :
  ∃ rest,
    unique_of long_enough (l ++ more) = unique_of long_enough l ++ rest
    ∧ rest `sublist_of` more.
Proof.
  induction more as [|a more IH] using rev_ind.
  - exists []. by rewrite !app_nil_r.
  - destruct IH as (rest & IH & Hsub). rewrite app_assoc, unique_of_snoc, IH.
    eexists. split; [by rewrite <- app_assoc|].
    apply sublist_app; [done|].
    destruct (seen_rule _ _ _); [done|]. apply sublist_nil_l.
Qed.

(** The records kept after a prefix are new to what the prefix kept, in
    title and in url. *)
Lemma all_kept_app_fresh kept rest :
  all_kept long_enough (kept ++ rest) →
  Forall (fun later =>
            (title_key later ∉ title_key <$> kept)
            ∧ (url_key later ∉ url_key <$> kept)
            ∧ Py.truthy (title_key later) = true
            ∧ Py.truthy (url_key later) = true
            ∧ long_enough (title_key later) = true) rest.
Proof.
  unfold all_kept. rewrite !fmap_app.
  intros (Ht & Hu & Hall).
  apply NoDup_app in Ht as (_ & Ht & _).
  apply NoDup_app in Hu as (_ & Hu & _).
  apply Forall_app in Hall as [_ Hall].
  apply Forall_forall. intros later Hin.
  rewrite Forall_forall in Hall. destruct (Hall later Hin) as (H1 & H2 & H3).
  repeat split; try done.
  - intros Hk. apply (Ht _ Hk). by apply list_elem_of_fmap_2.
  - intros Hk. apply (Hu _ Hk). by apply list_elem_of_fmap_2.
Qed.

(** The loop at a record of the input: what the records before it kept
    stays; the record is kept exactly when the rule holds of it and of
    what was kept; the records after it add a selection of their own, none
    of which is the record itself or shares a title or a url with what
    was kept up to it. *)
Lemma unique_of_at l anime more :
  ∃ rest,
    unique_of long_enough (l ++ anime :: more)
    = unique_of long_enough (l ++ [anime]) ++ rest
    ∧ rest `sublist_of` more
    ∧ (anime ∉ rest)
    ∧ Forall (fun later =>
                (title_key later
                   ∉ title_key <$> unique_of long_enough (l ++ [anime]))
                ∧ (url_key later
                     ∉ url_key <$> unique_of long_enough (l ++ [anime])))
             rest.
Proof.
  destruct (unique_of_app_sublist (l ++ [anime]) more) as (rest & E & Hsub).
  rewrite <- app_assoc in E. cbn in E.
  exists rest. split; [done|]. split; [done|].
  pose proof (all_kept_unique_of (l ++ anime :: more)) as Hk.
  rewrite E in Hk. apply all_kept_app_fresh in Hk.
  split.
  - intros Hin. rewrite Forall_forall in Hk.
    destruct (Hk anime Hin) as (Ht & Hu & H1 & H2 & H3).
    rewrite unique_of_snoc in Ht, Hu.
    destruct (seen_rule long_enough (unique_of long_enough l) anime) eqn:Er.
    + apply Ht. rewrite fmap_app, elem_of_app. right. apply list_elem_of_here.
    + rewrite app_nil_r in Ht, Hu.
      by rewrite (seen_rule_intro _ _ Ht Hu H1 H2 H3) in Er.
  - eapply Forall_impl; [exact Hk|]. cbv beta. tauto.
Qed.

End Dedup.

Lemma foldl_pointwise {A B} (f g : A → B → A) (l : list B) (a : A) :
  (∀ x y, f x y = g x y) → foldl f a l = foldl g a l.
Proof.
  intros E. revert a. induction l as [|b l IH]; intros a; [done|].
  cbn. by rewrite E, IH.
Qed.

Lemma scrape_all_unique_of l :
  scrape_all_unique l = unique_of longer_than_3 l.
Proof. done. Qed.

Lemma multiple_pages_unique_of l :
  multiple_pages_unique l = unique_of any_length l.
Proof.
  unfold multiple_pages_unique, unique_of. f_equal.
  apply foldl_pointwise. intros st a.
  unfold multiple_pages_step, keep_step, any_length.
  by rewrite andb_true_r.
Qed.

(** Without the test on the length the rule is weaker, and equal on
    titles longer than 3. *)
Lemma seen_rule_any_length kept anime :
  longer_than_3 (title_key anime) = true →
  seen_rule any_length kept anime = seen_rule longer_than_3 kept anime.
Proof. intros E. unfold seen_rule, any_length. by rewrite E. Qed.

Lemma unique_of_long_titles l :
  Forall (fun anime => longer_than_3 (title_key anime) = true) l →
  unique_of any_length l = unique_of longer_than_3 l.
Proof.
  induction l as [|a l IH] using rev_ind; [done|].
  intros [Hl Ha%Forall_inv]%Forall_app.
  by rewrite !unique_of_snoc, (IH Hl), seen_rule_any_length.
Qed.

Lemma length_lower s : String.length (Py.lower s) = String.length s.
Proof. induction s as [|c s IH]; cbn; [done|by rewrite IH]. Qed.

Lemma long_title_key anime :
  long_title anime = true → longer_than_3 (title_key anime) = true.
Proof. unfold long_title, longer_than_3, title_key. by rewrite length_lower. Qed.

Lemma unique_of_long_title l :
  Forall (fun anime => long_title anime = true) l →
  multiple_pages_unique l = scrape_all_unique l.
Proof.
  intros Hl. rewrite multiple_pages_unique_of, scrape_all_unique_of.
  apply unique_of_long_titles.
  eapply Forall_impl; [exact Hl|]. intros a. apply long_title_key.
Qed.

(** *** What the recently-added scraper hands to the duplicate removal *)

Section RecentlyAdded.

Context {Tag : Type} `{Markup Tag}.
Variable check_bracketed_netloc : string -> bool.
Variable get_page : string -> option Tag.

Lemma scrape_elements_Forall (P : AnimeInfo → Prop) skip accept tag elements :
  (∀ info, accept info = true → P (tag info)) →
  Forall P (scrape_elements check_bracketed_netloc skip accept tag elements).
Proof.
  intros Hacc. unfold scrape_elements.
  induction elements as [|e elements IH] using rev_ind; [constructor|].
  rewrite foldl_app. cbn.
  destruct (skip e); [done|].
  destruct (accept _) eqn:E; [|done].
  apply Forall_app. split; [done|]. apply Forall_singleton. by apply Hacc.
Qed.

Lemma scrape_recently_added_long page :
  Forall (fun anime => long_title anime = true)
         (scrape_recently_added check_bracketed_netloc get_page page).
Proof.
  unfold scrape_recently_added.
  destruct (get_page _); [|constructor].
  apply scrape_elements_Forall.
  intros info [_ Hlong]%andb_true_iff.
  unfold long_title, get_default in *. cbn.
  by rewrite lookup_insert_ne.
Qed.

Lemma recently_added_pages_long max_pages :
  Forall (fun anime => long_title anime = true)
         (recently_added_pages check_bracketed_netloc get_page max_pages).
Proof.
  unfold recently_added_pages.
  induction (seqZ 1 max_pages) as [|p pages IH] using rev_ind; [constructor|].
  rewrite foldl_app. cbn.
  apply Forall_app. split; [done|]. apply scrape_recently_added_long.
Qed.

End RecentlyAdded.

(** *** The claims on duplicate removal *)

(** C1, as stated, fails: a record whose (lowercased title, url) pair is
    new is still dropped when its title alone was seen.  After "Naruto"
    at one url is kept, "Naruto" at another url is dropped by
    [scrape_all], although the rule on pairs accepts it. *)
Lemma scrape_all_pair_rule_fails :
  ¬ (∀ pre anime,
        scrape_all_unique (pre ++ [anime])
        = scrape_all_unique pre
          ++ (if pair_rule (scrape_all_unique pre) anime then [anime] else [])).
Proof.
  intros Hclaim. specialize (Hclaim [naruto_677] naruto_355).
  vm_compute in Hclaim. discriminate Hclaim.
Qed.

(** C1, amended: in encounter order, [scrape_all] keeps a record exactly
    when its lowercased title is not the title of an earlier kept record,
    its url is not the url of an earlier kept record, title and url are
    non-empty and the title is longer than 3: the list kept up to and
    including a record is the list kept before it, followed by the record
    if the rule holds and by nothing if it does not.  What was kept up to
    a record stays in place, so the first occurrence wins: the records
    after it add only records of their own, none of which is the record
    itself or has a title or a url already kept. *)
Theorem scrape_all_keeps_by_seen_rule (pre : list AnimeInfo)
    (anime : AnimeInfo) (post : list AnimeInfo) :
  scrape_all_unique (pre ++ [anime])
  = scrape_all_unique pre
    ++ (if seen_rule longer_than_3 (scrape_all_unique pre) anime
        then [anime] else [])
  ∧ ∃ rest,
      scrape_all_unique (pre ++ anime :: post)
      = scrape_all_unique (pre ++ [anime]) ++ rest
      ∧ rest `sublist_of` post
      ∧ (anime ∉ rest)
      ∧ Forall (fun later =>
                  (title_key later
                     ∉ title_key <$> scrape_all_unique (pre ++ [anime]))
                  ∧ (url_key later
                       ∉ url_key <$> scrape_all_unique (pre ++ [anime])))
               rest.
Proof.
  split.
  - rewrite !scrape_all_unique_of. apply unique_of_snoc.
  - exact (unique_of_at longer_than_3 pre anime post).
Qed.




(** C6: the duplicate removal of [scrape_all] is idempotent; run on its
    own output it returns that output, record for record. *)
Theorem scrape_all_unique_idempotent (l : list AnimeInfo) :
  scrape_all_unique (scrape_all_unique l) = scrape_all_unique l.
Proof. rewrite !scrape_all_unique_of. apply unique_of_idempotent. Qed.

(** C9: in the final list of [scrape_all] the lowercased titles are
    pairwise distinct and the urls are pairwise distinct, each on its
    own; a record whose title alone or whose url alone was seen is
    dropped, also when its (title, url) pair is new, as for the second
    "Naruto". *)
Theorem scrape_all_titles_and_urls_distinct :
  (∀ (Tag : Type) (M : Markup Tag) (check_bracketed_netloc : string → bool)
     (get_page : string → option Tag) (self : NineAnimeScraper),
      let final := (scrape_all check_bracketed_netloc get_page self).2 in
      scraped_anime (scrape_all check_bracketed_netloc get_page self).1 = final
      ∧ NoDup (title_key <$> final) ∧ NoDup (url_key <$> final))
  ∧ (∀ l : list AnimeInfo,
        NoDup (title_key <$> scrape_all_unique l)
        ∧ NoDup (url_key <$> scrape_all_unique l))
  ∧ (∀ (l : list AnimeInfo) (anime : AnimeInfo),
        title_key anime ∈ title_key <$> scrape_all_unique l
        ∨ url_key anime ∈ url_key <$> scrape_all_unique l →
        scrape_all_unique (l ++ [anime]) = scrape_all_unique l)
  ∧ ((pair_key naruto_355 ∉ pair_key <$> scrape_all_unique [naruto_677])
     ∧ scrape_all_unique [naruto_677; naruto_355] = [naruto_677]).
Proof.
  assert (Hdistinct : ∀ l : list AnimeInfo,
             NoDup (title_key <$> scrape_all_unique l)
             ∧ NoDup (url_key <$> scrape_all_unique l)).
  { intros l. rewrite scrape_all_unique_of.
    destruct (all_kept_unique_of longer_than_3 l) as (Ht & Hu & _). done. }
  split; [|split; [exact Hdistinct|split]].
  - intros. subst final. cbn. split; [done|]. apply Hdistinct.
  - intros l anime Hseen. rewrite !scrape_all_unique_of, unique_of_snoc.
    destruct (seen_rule _ _ _) eqn:E; [|by rewrite app_nil_r].
    apply seen_rule_inv in E as (Hnt & Hnu & _). tauto.
  - split; [|by vm_compute].
    vm_compute. intros Hin. 
    apply list_elem_of_singleton in Hin. discriminate Hin.
Qed.

Lemma scrape_all_titles_and_urls_distinct_witness :
  title_key naruto_355 ∈ title_key <$> scrape_all_unique [naruto_677]
  ∧ scrape_all_unique ([naruto_677] ++ [naruto_355])
    = scrape_all_unique [naruto_677].
Proof.
  assert (Hseen : title_key naruto_355
                  ∈ title_key <$> scrape_all_unique [naruto_677]).
  { vm_compute. apply list_elem_of_here. }
  split; [exact Hseen|].
  exact (proj1 (proj2 (proj2 scrape_all_titles_and_urls_distinct))
           [naruto_677] naruto_355 (or_introl Hseen)).
Defined.

(** ** The genre address and the writers *)

Lemma lower_char_space c : Ascii.eqb (Py.lower_char c) " " = Ascii.eqb c " ".
Proof. by destruct c as [[] [] [] [] [] [] [] []]. Qed.

Lemma lower_char_amp c : Ascii.eqb (Py.lower_char c) "&" = Ascii.eqb c "&".
Proof. by destruct c as [[] [] [] [] [] [] [] []]. Qed.

Lemma genre_slug_by_char genre : genre_slug genre = slug_by_char genre.
Proof.
  unfold genre_slug.
  induction genre as [|c genre IH]; [done|].
  cbn [Py.lower Py.replace slug_by_char]. unfold slug_char.
  rewrite lower_char_space.
  destruct (Ascii.eqb c " ") eqn:Hsp.
  - rewrite !str_app_cons, !str_app_nil. cbn. by rewrite IH.
  - cbn [Py.replace]. rewrite lower_char_amp.
    destruct (Ascii.eqb c "&"); rewrite ?str_app_cons, ?str_app_nil; by rewrite IH.
Qed.

(** C7: the path segment of a genre page is the genre lowercased, with
    spaces turned into hyphens and [&] into [and]; "Sci-Fi & Fantasy"
    gives "sci-fi-and-fantasy". *)
Theorem genre_page_url_slug :
  (∀ genre : string,
      genre_page_url genre = base_url +:+ "/genre/" +:+ slug_by_char genre)
  ∧ genre_slug "Sci-Fi & Fantasy" = "sci-fi-and-fantasy"
  ∧ genre_page_url "Sci-Fi & Fantasy"
    = "https://9animetv.to/genre/sci-fi-and-fantasy".
Proof.
  split; [|split; reflexivity].
  intros genre. unfold genre_page_url. by rewrite genre_slug_by_char.
Qed.

(** C10: with no record in memory [save_to_csv] returns before it opens
    the file, so every file is as it was, while [save_to_json] still
    replaces the content of its file with the empty array. *)
Theorem save_empty_list (json_dict : nat → AnimeInfo → string)
    (csv_document : list string → list AnimeInfo → string)
    (filename : string) (files : gmap string string) :
  let self := {| scraped_anime := [] |} in
  save_to_csv csv_document self filename files = files
  ∧ save_to_json json_dict self filename files = <[filename := "[]"]> files
  ∧ save_to_json json_dict self filename files !! filename = Some "[]".
Proof.
  cbn. split; [done|]. split; [done|].
  unfold save_to_json. cbn. apply lookup_insert_eq.
Qed.

(** ** The extractor *)

Section ExtractorFacts.

Context {Tag : Type} `{Markup Tag}.
Variable check_bracketed_netloc : string -> bool.

(** *** The classification chain *)

Lemma classify_first_match (anime_info : AnimeInfo) (elem : Tag) :
  classify anime_info elem
  = assign (first_match (branches (get_class elem) (get_text elem)))
           (get_text elem) anime_info.
Proof.
  unfold classify, branches, first_match.
  destruct (is_episodes _ _); [done|].
  destruct (is_status _); [done|].
  destruct (is_year _); [done|].
  by destruct (is_type _).
Qed.

(** *** Keys a step leaves alone *)

Lemma and_then_keeps key (a : attempt) step :
  keeps key step →
  strs (returned (a >>= step)) !! key = strs (returned a) !! key.
Proof. intros Hk. destruct a; cbn; [apply Hk|done]. Qed.

Lemma set_str_other key k v info :
  k ≠ key → strs (set_str k v info) !! key = strs info !! key.
Proof. intros Hne. cbn. by rewrite lookup_insert_ne. Qed.

Lemma extract_title_keeps key elem :
  key ≠ "title" → keeps key (extract_title elem).
Proof.
  intros Hne info. unfold extract_title.
  destruct (select_title elem); [|done].
  destruct (_ && _); [|done].
  cbn -[set_str]. by apply set_str_other.
Qed.

Lemma extract_title_ok elem info :
  ∃ info', extract_title elem info = Ok info'.
Proof.
  unfold extract_title. repeat case_match; eauto.
Qed.

Lemma extract_link_keeps key elem :
  key ≠ "url" → key ≠ "id" → key ≠ "japanese_name" →
  keeps key (extract_link check_bracketed_netloc elem).
Proof.
  intros H1 H2 H3 info. unfold extract_link.
  repeat (case_match; try done); cbn -[set_str];
    rewrite ?set_str_other by done; done.
Qed.

Lemma extract_image_keeps key elem :
  key ≠ "image_url" → key ≠ "alt_text" → keeps key (extract_image check_bracketed_netloc elem).
Proof.
  intros H1 H2 info. unfold extract_image.
  repeat (case_match; try done); cbn -[set_str];
    rewrite ?set_str_other by done; done.
Qed.

Lemma classify_keeps key info elem :
  key ≠ "episodes" → key ≠ "status" → key ≠ "year" → key ≠ "type" →
  strs (classify info elem) !! key = strs info !! key.
Proof.
  intros. unfold classify.
  repeat (case_match; try done); by apply set_str_other.
Qed.

Lemma extract_info_keeps key elem :
  key ≠ "episodes" → key ≠ "status" → key ≠ "year" → key ≠ "type" →
  keeps key (extract_info elem).
Proof.
  intros H1 H2 H3 H4 info. unfold extract_info. cbn.
  induction (find_all _ _) as [|e l IH] using rev_ind; [done|].
  rewrite foldl_app. cbn. by rewrite classify_keeps.
Qed.

Lemma extract_rating_keeps key elem :
  key ≠ "rating" → keeps key (extract_rating elem).
Proof.
  intros Hne info. unfold extract_rating.
  case_match; [|done]. cbn -[set_str]. by apply set_str_other.
Qed.

Lemma extract_genres_keeps key elem : keeps key (extract_genres elem).
Proof. intros info. unfold extract_genres. by case_match. Qed.

Lemma extract_description_keeps key elem :
  key ≠ "description" → keeps key (extract_description elem).
Proof.
  intros Hne info. unfold extract_description.
  case_match; [|done]. cbn -[set_str]. by apply set_str_other.
Qed.

(** [title] is written by the title step only; [url] and [id] by the
    link step only. *)
Lemma extract_title_only elem :
  strs (extract_anime_info check_bracketed_netloc elem) !! "title"
  = strs (returned (extract_title elem empty_info)) !! "title".
Proof.
  unfold extract_anime_info.
  rewrite and_then_keeps by (by apply extract_description_keeps).
  rewrite and_then_keeps by (by apply extract_genres_keeps).
  rewrite and_then_keeps by (by apply extract_rating_keeps).
  rewrite and_then_keeps by (by apply extract_info_keeps).
  rewrite and_then_keeps by (by apply extract_image_keeps).
  rewrite and_then_keeps by (by apply extract_link_keeps).
  done.
Qed.

Lemma extract_link_only key elem :
  key = "url" ∨ key = "id" →
  strs (extract_anime_info check_bracketed_netloc elem) !! key
  = strs (returned (extract_link check_bracketed_netloc elem
                      (returned (extract_title elem empty_info)))) !! key.
Proof.
  unfold extract_anime_info.
  intros [-> | ->].
  all: rewrite and_then_keeps by (by apply extract_description_keeps).
  all: rewrite and_then_keeps by (by apply extract_genres_keeps).
  all: rewrite and_then_keeps by (by apply extract_rating_keeps).
  all: rewrite and_then_keeps by (by apply extract_info_keeps).
  all: rewrite and_then_keeps by (by apply extract_image_keeps).
  all: cbn; by destruct (extract_title_ok elem empty_info) as [info ->].
Qed.

Lemma extract_title_inv elem title :
  strs (extract_anime_info check_bracketed_netloc elem) !! "title" = Some title →
  ∃ title_element,
    select_title elem = Some title_element
    ∧ title = get_text title_element
    ∧ (3 <? String.length title)%nat = true
    ∧ UrlParse.in_list (Py.lower title) stoplist = false.
Proof.
  rewrite extract_title_only. unfold extract_title.
  destruct (select_title elem) as [te|]; [|done].
  destruct (_ && _) eqn:E; [|done].
  cbn. rewrite lookup_insert_eq. intros [= <-].
  apply andb_true_iff in E as [E1 E2%negb_true_iff]. eauto.
Qed.

(** Before the link step the dict has neither [url] nor [id]. *)
Lemma before_link key elem :
  key ≠ "title" →
  strs (returned (extract_title elem empty_info)) !! key = None.
Proof. intros Hne. by rewrite extract_title_keeps. Qed.

Lemma extract_link_inv elem url :
  strs (extract_anime_info check_bracketed_netloc elem) !! "url" = Some url →
  ∃ link href,
    select_link elem = Some link
    ∧ get link "href" = Some href
    ∧ Py.truthy href = true
    ∧ Py.contains "/watch/" href = true
    ∧ urljoin check_bracketed_netloc base_url href = Some url
    ∧ strs (extract_anime_info check_bracketed_netloc elem) !! "id"
      = Some (Py.last_item (Py.split "/" href)).
Proof.
  rewrite !extract_link_only by auto.
  assert (Hno : strs (returned (extract_title elem empty_info)) !! "url" = None)
    by (by apply before_link).
  unfold extract_link.
  destruct (select_link elem) as [link|]; [|by cbn [returned]; rewrite Hno].
  destruct (get link "href") as [href|] eqn:Ehref;
    [|by cbn [returned]; rewrite Hno].
  destruct (_ && _) eqn:E; [|by cbn [returned]; rewrite Hno].
  apply andb_true_iff in E as [E1 E2].
  destruct (urljoin _ _ _) as [u|] eqn:Eu; [|by cbn [returned]; rewrite Hno].
  intros Hurl. exists link, href.
  assert (u = url) as ->.
  { revert Hurl.
    destruct (get link "data-jname") as [jname|]; [destruct (Py.truthy jname)|];
      cbn; rewrite ?lookup_insert_ne by done;
      rewrite lookup_insert_eq; congruence. }
  repeat split; try done.
  destruct (get link "data-jname") as [jname|]; [destruct (Py.truthy jname)|];
    cbn; rewrite ?lookup_insert_ne by done;
    by rewrite lookup_insert_eq.
Qed.

End ExtractorFacts.

(** *** The claims on the title and on the classification chain *)

(** C3, as stated, fails: the chain is an [if]/[elif] chain, so the last
    matching branch does not decide.  For a [span] of class
    [episode-type] and text "TV" both the episode test and the type test
    hold; the code writes [episodes], the last matching branch would
    write [type]. *)
Lemma classify_not_last_match :
  ¬ (∀ (anime_info : AnimeInfo) (elem : Doc.tag),
        classify anime_info elem
        = assign (last_match (branches (get_class elem) (get_text elem)))
                 (get_text elem) anime_info).
Proof.
  intros Hclaim. specialize (Hclaim empty_info episode_type_span).
  apply (f_equal (fun info => strs info !! "episodes")) in Hclaim.
  vm_compute in Hclaim. discriminate Hclaim.
Qed.

(** C3, amended: for every element of the metadata loop the key written
    is that of the first branch, in source order (episodes, status, year,
    type), whose test holds; no key is written when none holds. *)
Theorem classify_first_branch_wins (Tag : Type) (M : Markup Tag)
    (anime_info : AnimeInfo) (elem : Tag) :
  classify anime_info elem
  = assign (first_match (branches (get_class elem) (get_text elem)))
           (get_text elem) anime_info.
Proof. apply classify_first_match. Qed.

Lemma stoplist_lower word : word ∈ stoplist → Py.lower word = word.
Proof.
  unfold stoplist. rewrite !elem_of_cons, elem_of_nil.
  intros [->|[->|[->|[->|[->|[]]]]]]; reflexivity.
Qed.

(** C8: a title that [extract_anime_info] puts in its result is longer
    than 3 characters and differs, case ignored, from every word of the
    stoplist. *)
Theorem accepted_title_not_navigation (Tag : Type) (M : Markup Tag)
    (check_bracketed_netloc : string → bool) (elem : Tag) (title : string) :
  strs (extract_anime_info check_bracketed_netloc elem) !! "title" = Some title →
  (3 < String.length title)%nat
  ∧ ∀ word, word ∈ stoplist → ¬ same_ignoring_case title word.
Proof.
  intros (te & _ & _ & Hlen & Hstop)%extract_title_inv.
  split; [by apply Nat.ltb_lt|].
  intros word Hword Hsame. unfold same_ignoring_case in Hsame.
  rewrite (stoplist_lower word Hword) in Hsame.
  unfold UrlParse.in_list in Hstop.
  apply bool_decide_eq_false in Hstop. apply Hstop. by rewrite Hsame.
Qed.

Lemma accepted_title_not_navigation_witness :
  strs (extract_anime_info Doc.no_brackets
          (listing "/watch/one-piece-100" ["tick-eps"] "Ep 12")) !! "title"
  = Some "One Piece"
  ∧ (3 < String.length "One Piece")%nat
  ∧ ∀ word, word ∈ stoplist → ¬ same_ignoring_case "One Piece" word.
Proof.
  assert (Htitle :
    strs (extract_anime_info Doc.no_brackets
            (listing "/watch/one-piece-100" ["tick-eps"] "Ep 12")) !! "title"
    = Some "One Piece") by (vm_compute; reflexivity).
  split; [exact Htitle|].
  exact (accepted_title_not_navigation _ _ _ _ _ Htitle).
Defined.

(** ** More on strings: characters, [split], [join] *)

Lemma str_app_assoc a b c : (a +:+ b) +:+ c = a +:+ (b +:+ c).
Proof.
  induction a as [|x a IH]; [done|].
  by rewrite !str_app_cons, IH.
Qed.

Lemma str_app_nil_r a : a +:+ "" = a.
Proof. induction a as [|x a IH]; [done|]. by rewrite str_app_cons, IH. Qed.

Lemma forall_chars_app p a b :
  Py.forall_chars p (a +:+ b) = Py.forall_chars p a && Py.forall_chars p b.
Proof.
  induction a as [|x a IH]; [done|].
  rewrite str_app_cons. cbn. by rewrite IH, andb_assoc.
Qed.

Lemma forall_chars_has_char p c s :
  Py.forall_chars p s = true → p c = false → Py.has_char c s = false.
Proof.
  intros Hall Hc. induction s as [|d s IH]; [done|].
  cbn in *. apply andb_true_iff in Hall as [Hd Hs].
  rewrite (IH Hs), orb_false_r.
  destruct (Ascii.eqb_spec d c) as [->|]; [congruence|done].
Qed.

Lemma replace_absent c new s :
  Py.has_char c s = false → Py.replace c new s = s.
Proof.
  induction s as [|d s IH]; [done|].
  cbn. intros [Hd Hs]%orb_false_iff. by rewrite Hd, IH.
Qed.

Lemma partition_absent c s :
  Py.has_char c s = false → Py.partition c s = None.
Proof.
  induction s as [|d s IH]; [done|].
  cbn. intros [Hd Hs]%orb_false_iff. by rewrite Hd, IH.
Qed.

Lemma split_not_nil sep s : Py.split sep s ≠ [].
Proof.
  destruct s as [|c s]; [done|]. cbn.
  destruct (Ascii.eqb c sep); [done|]. by destruct (Py.split sep s).
Qed.

(** No piece of a split holds the separator. *)
Lemma split_pieces_no_sep sep s :
  Forall (fun piece => Py.has_char sep piece = false) (Py.split sep s).
Proof.
  induction s as [|c s IH]; [by repeat constructor|].
  cbn. destruct (Ascii.eqb c sep) eqn:E; [by constructor|].
  destruct (Py.split sep s) as [|piece pieces]; [by repeat constructor; cbn; rewrite E|].
  apply Forall_cons in IH as [Hp Hps].
  constructor; [|done]. cbn. by rewrite E, Hp.
Qed.

(** The pieces of a split hold only characters of the string. *)
Lemma split_pieces_chars p sep s :
  Py.forall_chars p s = true →
  Forall (fun piece => Py.forall_chars p piece = true) (Py.split sep s).
Proof.
  induction s as [|c s IH]; [by repeat constructor|].
  cbn. intros [Hc Hs]%andb_true_iff. specialize (IH Hs).
  destruct (Ascii.eqb c sep); [by constructor|].
  destruct (Py.split sep s) as [|piece pieces];
    [by repeat constructor; cbn; rewrite Hc|].
  apply Forall_cons in IH as [Hp Hps].
  constructor; [|done]. cbn. by rewrite Hc, Hp.
Qed.

Lemma split_no_sep sep s :
  Py.has_char sep s = false → Py.split sep s = [s].
Proof.
  induction s as [|c s IH]; [done|].
  cbn. intros [Hc Hs]%orb_false_iff. by rewrite Hc, (IH Hs).
Qed.

Lemma last_item_cons x y l : Py.last_item (x :: y :: l) = Py.last_item (y :: l).
Proof. done. Qed.

Lemma last_item_snoc l x : Py.last_item (l ++ [x]) = x.
Proof. unfold Py.last_item. apply last_last. Qed.

Lemma split_app_two sep a b :
  ∃ p q ps, Py.split sep (a +:+ String sep b) = p :: q :: ps.
Proof.
  induction a as [|c a IH].
  - rewrite str_app_nil. cbn. rewrite Ascii.eqb_refl.
    pose proof (split_not_nil sep b).
    destruct (Py.split sep b) as [|q ps]; [done|]. eauto.
  - destruct IH as (p & q & ps & E).
    rewrite str_app_cons. cbn. rewrite E.
    destruct (Ascii.eqb c sep); eauto.
Qed.

(** The last piece of a split is decided by the text after the last
    separator. *)
Lemma last_split_app sep a b :
  Py.last_item (Py.split sep (a +:+ String sep b))
  = Py.last_item (Py.split sep b).
Proof.
  induction a as [|c a IH].
  - rewrite str_app_nil. cbn. rewrite Ascii.eqb_refl.
    pose proof (split_not_nil sep b). by destruct (Py.split sep b).
  - destruct (split_app_two sep a b) as (p & q & ps & E).
    rewrite str_app_cons. cbn. rewrite E in *.
    destruct (Ascii.eqb c sep); by rewrite <- IH.
Qed.

(** ** [urljoin] against the base address *)

Section UrlFacts.

Import UrlParse.
Variable check_bracketed_netloc : string -> bool.

Lemma is_delim_cases c :
  is_delim c = true → c = "/"%char ∨ c = "?"%char ∨ c = "#"%char.
Proof.
  unfold is_delim. rewrite !orb_true_iff, !Ascii.eqb_eq. tauto.
Qed.

Lemma remove_unsafe_delim c tail :
  is_delim c = true →
  remove_unsafe (String c tail) = String c (remove_unsafe tail).
Proof. by intros [->|[->| ->]]%is_delim_cases. Qed.

Lemma remove_unsafe_starts_at_delim rest :
  starts_at_delim rest → starts_at_delim (remove_unsafe rest).
Proof.
  intros [->|(c & tail & -> & Hc)]; [by left|right].
  rewrite remove_unsafe_delim by done. eauto.
Qed.

Lemma splitnetloc_at_delim rest :
  starts_at_delim rest → splitnetloc rest = ("", rest).
Proof. intros [->|(c & tail & -> & Hc)]; cbn; [done|by rewrite Hc]. Qed.

Lemma splitnetloc_app s rest :
  Py.forall_chars (fun c => negb (is_delim c)) s = true →
  splitnetloc (s +:+ rest)
  = (s +:+ (splitnetloc rest).1, (splitnetloc rest).2).
Proof.
  induction s as [|c s IH];
    [by rewrite !str_app_nil; destruct (splitnetloc rest)|].
  cbn [Py.forall_chars]. intros [Hc Hs]%andb_true_iff.
  rewrite str_app_cons. cbn [splitnetloc].
  apply negb_true_iff in Hc. rewrite Hc, (IH Hs). done.
Qed.

(** Reading back an address that starts with the base. *)
Lemma urlsplit_base_prefix rest :
  starts_at_delim rest →
  urlsplit check_bracketed_netloc ("https://9animetv.to" +:+ rest) ""
  = Some (split_fragment_query "https" "9animetv.to" (remove_unsafe rest)).
Proof.
  intros Hrest%remove_unsafe_starts_at_delim.
  unfold urlsplit.
  change (Py.lstrip c0_control_or_space ("https://9animetv.to" +:+ rest))
    with ("https://9animetv.to" +:+ rest).
  change (remove_unsafe ("https://9animetv.to" +:+ rest))
    with ("https://9animetv.to" +:+ remove_unsafe rest).
  change (split_scheme (remove_unsafe (Py.strip c0_control_or_space ""))
            ("https://9animetv.to" +:+ remove_unsafe rest))
    with ("https", "//9animetv.to" +:+ remove_unsafe rest).
  cbv beta iota.
  change (Py.startswith "//" ("//9animetv.to" +:+ remove_unsafe rest))
    with true.
  change (Py.slice_from 2 ("//9animetv.to" +:+ remove_unsafe rest))
    with ("9animetv.to" +:+ remove_unsafe rest).
  cbv beta iota.
  rewrite splitnetloc_app by done.
  rewrite (splitnetloc_at_delim _ Hrest). done.
Qed.

Lemma split_fragment_query_origin scheme netloc url :
  UrlParse.scheme (split_fragment_query scheme netloc url) = scheme
  ∧ UrlParse.netloc (split_fragment_query scheme netloc url) = netloc.
Proof.
  unfold split_fragment_query.
  destruct (Py.partition "#" url) as [[u f]|];
    [destruct (Py.partition "?" u) as [[u' q]|]
    |destruct (Py.partition "?" url) as [[u' q]|]]; done.
Qed.

Lemma startswith_char d c tail :
  Py.startswith (String d "") (String c tail) = Ascii.eqb c d.
Proof.
  unfold Py.startswith. cbn.
  destruct (Ascii.ascii_dec d c) as [->|Hne].
  - rewrite Ascii.eqb_refl. by destruct tail.
  - symmetry. apply Ascii.eqb_neq. congruence.
Qed.

Lemma starts_at_delim_app a b :
  starts_at_delim a → starts_at_delim b → starts_at_delim (a +:+ b).
Proof.
  intros [->|(c & tail & -> & Hc)] Hb; [by rewrite str_app_nil|].
  right. rewrite str_app_cons. eauto.
Qed.

Lemma after_netloc_starts_at_delim url : starts_at_delim (after_netloc url).
Proof.
  unfold after_netloc. destruct url as [|c url]; [by left|].
  right. rewrite startswith_char. cbn [Py.truthy andb].
  destruct (Ascii.eqb_spec c "/") as [->|Hne]; cbn [negb].
  - eauto.
  - rewrite str_app_cons. eauto.
Qed.

(** Every address [urlunparse] builds on the base starts with the base
    and goes on, if at all, at a delimiter. *)
Lemma urlunparse_base_prefix P prm q f :
  ∃ rest,
    urlunparse (mkParse "https" "9animetv.to" P prm q f)
    = "https://9animetv.to" +:+ rest
    ∧ starts_at_delim rest.
Proof.
  unfold urlunparse, urlunsplit. cbn [p_scheme p_netloc p_path p_params
    p_query p_fragment scheme netloc path query fragment Py.truthy orb].
  set (url0 := if Py.truthy prm then P +:+ ";" +:+ prm else P).
  fold (after_netloc url0).
  set (url1 := after_netloc url0).
  assert (H1 : starts_at_delim url1) by apply after_netloc_starts_at_delim.
  assert (Hq : starts_at_delim (if Py.truthy q then "?" +:+ q else "")).
  { destruct (Py.truthy q); [right|by left]. rewrite str_app_cons. eauto. }
  assert (Hf : starts_at_delim (if Py.truthy f then "#" +:+ f else "")).
  { destruct (Py.truthy f); [right|by left]. rewrite str_app_cons. eauto. }
  exists (url1 +:+ (if Py.truthy q then "?" +:+ q else "")
               +:+ (if Py.truthy f then "#" +:+ f else "")).
  split; [|by repeat apply starts_at_delim_app].
  destruct (Py.truthy q), (Py.truthy f);
    rewrite ?str_app_assoc, ?str_app_nil, ?str_app_nil_r; done.
Qed.

Lemma origin_base : origin check_bracketed_netloc base_url
                    = Some ("https", "9animetv.to").
Proof. reflexivity. Qed.

Lemma origin_urlunparse_base P prm q f :
  origin check_bracketed_netloc
         (urlunparse (mkParse "https" "9animetv.to" P prm q f))
  = Some ("https", "9animetv.to").
Proof.
  destruct (urlunparse_base_prefix P prm q f) as (rest & -> & Hrest).
  unfold origin. rewrite urlsplit_base_prefix by done. cbn.
  by destruct (split_fragment_query_origin
                 "https" "9animetv.to" (remove_unsafe rest)) as [-> ->].
Qed.

(** *** The scheme an address falls back to *)

Lemma split_scheme_default d url :
  split_scheme d url
  = (if Py.truthy (split_scheme "" url).1 then (split_scheme "" url).1 else d,
     (split_scheme "" url).2).
Proof.
  unfold split_scheme.
  destruct (Py.partition ":" url) as [[[|c0 b] a]|]; cbn; try done.
  by destruct (_ && _).
Qed.

Lemma split_fragment_query_scheme s s' n u :
  split_fragment_query s n u
  = let r := split_fragment_query s' n u in
    mkSplit s (netloc r) (path r) (query r) (fragment r).
Proof.
  unfold split_fragment_query.
  destruct (Py.partition "#" u) as [[u1 f]|];
    [destruct (Py.partition "?" u1) as [[u' q]|]
    |destruct (Py.partition "?" u) as [[u' q]|]]; done.
Qed.

(** Splitting with the default scheme [https] changes the scheme alone,
    and only when the address has none. *)
Lemma urlsplit_default url r :
  urlsplit check_bracketed_netloc url "" = Some r →
  urlsplit check_bracketed_netloc url "https"
  = Some (mkSplit (if Py.truthy (scheme r) then scheme r else "https")
                  (netloc r) (path r) (query r) (fragment r)).
Proof.
  unfold urlsplit.
  change (remove_unsafe (Py.strip c0_control_or_space "https")) with "https".
  change (remove_unsafe (Py.strip c0_control_or_space "")) with "".
  set (u := remove_unsafe (Py.lstrip c0_control_or_space url)).
  rewrite (split_scheme_default "https" u).
  destruct (split_scheme "" u) as [s rest]. cbn [fst snd].
  set (s' := if Py.truthy s then s else "https").
  assert (Hfq : ∀ n v r0, split_fragment_query s n v = r0 →
            split_fragment_query s' n v
            = mkSplit (if Py.truthy (scheme r0) then scheme r0 else "https")
                      (netloc r0) (path r0) (query r0) (fragment r0)).
  { intros n v r0 <-.
    rewrite (split_fragment_query_scheme s' s).
    by destruct (split_fragment_query_origin s n v) as [-> _]. }
  destruct (Py.startswith "//" rest).
  - destruct (splitnetloc _) as [n v].
    destruct (_ || _); [done|]. destruct (_ && _); [done|].
    intros [= E]. by rewrite (Hfq _ _ _ E).
  - intros [= E]. by rewrite (Hfq _ _ _ E).
Qed.

Lemma urlparse_base :
  urlparse check_bracketed_netloc base_url ""
  = Some (mkParse "https" "9animetv.to" "" "" "" "").
Proof. reflexivity. Qed.

(** An href that names no other origin is joined onto the base. *)
Lemma urljoin_on_base href url :
  Py.truthy href = true →
  names_no_other_origin check_bracketed_netloc href = true →
  UrlParse.urljoin check_bracketed_netloc base_url href = Some url →
  ∃ P prm q f, url = urlunparse (mkParse "https" "9animetv.to" P prm q f).
Proof.
  intros Hhref Hnames. unfold UrlParse.urljoin.
  change (negb (Py.truthy base_url)) with false. cbv iota.
  rewrite Hhref. cbn [negb]. rewrite urlparse_base.
  cbn [p_scheme p_netloc p_path p_params p_query p_fragment].
  unfold names_no_other_origin in Hnames.
  destruct (urlsplit check_bracketed_netloc href "") as [r|] eqn:Er; [|done].
  apply andb_true_iff in Hnames as [Hs Hn].
  unfold urlparse. rewrite (urlsplit_default _ _ Er).
  cbn [scheme netloc path query fragment].
  assert ((if Py.truthy (scheme r) then scheme r else "https") = "https") as ->.
  { apply orb_true_iff in Hs as [->%String.eqb_eq | ->%String.eqb_eq]; done. }
  change (in_list "https" uses_params) with true. cbn [andb].
  destruct (if Py.has_char ";" (path r) then splitparams (path r)
            else (path r, "")) as [p prm].
  cbn [p_scheme p_netloc p_path p_params p_query p_fragment].
  change (String.eqb "https" "https") with true.
  change (in_list "https" uses_relative) with true.
  change (in_list "https" uses_netloc) with true.
  cbn [negb orb andb].
  apply orb_true_iff in Hn as [->%String.eqb_eq | ->%String.eqb_eq].
  - cbn [Py.truthy].
    destruct (_ && _); intros [= <-]; eauto.
  - cbn [Py.truthy]. intros [= <-]; eauto.
Qed.

End UrlFacts.

(** ** The path of a joined address *)

Section UrlPathFacts.

Import UrlParse.
Variable check_bracketed_netloc : string -> bool.

Lemma rooted_path_inv href :
  rooted_path href = true →
  (∃ tail, href = String "/" tail)
  ∧ Py.startswith "//" href = false
  ∧ Py.forall_chars plain_char href = true
  ∧ Py.last_item (Py.split "/" href) ≠ ".."
  ∧ Py.last_item (Py.split "/" href) ≠ ".".
Proof.
  unfold rooted_path. rewrite !andb_true_iff, !negb_true_iff.
  intros [[[H1 H2] H3] H4]. repeat split; try done.
  - destruct href as [|c tail]; [done|].
    rewrite startswith_char in H1. apply Ascii.eqb_eq in H1 as ->. eauto.
  - intros E. unfold in_list in H4. apply bool_decide_eq_false in H4.
    apply H4. rewrite E, !elem_of_cons. tauto.
  - intros E. unfold in_list in H4. apply bool_decide_eq_false in H4.
    apply H4. rewrite E, !elem_of_cons. tauto.
Qed.

Lemma plain_has_char s c :
  Py.forall_chars plain_char s = true → plain_char c = false →
  Py.has_char c s = false.
Proof. apply forall_chars_has_char. Qed.

Lemma remove_unsafe_plain s :
  Py.forall_chars plain_char s = true → remove_unsafe s = s.
Proof.
  intros Hp. unfold remove_unsafe.
  rewrite (replace_absent "009") by (by apply plain_has_char).
  rewrite (replace_absent "013") by (by apply plain_has_char).
  by rewrite (replace_absent "010") by (by apply plain_has_char).
Qed.

Lemma split_fragment_query_plain s n u :
  Py.forall_chars plain_char u = true →
  split_fragment_query s n u = mkSplit s n u "" "".
Proof.
  intros Hp. unfold split_fragment_query.
  rewrite (partition_absent "#") by (by apply plain_has_char).
  by rewrite (partition_absent "?") by (by apply plain_has_char).
Qed.

Lemma split_scheme_rooted d tail :
  split_scheme d (String "/" tail) = (d, String "/" tail).
Proof.
  unfold split_scheme. cbn.
  by destruct (Py.partition ":" tail) as [[b a]|].
Qed.

(** A rooted path is all path: no scheme, host, parameters, query or
    fragment. *)
Lemma rooted_path_parse href :
  rooted_path href = true →
  urlparse check_bracketed_netloc href "https"
  = Some (mkParse "https" "" href "" "" "").
Proof.
  intros ([tail ->] & H2 & H3 & _)%rooted_path_inv.
  unfold urlparse, urlsplit.
  change (Py.lstrip c0_control_or_space (String "/" tail))
    with (String "/" tail).
  change (remove_unsafe (Py.strip c0_control_or_space "https")) with "https".
  rewrite remove_unsafe_plain by done.
  rewrite split_scheme_rooted, H2.
  rewrite split_fragment_query_plain by done.
  cbn [scheme netloc path query fragment].
  by rewrite (plain_has_char _ ";" H3), andb_false_r.
Qed.

Lemma rooted_path_urljoin href :
  rooted_path href = true →
  UrlParse.urljoin check_bracketed_netloc base_url href
  = Some (urlunparse (mkParse "https" "9animetv.to" (resolved href) "" "" "")).
Proof.
  intros Hroot.
  pose proof (rooted_path_inv _ Hroot) as ([tail ->] & H2 & H3 & H4 & H5).
  unfold UrlParse.urljoin.
  change (negb (Py.truthy base_url)) with false.
  cbn [negb Py.truthy]. cbv iota.
  rewrite urlparse_base.
  cbn [p_scheme p_netloc p_path p_params p_query p_fragment].
  rewrite (rooted_path_parse _ Hroot).
  cbn [p_scheme p_netloc p_path p_params p_query p_fragment].
  change (String.eqb "https" "https") with true.
  change (in_list "https" uses_relative) with true.
  change (in_list "https" uses_netloc) with true.
  cbn [negb orb andb Py.truthy]. cbv iota.
  rewrite startswith_char, Ascii.eqb_refl.
  assert (in_list (Py.last_item (Py.split "/" (String "/" tail))) ["."; ".."]
          = false) as ->.
  { apply bool_decide_eq_false.
    rewrite !elem_of_cons, elem_of_nil. tauto. }
  done.
Qed.

(** *** Resolving the segments *)

Lemma resolve_step_plain_segment acc x :
  x ≠ ".." → x ≠ "." → resolve_step acc x = acc ++ [x].
Proof.
  intros H1 H2. unfold resolve_step.
  destruct (String.eqb_spec x ".."); [done|].
  by destruct (String.eqb_spec x ".").
Qed.

Lemma Forall_removelast {A} (P : A → Prop) l :
  Forall P l → Forall P (removelast l).
Proof.
  induction 1 as [|x l Hx Hl IH]; [constructor|].
  cbn. destruct l; [constructor|]. by constructor.
Qed.

Lemma resolve_step_Forall (P : string → Prop) acc x :
  Forall P acc → P x → Forall P (resolve_step acc x).
Proof.
  intros Hacc Hx. unfold resolve_step.
  destruct (String.eqb x ".."); [by apply Forall_removelast|].
  destruct (String.eqb x "."); [done|].
  apply Forall_app. split; [done|]. by constructor.
Qed.

Lemma foldl_resolve_Forall (P : string → Prop) segments acc :
  Forall P acc → Forall P segments →
  Forall P (foldl resolve_step acc segments).
Proof.
  revert acc. induction segments as [|x l IH]; intros acc Hacc Hl; [done|].
  apply Forall_cons in Hl as [Hx Hl]. cbn.
  apply IH; [by apply resolve_step_Forall|done].
Qed.

Lemma join_snoc sep l x :
  l ≠ [] → Py.join sep (l ++ [x]) = Py.join sep l +:+ sep +:+ x.
Proof.
  induction l as [|y l IH]; [done|]. intros _.
  destruct l as [|z l]; [done|].
  change (Py.join sep ((y :: z :: l) ++ [x]))
    with (y +:+ sep +:+ Py.join sep ((z :: l) ++ [x])).
  rewrite IH by done.
  change (Py.join sep (y :: z :: l)) with (y +:+ sep +:+ Py.join sep (z :: l)).
  by rewrite !str_app_assoc.
Qed.

Lemma join_plain l :
  Forall (fun piece => Py.forall_chars plain_char piece = true) l →
  Py.forall_chars plain_char (Py.join "/" l) = true.
Proof.
  induction 1 as [|x l Hx Hl IH]; [done|].
  destruct l as [|y l]; [done|].
  change (Py.join "/" (x :: y :: l)) with (x +:+ "/" +:+ Py.join "/" (y :: l)).
  by rewrite !forall_chars_app, Hx, IH.
Qed.

Lemma snoc_of_not_nil {A} (l : list A) :
  l ≠ [] → ∃ init x, l = init ++ [x].
Proof.
  induction l as [|y l IH] using rev_ind; [done|]. eauto.
Qed.

(** What [urlunsplit] writes for the resolved path: plain text that ends
    in a slash followed by the last segment of the href. *)
Lemma resolved_shape href :
  rooted_path href = true →
  ∃ A, after_netloc (resolved href)
       = A +:+ String "/" (Py.last_item (Py.split "/" href))
     ∧ Py.forall_chars plain_char A = true.
Proof.
  intros (_ & _ & Hplain & Hdd & Hd)%rooted_path_inv.
  pose proof (split_pieces_chars plain_char "/" href Hplain) as Hpieces.
  pose proof (split_pieces_no_sep "/" href) as Hsep.
  destruct (snoc_of_not_nil _ (split_not_nil "/" href)) as (init & x & E).
  unfold resolved. rewrite E in *. rewrite last_item_snoc in *.
  apply Forall_app in Hpieces as [Hinit Hx%Forall_inv].
  apply Forall_app in Hsep as [_ Hxsep%Forall_inv].
  rewrite foldl_app. cbn [foldl]. rewrite resolve_step_plain_segment by done.
  assert (HR : Forall (fun piece => Py.forall_chars plain_char piece = true)
                      (foldl resolve_step [] init))
    by (by apply foldl_resolve_Forall).
  destruct (foldl resolve_step [] init) as [|r R] eqn:ER.
  - cbn [app Py.join]. exists "". split; [|done].
    rewrite str_app_nil. unfold after_netloc.
    destruct x as [|c x]; [done|].
    cbn [Py.truthy andb]. rewrite startswith_char.
    cbn in Hxsep. apply orb_false_iff in Hxsep as [-> _]. done.
  - rewrite join_snoc by done.
    set (J := Py.join "/" (r :: R)).
    assert (HJ : Py.forall_chars plain_char J = true) by (by apply join_plain).
    assert (Py.truthy (J +:+ "/" +:+ x) = true) as ->.
    { destruct J; [by rewrite str_app_nil|by rewrite str_app_cons]. }
    unfold after_netloc.
    destruct (_ && _).
    + exists ("/" +:+ J). split.
      * by rewrite !str_app_assoc.
      * by rewrite forall_chars_app, HJ.
    + exists J. split; [done|done].
Qed.

(** The final path segment of the address joined for a rooted path is
    the last [/]-separated piece of the href. *)
Lemma rooted_path_final_segment href url :
  rooted_path href = true →
  UrlParse.urljoin check_bracketed_netloc base_url href = Some url →
  final_path_segment check_bracketed_netloc url
  = Some (Py.last_item (Py.split "/" href)).
Proof.
  intros Hroot. rewrite (rooted_path_urljoin _ Hroot). intros [= <-].
  destruct (resolved_shape _ Hroot) as (A & EA & HA).
  pose proof (rooted_path_inv _ Hroot) as (_ & _ & Hplain & _).
  pose proof (split_pieces_chars plain_char "/" href Hplain) as Hpieces.
  pose proof (split_pieces_no_sep "/" href) as Hsep.
  destruct (snoc_of_not_nil _ (split_not_nil "/" href)) as (init & x & E).
  rewrite E in *. rewrite last_item_snoc in *.
  apply Forall_app in Hpieces as [_ Hx%Forall_inv].
  apply Forall_app in Hsep as [_ Hxsep%Forall_inv].
  assert (Hunparse :
    urlunparse (mkParse "https" "9animetv.to" (resolved href) "" "" "")
    = "https://9animetv.to" +:+ after_netloc (resolved href)).
  { unfold urlunparse, urlunsplit. cbn. by fold (after_netloc (resolved href)). }
  rewrite Hunparse. unfold final_path_segment.
  rewrite urlsplit_base_prefix by apply after_netloc_starts_at_delim.
  assert (Hp : Py.forall_chars plain_char (after_netloc (resolved href)) = true).
  { rewrite EA, forall_chars_app, HA. cbn. by rewrite Hx. }
  rewrite remove_unsafe_plain, split_fragment_query_plain by done.
  change (Some (Py.last_item (Py.split "/" (after_netloc (resolved href))))
          = Some x).
  by rewrite EA, last_split_app, split_no_sep.
Qed.

End UrlPathFacts.

(** *** The claims on [url] and [id] *)

(** C2, as stated, fails: [urljoin] keeps the scheme and host an href
    names.  For the anchor href [http://example.org/watch/one-piece-100]
    the record's url is that very address, whose scheme and host are not
    those of the base. *)
Lemma url_origin_may_differ :
  ¬ (∀ (check_bracketed_netloc : string → bool) (elem : Doc.tag) (url : string),
        strs (extract_anime_info check_bracketed_netloc elem) !! "url"
        = Some url →
        origin check_bracketed_netloc url
        = origin check_bracketed_netloc base_url).
Proof.
  intros Hclaim.
  specialize (Hclaim Doc.no_brackets
    (listing "http://example.org/watch/one-piece-100" ["tick-eps"] "Ep 12")
    "http://example.org/watch/one-piece-100" eq_refl).
  vm_compute in Hclaim. discriminate Hclaim.
Qed.

(** C2, amended: when the href of the selected anchor names no scheme
    other than [https] and no host other than [9animetv.to], the url of
    the record is an absolute address with the scheme and host of the
    base address. *)
Theorem url_on_base_origin (Tag : Type) (M : Markup Tag)
    (check_bracketed_netloc : string → bool) (elem link : Tag)
    (href url : string) :
  select_link elem = Some link →
  get link "href" = Some href →
  names_no_other_origin check_bracketed_netloc href = true →
  strs (extract_anime_info check_bracketed_netloc elem) !! "url" = Some url →
  origin check_bracketed_netloc url = Some ("https", "9animetv.to")
  ∧ origin check_bracketed_netloc url
    = origin check_bracketed_netloc base_url.
Proof.
  intros Hlink Hhref Hnames
    (link' & href' & Hlink' & Hhref' & Htruthy & _ & Hjoin & _)%extract_link_inv.
  rewrite Hlink in Hlink'. injection Hlink' as <-.
  rewrite Hhref in Hhref'. injection Hhref' as <-.
  destruct (urljoin_on_base _ _ _ Htruthy Hnames Hjoin)
    as (P & prm & q & f & ->).
  by rewrite origin_base, origin_urlunparse_base.
Qed.

Lemma url_on_base_origin_witness :
  origin Doc.no_brackets "https://9animetv.to/watch/one-piece-100?ep=2055"
  = Some ("https", "9animetv.to")
  ∧ origin Doc.no_brackets "https://9animetv.to/watch/one-piece-100?ep=2055"
    = origin Doc.no_brackets base_url.
Proof.
  exact (url_on_base_origin Doc.tag Doc.markup Doc.no_brackets
           (listing "/watch/one-piece-100?ep=2055" ["tick-eps"] "Ep 12")
           (listing_anchor "/watch/one-piece-100?ep=2055" ["tick-eps"] "Ep 12")
           "/watch/one-piece-100?ep=2055"
           "https://9animetv.to/watch/one-piece-100?ep=2055"
           eq_refl eq_refl eq_refl eq_refl).
Defined.




(** A trailing slash: the id and the final path segment are both empty. *)
Example trailing_slash_id :
  strs (extract_anime_info Doc.no_brackets
          (listing "/watch/one-piece-100/" ["tick-eps"] "Ep 12")) !! "id"
  = Some ""
  ∧ final_path_segment Doc.no_brackets "https://9animetv.to/watch/one-piece-100/"
    = Some "".
Proof. split; reflexivity. Qed.

(** ** The page fetcher *)

Section FetchFacts.

Context {Tag : Type}.
Variable respond : nat → option Tag.

(** From [attempt] on, with every request left failing. *)
Lemma get_page_loop_all_fail url retries remaining attempt :
  (∀ j, (attempt ≤ j < attempt + remaining)%nat → respond j = None) →
  Z.of_nat (attempt + remaining) = retries →
  (0 < remaining)%nat →
  ∃ events,
    get_page_loop respond url retries attempt remaining = (None, events)
    ∧ count is_request events = remaining
    ∧ count is_warning events = remaining
    ∧ count is_sleep events = (remaining - 1)%nat
    ∧ count is_error events = 1%nat
    ∧ slept events = (2 * (Z.of_nat remaining - 1))%Z.
Proof.
  revert attempt. induction remaining as [|n IH]; intros attempt Hfail Hsum Hpos;
    [lia|].
  cbn [get_page_loop]. rewrite (Hfail attempt) by lia.
  destruct n as [|n].
  - assert ((Z.of_nat attempt <? retries - 1)%Z = false) as ->
      by (apply Z.ltb_ge; lia).
    eexists. split; [done|]. by vm_compute.
  - assert ((Z.of_nat attempt <? retries - 1)%Z = true) as ->
      by (apply Z.ltb_lt; lia).
    destruct (IH (S attempt)) as (events & -> & Hr & Hw & Hs & He & Ht);
      [intros j Hj; apply Hfail; lia|lia|lia|].
    eexists. split; [done|].
    unfold count, slept in *. cbn. rewrite Hr, Hw, Hs, He, Ht.
    repeat split; lia.
Qed.

(** From [attempt] on, with the first success [k] requests later. *)
Lemma get_page_loop_success url retries remaining attempt k soup :
  (∀ j, (attempt ≤ j < attempt + k)%nat → respond j = None) →
  respond (attempt + k)%nat = Some soup →
  Z.of_nat (attempt + remaining) = retries →
  (k < remaining)%nat →
  ∃ events,
    get_page_loop respond url retries attempt remaining = (Some soup, events)
    ∧ count is_request events = S k
    ∧ count is_warning events = k
    ∧ count is_sleep events = k
    ∧ count is_error events = 0%nat
    ∧ slept events = (2 * Z.of_nat k)%Z.
Proof.
  revert attempt remaining.
  induction k as [|k IH]; intros attempt remaining Hfail Hok Hsum Hlt.
  - destruct remaining as [|n]; [lia|].
    cbn [get_page_loop]. rewrite Nat.add_0_r in Hok. rewrite Hok.
    eexists. split; [done|]. by vm_compute.
  - destruct remaining as [|n]; [lia|].
    cbn [get_page_loop]. rewrite (Hfail attempt) by lia.
    assert ((Z.of_nat attempt <? retries - 1)%Z = true) as ->
      by (apply Z.ltb_lt; lia).
    destruct (IH (S attempt) n) as (events & -> & Hr & Hw & Hs & He & Ht);
      [intros j Hj; apply Hfail; lia
      |by replace (S attempt + k)%nat with (attempt + S k)%nat by lia
      |lia|lia|].
    eexists. split; [done|].
    unfold count, slept in *. cbn. rewrite Hr, Hw, Hs, He, Ht.
    repeat split; lia.
Qed.

End FetchFacts.

(** X1: when every request fails, [get_page] gives [None] after exactly
    [retries] requests, with one warning per request, a 2-second sleep
    between consecutive requests only, and a single final error; with
    [retries <= 0] it gives [None] without any request. *)
Theorem get_page_gives_up (Tag : Type) (respond : nat → option Tag)
    (url : string) (retries : Z) :
  (∀ j, (Z.of_nat j < retries)%Z → respond j = None) →
  ∃ events,
    get_page_retry respond url retries = (None, events)
    ∧ count is_request events = Z.to_nat retries
    ∧ count is_warning events = Z.to_nat retries
    ∧ count is_sleep events = (Z.to_nat retries - 1)%nat
    ∧ count is_error events = (if (0 <? retries)%Z then 1 else 0)%nat
    ∧ slept events = (2 * Z.max 0 (retries - 1))%Z.
Proof.
  intros Hfail. unfold get_page_retry.
  destruct (Z.ltb_spec 0 retries) as [Hpos|Hneg].
  - destruct (get_page_loop_all_fail respond url retries (Z.to_nat retries) 0)
      as (events & E & Hr & Hw & Hs & He & Ht);
      [intros j Hj; apply Hfail; lia|lia|lia|].
    exists events. repeat split; try done. lia.
  - replace (Z.to_nat retries) with 0%nat by lia.
    exists []. repeat split; try done. cbn. lia.
Qed.

Lemma get_page_gives_up_witness :
  ∃ events,
    get_page_retry (fun _ : nat => @None Doc.tag) "https://9animetv.to" 3
    = (None, events)
    ∧ count is_request events = Z.to_nat 3
    ∧ count is_warning events = Z.to_nat 3
    ∧ count is_sleep events = (Z.to_nat 3 - 1)%nat
    ∧ count is_error events = (if (0 <? 3)%Z then 1 else 0)%nat
    ∧ slept events = (2 * Z.max 0 (3 - 1))%Z.
Proof.
  exact (get_page_gives_up Doc.tag (fun _ => None) "https://9animetv.to" 3
           (fun _ _ => eq_refl)).
Defined.

(** X2: [get_page] returns the document of the first request that
    succeeds within the budget; it has then made one request per failure
    plus one, slept 2 seconds after each failure, and logged no error. *)
Theorem get_page_first_success (Tag : Type) (respond : nat → option Tag)
    (url : string) (retries : Z) (k : nat) (soup : Tag) :
  (∀ j, (j < k)%nat → respond j = None) →
  respond k = Some soup →
  (Z.of_nat k < retries)%Z →
  ∃ events,
    get_page_retry respond url retries = (Some soup, events)
    ∧ count is_request events = S k
    ∧ count is_warning events = k
    ∧ count is_sleep events = k
    ∧ count is_error events = 0%nat
    ∧ slept events = (2 * Z.of_nat k)%Z.
Proof.
  intros Hfail Hok Hk. unfold get_page_retry.
  apply get_page_loop_success; [intros j Hj; apply Hfail; lia|done|lia|lia].
Qed.

Lemma get_page_first_success_witness :
  ∃ events,
    get_page_retry
      (fun j => if (j <? 2)%nat then None else Some episode_type_span)
      "https://9animetv.to" 3
    = (Some episode_type_span, events)
    ∧ count is_request events = 3%nat
    ∧ count is_warning events = 2%nat
    ∧ count is_sleep events = 2%nat
    ∧ count is_error events = 0%nat
    ∧ slept events = (2 * Z.of_nat 2)%Z.
Proof.
  refine (get_page_first_success Doc.tag
            (fun j => if (j <? 2)%nat then None else Some episode_type_span)
            "https://9animetv.to" 3 2 episode_type_span _ eq_refl eq_refl).
  intros j Hj. destruct j as [|[|j]]; [reflexivity|reflexivity|lia].
Defined.

(** ** More on the duplicate removal *)

Section DedupMore.

Variable long_enough : string → bool.

Lemma unique_of_sublist l : unique_of long_enough l `sublist_of` l.
Proof.
  induction l as [|a l IH] using rev_ind; [done|].
  rewrite unique_of_snoc. apply sublist_app; [done|].
  destruct (seen_rule _ _ _); [done|]. apply sublist_nil_l.
Qed.

(** A record the rule would keep on its own has, in the output, a record
    with its title or a record with its url. *)
Lemma unique_of_represents l anime :
  anime ∈ l →
  Py.truthy (title_key anime) = true →
  Py.truthy (url_key anime) = true →
  long_enough (title_key anime) = true →
  title_key anime ∈ title_key <$> unique_of long_enough l
  ∨ url_key anime ∈ url_key <$> unique_of long_enough l.
Proof.
  intros (pre & post & ->)%list_elem_of_split Ht Hu Hl.
  destruct (unique_of_app long_enough (pre ++ [anime]) post) as [rest E].
  rewrite <- app_assoc in E. cbn in E. rewrite E, unique_of_snoc.
  rewrite !fmap_app, !elem_of_app.
  destruct (seen_rule long_enough (unique_of long_enough pre) anime) eqn:Er.
  - left. left. right. cbn. apply list_elem_of_here.
  - unfold seen_rule in Er. rewrite Ht, Hu, Hl, !andb_true_r in Er.
    apply andb_false_iff in Er as [Er|Er];
      apply bool_decide_eq_false in Er;
      [left|right]; left; left; by apply dec_stable.
Qed.

End DedupMore.

Lemma get_default_present anime key :
  Py.truthy (get_default anime key) = true →
  strs anime !! key = Some (get_default anime key).
Proof. unfold get_default. by destruct (strs anime !! key). Qed.

Lemma truthy_lower s : Py.truthy (Py.lower s) = Py.truthy s.
Proof. by destruct s. Qed.

Lemma longer_than_3_truthy s : longer_than_3 s = true → Py.truthy s = true.
Proof. by destruct s. Qed.

Lemma scrape_all_unique_valid_sublist (l : list AnimeInfo) :
  scrape_all_unique l `sublist_of` l
  ∧ Forall (fun anime =>
              ∃ title url,
                strs anime !! "title" = Some title
                ∧ (3 < String.length (Py.lower title))%nat
                ∧ strs anime !! "url" = Some url
                ∧ url ≠ "")
           (scrape_all_unique l).
Proof.
  rewrite scrape_all_unique_of. split; [apply unique_of_sublist|].
  destruct (all_kept_unique_of longer_than_3 l) as (_ & _ & Hall).
  eapply Forall_impl; [exact Hall|]. intros a (Ht & Hu & Hlen).
  exists (get_default a "title"), (get_default a "url").
  unfold title_key, url_key in *. rewrite truthy_lower in Ht.
  repeat split.
  - by apply get_default_present.
  - by apply Nat.ltb_lt.
  - by apply get_default_present.
  - intros E. by rewrite E in Hu.
Qed.

(** X3: the duplicate removal of [scrape_all] only drops records: its
    output is the input with some records left out, the others unchanged
    and in encounter order; every record it keeps has a title whose
    lowercased form, the one the loop measures, is longer than 3
    characters, and a non-empty url. *)
Theorem scrape_all_unique_keeps_valid (l : list AnimeInfo) :
  scrape_all_unique l `sublist_of` l
  ∧ Forall (fun anime =>
              ∃ title url,
                strs anime !! "title" = Some title
                ∧ (3 < String.length (Py.lower title))%nat
                ∧ strs anime !! "url" = Some url
                ∧ url ≠ "")
           (scrape_all_unique l).
Proof. apply scrape_all_unique_valid_sublist. Qed.

(** X4: [scrape_all] loses no valid record without a stand-in: a record
    of the input with a non-empty url and a title longer than 3 characters
    has its lowercased title or its url among the records kept. *)
Theorem scrape_all_unique_represents (l : list AnimeInfo) (anime : AnimeInfo) :
  anime ∈ l →
  long_title anime = true →
  Py.truthy (url_key anime) = true →
  title_key anime ∈ title_key <$> scrape_all_unique l
  ∨ url_key anime ∈ url_key <$> scrape_all_unique l.
Proof.
  intros Hin Hlong%long_title_key Hurl. rewrite scrape_all_unique_of.
  apply unique_of_represents; try done. by apply longer_than_3_truthy.
Qed.

Lemma scrape_all_unique_represents_witness :
  naruto_355 ∈ [naruto_677; naruto_355]
  ∧ long_title naruto_355 = true
  ∧ Py.truthy (url_key naruto_355) = true
  ∧ (title_key naruto_355 ∈ title_key <$> scrape_all_unique [naruto_677; naruto_355]
     ∨ url_key naruto_355 ∈ url_key <$> scrape_all_unique [naruto_677; naruto_355]).
Proof.
  assert (Hin : naruto_355 ∈ [naruto_677; naruto_355])
    by (apply list_elem_of_further, list_elem_of_here).
  repeat split; [exact Hin|].
  exact (scrape_all_unique_represents [naruto_677; naruto_355] naruto_355
           Hin eq_refl eq_refl).
Defined.

Lemma multiple_pages_unique_props (l : list AnimeInfo) :
  multiple_pages_unique l `sublist_of` l
  ∧ NoDup (title_key <$> multiple_pages_unique l)
  ∧ NoDup (url_key <$> multiple_pages_unique l)
  ∧ Forall (fun anime =>
              ∃ title url,
                strs anime !! "title" = Some title ∧ title ≠ ""
                ∧ strs anime !! "url" = Some url ∧ url ≠ "")
           (multiple_pages_unique l)
  ∧ multiple_pages_unique (multiple_pages_unique l) = multiple_pages_unique l.
Proof.
  rewrite !multiple_pages_unique_of.
  destruct (all_kept_unique_of any_length l) as (Ht & Hu & Hall).
  split; [apply unique_of_sublist|]. split; [done|]. split; [done|].
  split; [|apply unique_of_idempotent].
  eapply Forall_impl; [exact Hall|]. intros a (Ha & Hb & _).
  exists (get_default a "title"), (get_default a "url").
  unfold title_key, url_key in *. rewrite truthy_lower in Ha.
  repeat split.
  - by apply get_default_present.
  - intros E. by rewrite E in Ha.
  - by apply get_default_present.
  - intros E. by rewrite E in Hb.
Qed.

(** X5: the duplicate removal of
    [scrape_recently_added_multiple_pages] only drops records, keeps
    records with a non-empty title and a non-empty url, leaves lowercased
    titles and urls each pairwise distinct, and is idempotent. *)
Theorem multiple_pages_unique_facts (l : list AnimeInfo) :
  multiple_pages_unique l `sublist_of` l
  ∧ NoDup (title_key <$> multiple_pages_unique l)
  ∧ NoDup (url_key <$> multiple_pages_unique l)
  ∧ Forall (fun anime =>
              ∃ title url,
                strs anime !! "title" = Some title ∧ title ≠ ""
                ∧ strs anime !! "url" = Some url ∧ url ≠ "")
           (multiple_pages_unique l)
  ∧ multiple_pages_unique (multiple_pages_unique l) = multiple_pages_unique l.
Proof. apply multiple_pages_unique_props. Qed.

(** ** More on the extractor *)

Section ExtractorMore.

Context {Tag : Type} `{Markup Tag}.
Variable check_bracketed_netloc : string → bool.

(** The value of [title] in the result. *)
Lemma extract_title_value elem :
  strs (extract_anime_info check_bracketed_netloc elem) !! "title"
  = match select_title elem with
    | Some title_element =>
        let title := get_text title_element in
        if (3 <? String.length title)%nat
           && negb (UrlParse.in_list (Py.lower title) stoplist)
        then Some title else None
    | None => None
    end.
Proof.
  rewrite extract_title_only. unfold extract_title.
  destruct (select_title elem) as [te|]; [|done].
  destruct (_ && _); [|done]. cbn. by rewrite lookup_insert_eq.
Qed.

Lemma has_title_inv info :
  has_title info = true → is_Some (strs info !! "title").
Proof.
  unfold has_title. intros [_ Ht]%andb_true_iff.
  rewrite (get_default_present _ _ Ht). eauto.
Qed.

Lemma scrape_elements_none skip accept tag elements :
  Forall (fun e => accept (extract_anime_info check_bracketed_netloc e) = false)
         elements →
  scrape_elements check_bracketed_netloc skip accept tag elements = [].
Proof.
  unfold scrape_elements, extract.
  induction elements as [|e elements IH] using rev_ind; [done|].
  intros [Hl He%Forall_inv]%Forall_app.
  rewrite foldl_app. cbn. rewrite He, (IH Hl). by destruct (skip e).
Qed.

(** The keys of the link step. *)
Lemma extract_link_keys key elem :
  key = "url" ∨ key = "id" ∨ key = "japanese_name" →
  strs (extract_anime_info check_bracketed_netloc elem) !! key
  = strs (returned (extract_link check_bracketed_netloc elem
                      (returned (extract_title elem empty_info)))) !! key.
Proof.
  unfold extract_anime_info.
  intros [-> | [-> | ->]].
  all: rewrite and_then_keeps by (by apply extract_description_keeps).
  all: rewrite and_then_keeps by (by apply extract_genres_keeps).
  all: rewrite and_then_keeps by (by apply extract_rating_keeps).
  all: rewrite and_then_keeps by (by apply extract_info_keeps).
  all: rewrite and_then_keeps by (by apply extract_image_keeps).
  all: cbn; by destruct (extract_title_ok elem empty_info) as [info ->].
Qed.

Lemma link_keys_together elem :
  let info := extract_anime_info check_bracketed_netloc elem in
  (is_Some (strs info !! "url") ↔ is_Some (strs info !! "id"))
  ∧ (is_Some (strs info !! "japanese_name") → is_Some (strs info !! "url")).
Proof.
  cbn. rewrite !extract_link_keys by auto.
  assert (Hu : strs (returned (extract_title elem empty_info)) !! "url" = None)
    by (by apply before_link).
  assert (Hi : strs (returned (extract_title elem empty_info)) !! "id" = None)
    by (by apply before_link).
  assert (Hj : strs (returned (extract_title elem empty_info))
               !! "japanese_name" = None) by (by apply before_link).
  unfold extract_link.
  destruct (select_link elem) as [link|];
    [|cbn [returned]; rewrite Hu, Hi, Hj; split; [done|by intros []]].
  destruct (get link "href") as [href|];
    [|cbn [returned]; rewrite Hu, Hi, Hj; split; [done|by intros []]].
  destruct (_ && _);
    [|cbn [returned]; rewrite Hu, Hi, Hj; split; [done|by intros []]].
  destruct (urljoin _ _ _) as [u|];
    [|cbn [returned]; rewrite Hu, Hi, Hj; split; [done|by intros []]].
  destruct (get link "data-jname") as [jname|]; [destruct (Py.truthy jname)|];
    cbn; repeat (rewrite lookup_insert_eq || rewrite lookup_insert_ne by done);
    rewrite ?Hj; repeat split; try (by intros [? ?]); eauto.
Qed.

(** An exception in the link step ends the extraction. *)
Lemma extract_link_raises elem link href :
  select_link elem = Some link →
  get link "href" = Some href →
  Py.contains "/watch/" href = true →
  urljoin check_bracketed_netloc base_url href = None →
  extract_anime_info check_bracketed_netloc elem
  = returned (extract_title elem empty_info).
Proof.
  intros Hlink Hhref Hwatch Hjoin. unfold extract_anime_info.
  destruct (extract_title_ok elem empty_info) as [info E].
  change (Ok empty_info >>= extract_title elem)
    with (extract_title elem empty_info).
  rewrite E. cbn [and_then returned]. unfold extract_link.
  rewrite Hlink, Hhref, Hwatch, Hjoin.
  assert (Py.truthy href = true) as -> by (by destruct href).
  done.
Qed.

(** The keys of the image step. *)
Lemma extract_image_keys key elem :
  key = "image_url" ∨ key = "alt_text" →
  strs (returned (Ok empty_info >>= extract_title elem
                  >>= extract_link check_bracketed_netloc elem)) !! key = None
  ∧ strs (extract_anime_info check_bracketed_netloc elem) !! key
    = strs (returned (Ok empty_info >>= extract_title elem
                      >>= extract_link check_bracketed_netloc elem
                      >>= extract_image check_bracketed_netloc elem)) !! key.
Proof.
  intros Hkey. split.
  - destruct Hkey as [-> | ->].
    all: rewrite and_then_keeps by (by apply extract_link_keeps).
    all: by rewrite and_then_keeps by (by apply extract_title_keeps).
  - unfold extract_anime_info. destruct Hkey as [-> | ->].
    all: rewrite and_then_keeps by (by apply extract_description_keeps).
    all: rewrite and_then_keeps by (by apply extract_genres_keeps).
    all: rewrite and_then_keeps by (by apply extract_rating_keeps).
    all: by rewrite and_then_keeps by (by apply extract_info_keeps).
Qed.

Lemma extract_image_inv elem image_url :
  strs (extract_anime_info check_bracketed_netloc elem) !! "image_url"
  = Some image_url →
  ∃ img,
    select_image elem = Some img
    ∧ urljoin check_bracketed_netloc base_url (default "" (get img "src"))
      = Some image_url
    ∧ strs (extract_anime_info check_bracketed_netloc elem) !! "alt_text"
      = Some (default "" (get img "alt")).
Proof.
  destruct (extract_image_keys "image_url" elem) as (Ha & ->); [auto|].
  destruct (extract_image_keys "alt_text" elem) as (Ha' & ->); [auto|].
  destruct (Ok empty_info >>= extract_title elem
            >>= extract_link check_bracketed_netloc elem) as [info|info];
    cbn [and_then returned] in *; [|by rewrite Ha].
  unfold extract_image.
  destruct (select_image elem) as [img|]; [|by cbn [returned]; rewrite Ha].
  destruct (urljoin _ _ _) as [u|] eqn:Eu; [|by cbn [returned]; rewrite Ha].
  cbn. rewrite lookup_insert_ne by done. rewrite !lookup_insert_eq.
  intros [= <-]. eauto.
Qed.

End ExtractorMore.

(** X6: [url] and [id] are set together or not at all, and
    [japanese_name] is set only in a record that has a [url]. *)
Theorem url_and_id_set_together (Tag : Type) (M : Markup Tag)
    (check_bracketed_netloc : string → bool) (elem : Tag) :
  let info := extract_anime_info check_bracketed_netloc elem in
  (is_Some (strs info !! "url") ↔ is_Some (strs info !! "id"))
  ∧ (is_Some (strs info !! "japanese_name") → is_Some (strs info !! "url")).
Proof. apply link_keys_together. Qed.





Section InfoLoop.

Context {Tag : Type} `{Markup Tag}.

Lemma classify_writes info (e : Tag) key :
  first_match (branches (get_class e) (get_text e)) = Some key →
  strs (classify info e) !! key = Some (get_text e).
Proof.
  intros E. rewrite classify_first_match, E. cbn. apply lookup_insert_eq.
Qed.

Lemma classify_other info (e : Tag) key :
  first_match (branches (get_class e) (get_text e)) ≠ Some key →
  strs (classify info e) !! key = strs info !! key.
Proof.
  intros E. rewrite classify_first_match.
  destruct (first_match _) as [k|]; [|done].
  cbn. apply lookup_insert_ne. congruence.
Qed.

Lemma foldl_classify_other info (l : list Tag) key :
  Forall (fun e => first_match (branches (get_class e) (get_text e)) ≠ Some key)
         l →
  strs (foldl classify info l) !! key = strs info !! key.
Proof.
  revert info. induction l as [|e l IH]; intros info Hl; [done|].
  apply Forall_cons in Hl as [He Hl]. cbn.
  by rewrite (IH _ Hl), classify_other.
Qed.

End InfoLoop.

(** X9: in the metadata loop a later element overwrites an earlier one
    under the same key: the value left under a key is the text of the
    last element, in document order, that the chain files under it; a key
    no element is filed under keeps what it had. *)
Theorem last_metadata_element_wins (Tag : Type) (M : Markup Tag)
    (elem : Tag) (info : AnimeInfo) (key : string) :
  (∀ before e after,
      find_all elem info_selector = before ++ e :: after →
      first_match (branches (get_class e) (get_text e)) = Some key →
      Forall (fun e' =>
                first_match (branches (get_class e') (get_text e')) ≠ Some key)
             after →
      strs (returned (extract_info elem info)) !! key = Some (get_text e))
  ∧ (Forall (fun e' =>
               first_match (branches (get_class e') (get_text e')) ≠ Some key)
            (find_all elem info_selector) →
     strs (returned (extract_info elem info)) !! key = strs info !! key).
Proof.
  unfold extract_info. fold info_selector. cbn [returned]. split.
  - intros earlier e later -> He Hlater.
    rewrite foldl_app. cbn [foldl].
    by rewrite foldl_classify_other, classify_writes.
  - apply foldl_classify_other.
Qed.

Lemma last_metadata_element_wins_witness :
  strs (returned (extract_info (Doc.root counters_html) empty_info)) !! "episodes"
  = Some "Ep 12".
Proof.
  refine (proj1 (last_metadata_element_wins Doc.tag Doc.markup
                   (Doc.root counters_html) empty_info "episodes")
                [(first_counter_html, [counters_html])]
                (second_counter_html, [counters_html]) []
                eq_refl eq_refl _).
  constructor.
Defined.

(** X11: an element without a title-bearing sub-element, or whose title
    text has at most 3 characters or is a navigation word, gives a record
    without [title]; a loop over such elements keeps no record, whatever
    it skips and however it tags. *)
Theorem no_title_no_record (Tag : Type) (M : Markup Tag)
    (check_bracketed_netloc : string → bool)
    (skip : Tag → bool) (tag : AnimeInfo → AnimeInfo) (elements : list Tag) :
  Forall (fun e =>
            match select_title e with
            | Some title_element =>
                (String.length (get_text title_element) ≤ 3)%nat
                ∨ Py.lower (get_text title_element) ∈ stoplist
            | None => True
            end) elements →
  Forall (fun e =>
            strs (extract_anime_info check_bracketed_netloc e) !! "title" = None)
         elements
  ∧ scrape_elements check_bracketed_netloc skip has_title tag elements = []
  ∧ scrape_elements check_bracketed_netloc skip
      (fun anime_info => has_title anime_info && long_title anime_info)
      tag elements = [].
Proof.
  intros Hall.
  assert (Hnone : Forall (fun e =>
            strs (extract_anime_info check_bracketed_netloc e) !! "title" = None)
            elements).
  { eapply Forall_impl; [exact Hall|]. intros e He.
    cbv beta in He |- *. rewrite extract_title_value. revert He.
    destruct (select_title e) as [te|]; [|done]. cbv zeta.
    intros [Hshort|Hstop].
    - by assert ((3 <? String.length (get_text te))%nat = false) as ->
        by (apply Nat.ltb_ge; lia).
    - unfold UrlParse.in_list. rewrite bool_decide_eq_true_2 by done.
      by rewrite andb_false_r. }
  assert (Hacc : Forall (fun e =>
            has_title (extract_anime_info check_bracketed_netloc e) = false)
            elements).
  { eapply Forall_impl; [exact Hnone|]. intros e He.
    destruct (has_title _) eqn:E; [|done].
    apply has_title_inv in E as [t Ht]. congruence. }
  split; [done|]. split.
  - by apply scrape_elements_none.
  - apply scrape_elements_none.
    eapply Forall_impl; [exact Hacc|]. intros e He. cbn. by rewrite He.
Qed.

Lemma no_title_no_record_witness :
  Forall (fun e =>
            strs (extract_anime_info Doc.no_brackets e) !! "title" = None)
         [Doc.root poster_html; episode_type_span]
  ∧ scrape_elements Doc.no_brackets no_skip has_title
      (set_str "category" "homepage") [Doc.root poster_html; episode_type_span]
    = []
  ∧ scrape_elements Doc.no_brackets no_skip
      (fun anime_info => has_title anime_info && long_title anime_info)
      (set_str "category" "homepage") [Doc.root poster_html; episode_type_span]
    = [].
Proof.
  refine (no_title_no_record Doc.tag Doc.markup Doc.no_brackets no_skip
            (set_str "category" "homepage")
            [Doc.root poster_html; episode_type_span] _).
  repeat constructor.
Defined.

(** ** The section scrapers *)

Section ScraperFacts.

Context {Tag : Type} `{Markup Tag}.
Variable check_bracketed_netloc : string → bool.
Variable get_page : string → option Tag.

(** *** What the extractor never writes *)

Lemma extract_only_its_keys key (elem : Tag) :
  key ∉ extractor_keys →
  strs (extract_anime_info check_bracketed_netloc elem) !! key = None.
Proof.
  unfold extractor_keys. rewrite !not_elem_of_cons.
  intros (?&?&?&?&?&?&?&?&?&?&?&?&_). unfold extract_anime_info.
  rewrite and_then_keeps by (by apply extract_description_keeps).
  rewrite and_then_keeps by (by apply extract_genres_keeps).
  rewrite and_then_keeps by (by apply extract_rating_keeps).
  rewrite and_then_keeps by (by apply extract_info_keeps).
  rewrite and_then_keeps by (by apply extract_image_keeps).
  rewrite and_then_keeps by (by apply extract_link_keeps).
  by rewrite and_then_keeps by (by apply extract_title_keeps).
Qed.

Lemma and_then_page (a : attempt) step :
  (∀ info, page (returned (step info)) = page info) →
  page (returned (a >>= step)) = page (returned a).
Proof. intros Hk. destruct a; cbn; [apply Hk|done]. Qed.

Lemma foldl_classify_page info (l : list Tag) :
  page (foldl classify info l) = page info.
Proof.
  revert info. induction l as [|e l IH]; intros info; [done|].
  cbn. rewrite IH. unfold classify. by repeat case_match.
Qed.

Lemma extract_no_page (elem : Tag) :
  page (extract_anime_info check_bracketed_netloc elem) = None.
Proof.
  unfold extract_anime_info.
  rewrite and_then_page
    by (intros; unfold extract_description; by repeat case_match).
  rewrite and_then_page
    by (intros; unfold extract_genres; by repeat case_match).
  rewrite and_then_page
    by (intros; unfold extract_rating; by repeat case_match).
  rewrite and_then_page
    by (intros; unfold extract_info; cbn; apply foldl_classify_page).
  rewrite and_then_page
    by (intros; unfold extract_image; by repeat case_match).
  rewrite and_then_page
    by (intros; unfold extract_link; by repeat case_match).
  rewrite and_then_page
    by (intros; unfold extract_title; by repeat case_match).
  done.
Qed.

(** *** What the scrapers keep and stamp *)

Lemma has_title_valid (elem : Tag) :
  has_title (extract_anime_info check_bracketed_netloc elem) = true →
  valid_title (extract_anime_info check_bracketed_netloc elem).
Proof.
  intros [title Ht]%has_title_inv.
  pose proof Ht as (te & _ & _ & Hlen & Hstop)%extract_title_inv.
  exists title. split; [done|]. split; [by apply Nat.ltb_lt|].
  by apply bool_decide_eq_false in Hstop.
Qed.

Lemma valid_title_set_str key value anime :
  key ≠ "title" → valid_title anime → valid_title (set_str key value anime).
Proof.
  intros Hne (title & Ht & Hrest). exists title. split; [|done].
  cbn. by rewrite lookup_insert_ne.
Qed.

Lemma scrape_elements_extracted (P : AnimeInfo → Prop) skip accept tag
    (elements : list Tag) :
  (∀ e, accept (extract_anime_info check_bracketed_netloc e) = true →
        P (tag (extract_anime_info check_bracketed_netloc e))) →
  Forall P (scrape_elements check_bracketed_netloc skip accept tag elements).
Proof.
  intros Hacc. unfold scrape_elements, extract.
  induction elements as [|e elements IH] using rev_ind; [constructor|].
  rewrite foldl_app. cbn.
  destruct (skip e); [done|].
  destruct (accept _) eqn:E; [|done].
  apply Forall_app. split; [done|]. apply Forall_singleton. by apply Hacc.
Qed.

Lemma stamped_elements skip accept category (elements : list Tag) :
  (∀ info, accept info = true → has_title info = true) →
  Forall (fun anime => tagged category anime ∧ valid_title anime)
         (scrape_elements check_bracketed_netloc skip accept
            (set_str "category" category) elements).
Proof.
  intros Hacc. apply scrape_elements_extracted. intros e He. split.
  - unfold tagged. cbn. apply lookup_insert_eq.
  - apply valid_title_set_str; [done|]. by apply has_title_valid, Hacc.
Qed.

Lemma and_has_title info :
  has_title info && long_title info = true → has_title info = true.
Proof. by intros [? _]%andb_true_iff. Qed.

Lemma homepage_stamped :
  Forall (fun anime => tagged "homepage" anime ∧ valid_title anime)
         (scrape_homepage_anime check_bracketed_netloc get_page).
Proof.
  unfold scrape_homepage_anime. destruct (get_page _) as [soup|]; [|constructor].
  induction (find_all soup _) as [|section sections IH] using rev_ind;
    [constructor|].
  rewrite foldl_app. cbn. apply Forall_app. split; [done|].
  by apply stamped_elements.
Qed.

Lemma updated_stamped :
  Forall (fun anime => tagged "updated" anime ∧ valid_title anime)
         (scrape_updated_anime check_bracketed_netloc get_page).
Proof.
  unfold scrape_updated_anime. destruct (get_page _); [|constructor].
  by apply stamped_elements.
Qed.

Lemma added_stamped :
  Forall (fun anime => tagged "added" anime ∧ valid_title anime)
         (scrape_added_anime check_bracketed_netloc get_page).
Proof.
  unfold scrape_added_anime. destruct (get_page _); [|constructor].
  by apply stamped_elements.
Qed.

Lemma ongoing_stamped :
  Forall (fun anime => tagged "ongoing" anime ∧ valid_title anime)
         (scrape_ongoing_anime check_bracketed_netloc get_page).
Proof.
  unfold scrape_ongoing_anime. destruct (get_page _); [|constructor].
  by apply stamped_elements.
Qed.

Lemma upcoming_stamped :
  Forall (fun anime => tagged "upcoming" anime ∧ valid_title anime)
         (scrape_upcoming_anime check_bracketed_netloc get_page).
Proof.
  unfold scrape_upcoming_anime. destruct (get_page _); [|constructor].
  apply stamped_elements, and_has_title.
Qed.

Lemma recently_updated_stamped :
  Forall (fun anime => tagged "recently_updated" anime ∧ valid_title anime)
         (scrape_recently_updated check_bracketed_netloc get_page).
Proof.
  unfold scrape_recently_updated. destruct (get_page _); [|constructor].
  apply stamped_elements, and_has_title.
Qed.

Lemma by_genre_stamped genre :
  Forall (fun anime =>
            tagged ("genre_" +:+ Py.lower genre) anime
            ∧ strs anime !! "genre" = Some genre
            ∧ valid_title anime)
         (scrape_by_genre check_bracketed_netloc get_page genre).
Proof.
  unfold scrape_by_genre. destruct (get_page _); [|constructor].
  apply scrape_elements_extracted. intros e He%and_has_title.
  split; [|split].
  - unfold tagged. cbn. rewrite lookup_insert_ne by done.
    apply lookup_insert_eq.
  - cbn. apply lookup_insert_eq.
  - do 2 (apply valid_title_set_str; [done|]). by apply has_title_valid.
Qed.

Lemma recently_added_stamped page_number :
  Forall (fun anime =>
            tagged "recently_added" anime
            ∧ page anime = Some page_number
            ∧ valid_title anime)
         (scrape_recently_added check_bracketed_netloc get_page page_number).
Proof.
  unfold scrape_recently_added. destruct (get_page _); [|constructor].
  apply scrape_elements_extracted. intros e He%and_has_title.
  split; [|split].
  - unfold tagged. cbn. apply lookup_insert_eq.
  - done.
  - destruct (has_title_valid e He) as (title & Ht & Hrest).
    exists title. split; [|done]. cbn. by rewrite lookup_insert_ne.
Qed.

End ScraperFacts.

(** X12: the extractor writes none of [category], [genre] and [page];
    each section scraper stamps its own category on every record it
    returns (the genre scraper also the genre, the recently-added scraper
    also the page), and returns only records whose title passed the
    extractor's test (longer than 3 characters, not a navigation word). *)
Theorem scrapers_stamp_their_category (Tag : Type) (M : Markup Tag)
    (check_bracketed_netloc : string → bool) (get_page : string → option Tag) :
  (∀ elem : Tag,
      let info := extract_anime_info check_bracketed_netloc elem in
      strs info !! "category" = None ∧ strs info !! "genre" = None
      ∧ page info = None)
  ∧ Forall (fun anime => tagged "homepage" anime ∧ valid_title anime)
           (scrape_homepage_anime check_bracketed_netloc get_page)
  ∧ Forall (fun anime => tagged "updated" anime ∧ valid_title anime)
           (scrape_updated_anime check_bracketed_netloc get_page)
  ∧ Forall (fun anime => tagged "added" anime ∧ valid_title anime)
           (scrape_added_anime check_bracketed_netloc get_page)
  ∧ Forall (fun anime => tagged "ongoing" anime ∧ valid_title anime)
           (scrape_ongoing_anime check_bracketed_netloc get_page)
  ∧ Forall (fun anime => tagged "upcoming" anime ∧ valid_title anime)
           (scrape_upcoming_anime check_bracketed_netloc get_page)
  ∧ Forall (fun anime => tagged "recently_updated" anime ∧ valid_title anime)
           (scrape_recently_updated check_bracketed_netloc get_page)
  ∧ (∀ genre,
        Forall (fun anime =>
                  tagged ("genre_" +:+ Py.lower genre) anime
                  ∧ strs anime !! "genre" = Some genre
                  ∧ valid_title anime)
               (scrape_by_genre check_bracketed_netloc get_page genre))
  ∧ (∀ page_number,
        Forall (fun anime =>
                  tagged "recently_added" anime
                  ∧ page anime = Some page_number
                  ∧ valid_title anime)
               (scrape_recently_added check_bracketed_netloc get_page
                  page_number)).
Proof.
  split.
  { intros elem. cbn. split; [|split].
    - apply extract_only_its_keys. unfold extractor_keys.
      rewrite !not_elem_of_cons. repeat split; try done. apply not_elem_of_nil.
    - apply extract_only_its_keys. unfold extractor_keys.
      rewrite !not_elem_of_cons. repeat split; try done. apply not_elem_of_nil.
    - apply extract_no_page. }
  split; [apply homepage_stamped|].
  split; [apply updated_stamped|].
  split; [apply added_stamped|].
  split; [apply ongoing_stamped|].
  split; [apply upcoming_stamped|].
  split; [apply recently_updated_stamped|].
  split; [apply by_genre_stamped|apply recently_added_stamped].
Qed.

(** ** The aggregator and the driver *)

Lemma Forall_of_sublist {A} (P : A → Prop) (l k : list A) :
  l `sublist_of` k → Forall P k → Forall P l.
Proof.
  intros Hsub Hk. apply Forall_forall. intros x Hx.
  rewrite Forall_forall in Hk. apply Hk. by eapply elem_of_sublist.
Qed.

Lemma filter_sublist_mono {A} (P : A → Prop) `{!∀ x, Decision (P x)}
    (l k : list A) :
  l `sublist_of` k → filter P l `sublist_of` filter P k.
Proof.
  induction 1 as [|x l k Hlk IH|x l k Hlk IH]; [done| |].
  - rewrite !filter_cons. destruct (decide (P x)); [by constructor|done].
  - rewrite filter_cons. destruct (decide (P x)); [by constructor|done].
Qed.

Lemma tagged_category_of category anime :
  tagged category anime → category_of anime = category.
Proof. unfold tagged, category_of. by intros ->. Qed.

Lemma in_category_other category other (l : list AnimeInfo) :
  Forall (tagged other) l → other ≠ category → in_category category l = [].
Proof.
  intros Hl Hne. unfold in_category.
  induction Hl as [|a l Ha Hl IH]; [done|].
  rewrite filter_cons, IH.
  destruct (decide _) as [E|]; [|done].
  rewrite (tagged_category_of _ _ Ha) in E. done.
Qed.

Lemma in_category_app category l k :
  in_category category (l ++ k)
  = in_category category l ++ in_category category k.
Proof. apply filter_app. Qed.

Lemma foldl_app_Forall {A B} (P : B → Prop) (f : A → list B) (xs : list A)
    (acc : list B) :
  Forall P acc → (∀ x, x ∈ xs → Forall P (f x)) →
  Forall P (foldl (fun acc x => acc ++ f x) acc xs).
Proof.
  revert acc. induction xs as [|x xs IH]; intros acc Hacc Hf; [done|].
  cbn. apply IH.
  - apply Forall_app. split; [done|]. apply Hf, list_elem_of_here.
  - intros y Hy. by apply Hf, list_elem_of_further.
Qed.

Section AggregateFacts.

Context {Tag : Type} `{Markup Tag}.
Variable check_bracketed_netloc : string → bool.
Variable get_page : string → option Tag.

Local Abbreviation by_genre := (scrape_by_genre check_bracketed_netloc get_page).

(** The part of [gather_all] that comes from the genre pages. *)
Lemma gather_all_parts :
  gather_all check_bracketed_netloc get_page
  = scrape_homepage_anime check_bracketed_netloc get_page
    ++ scrape_recently_updated check_bracketed_netloc get_page
    ++ scrape_recently_added check_bracketed_netloc get_page 1
    ++ scrape_ongoing_anime check_bracketed_netloc get_page
    ++ scrape_upcoming_anime check_bracketed_netloc get_page
    ++ take 10 (by_genre "Action") ++ take 10 (by_genre "Comedy")
    ++ take 10 (by_genre "Drama") ++ take 10 (by_genre "Romance")
    ++ take 10 (by_genre "Fantasy").
Proof.
  unfold gather_all, popular_genres. cbn [foldl app].
  by rewrite <- !app_assoc.
Qed.

Lemma genre_part genre category :
  category = "genre_" +:+ Py.lower genre →
  Forall (fun anime => tagged category anime ∧ valid_title anime)
         (take 10 (by_genre genre)).
Proof.
  intros ->. apply Forall_take.
  eapply Forall_impl; [apply by_genre_stamped|]. by intros a (? & _ & ?).
Qed.

Lemma gather_all_stamped :
  Forall (fun anime =>
            (∃ category, category ∈ scrape_all_categories
                         ∧ tagged category anime)
            ∧ valid_title anime)
         (gather_all check_bracketed_netloc get_page).
Proof.
  assert (Hin : ∀ category l,
    category ∈ scrape_all_categories →
    Forall (fun anime => tagged category anime ∧ valid_title anime) l →
    Forall (fun anime =>
              (∃ category, category ∈ scrape_all_categories
                           ∧ tagged category anime)
              ∧ valid_title anime) l).
  { intros c l Hc Hl. eapply Forall_impl; [exact Hl|].
    intros a [? ?]. eauto. }
  rewrite gather_all_parts. repeat apply Forall_app_2.
  - apply (Hin "homepage"); [|apply homepage_stamped].
    unfold scrape_all_categories. rewrite !elem_of_cons. tauto.
  - apply (Hin "recently_updated"); [|apply recently_updated_stamped].
    unfold scrape_all_categories. rewrite !elem_of_cons. tauto.
  - apply (Hin "recently_added").
    + unfold scrape_all_categories. rewrite !elem_of_cons. tauto.
    + eapply Forall_impl; [apply recently_added_stamped|].
      by intros a (? & _ & ?).
  - apply (Hin "ongoing"); [|apply ongoing_stamped].
    unfold scrape_all_categories. rewrite !elem_of_cons. tauto.
  - apply (Hin "upcoming"); [|apply upcoming_stamped].
    unfold scrape_all_categories. rewrite !elem_of_cons. tauto.
  - apply (Hin "genre_action"); [|by apply genre_part].
    unfold scrape_all_categories. rewrite !elem_of_cons. tauto.
  - apply (Hin "genre_comedy"); [|by apply genre_part].
    unfold scrape_all_categories. rewrite !elem_of_cons. tauto.
  - apply (Hin "genre_drama"); [|by apply genre_part].
    unfold scrape_all_categories. rewrite !elem_of_cons. tauto.
  - apply (Hin "genre_romance"); [|by apply genre_part].
    unfold scrape_all_categories. rewrite !elem_of_cons. tauto.
  - apply (Hin "genre_fantasy"); [|by apply genre_part].
    unfold scrape_all_categories. rewrite !elem_of_cons. tauto.
Qed.

Lemma tagged_only category l :
  Forall (fun anime => tagged category anime ∧ valid_title anime) l →
  Forall (tagged category) l.
Proof. intros Hl. eapply Forall_impl; [exact Hl|]. by intros a [? _]. Qed.

Lemma tagged_only3 {X : AnimeInfo → Prop} category l :
  Forall (fun anime => tagged category anime ∧ X anime ∧ valid_title anime) l →
  Forall (tagged category) l.
Proof. intros Hl. eapply Forall_impl; [exact Hl|]. by intros a [? _]. Qed.

Lemma length_in_category_take category (l : list AnimeInfo) :
  (length (in_category category (take 10 l)) ≤ 10)%nat.
Proof.
  unfold in_category. etrans; [apply length_filter|].
  rewrite length_take. lia.
Qed.

(** At most 10 records of one genre category are gathered. *)
Lemma gather_all_genre_cap genre :
  genre ∈ popular_genres →
  (length (in_category ("genre_" +:+ Py.lower genre)
             (gather_all check_bracketed_netloc get_page)) ≤ 10)%nat.
Proof.
  intros Hgenre. rewrite gather_all_parts, !in_category_app.
  rewrite (in_category_other _ "homepage");
    [|apply tagged_only, homepage_stamped|done].
  rewrite (in_category_other _ "recently_updated");
    [|apply tagged_only, recently_updated_stamped|done].
  rewrite (in_category_other _ "recently_added");
    [|eapply tagged_only3, recently_added_stamped|done].
  rewrite (in_category_other _ "ongoing");
    [|apply tagged_only, ongoing_stamped|done].
  rewrite (in_category_other _ "upcoming");
    [|apply tagged_only, upcoming_stamped|done].
  cbn [app].
  assert (Hg : ∀ g, Forall (tagged ("genre_" +:+ Py.lower g))
                           (take 10 (by_genre g))).
  { intros g. apply Forall_take. eapply tagged_only3, by_genre_stamped. }
  unfold popular_genres in Hgenre. rewrite !elem_of_cons, elem_of_nil in Hgenre.
  destruct Hgenre as [->|[->|[->|[->|[->|[]]]]]].
  - rewrite (in_category_other _ _ _ (Hg "Comedy")) by done.
    rewrite (in_category_other _ _ _ (Hg "Drama")) by done.
    rewrite (in_category_other _ _ _ (Hg "Romance")) by done.
    rewrite (in_category_other _ _ _ (Hg "Fantasy")) by done.
    rewrite ?app_nil_r; cbn [app]. apply length_in_category_take.
  - rewrite (in_category_other _ _ _ (Hg "Action")) by done.
    rewrite (in_category_other _ _ _ (Hg "Drama")) by done.
    rewrite (in_category_other _ _ _ (Hg "Romance")) by done.
    rewrite (in_category_other _ _ _ (Hg "Fantasy")) by done.
    rewrite ?app_nil_r; cbn [app]. apply length_in_category_take.
  - rewrite (in_category_other _ _ _ (Hg "Action")) by done.
    rewrite (in_category_other _ _ _ (Hg "Comedy")) by done.
    rewrite (in_category_other _ _ _ (Hg "Romance")) by done.
    rewrite (in_category_other _ _ _ (Hg "Fantasy")) by done.
    rewrite ?app_nil_r; cbn [app]. apply length_in_category_take.
  - rewrite (in_category_other _ _ _ (Hg "Action")) by done.
    rewrite (in_category_other _ _ _ (Hg "Comedy")) by done.
    rewrite (in_category_other _ _ _ (Hg "Drama")) by done.
    rewrite (in_category_other _ _ _ (Hg "Fantasy")) by done.
    rewrite ?app_nil_r; cbn [app]. apply length_in_category_take.
  - rewrite (in_category_other _ _ _ (Hg "Action")) by done.
    rewrite (in_category_other _ _ _ (Hg "Comedy")) by done.
    rewrite (in_category_other _ _ _ (Hg "Drama")) by done.
    rewrite (in_category_other _ _ _ (Hg "Romance")) by done.
    rewrite ?app_nil_r; cbn [app]. apply length_in_category_take.
Qed.

End AggregateFacts.

(** X13: every record of the final list of [scrape_all] carries one of
    the ten categories the aggregator visits, a title that passed the
    extractor's test, and a non-empty url. *)
Theorem scrape_all_final_records (Tag : Type) (M : Markup Tag)
    (check_bracketed_netloc : string → bool) (get_page : string → option Tag)
    (self : NineAnimeScraper) :
  Forall (fun anime =>
            (∃ category, category ∈ scrape_all_categories
                         ∧ tagged category anime)
            ∧ valid_title anime
            ∧ ∃ url, strs anime !! "url" = Some url ∧ url ≠ "")
         (scrape_all check_bracketed_netloc get_page self).2.
Proof.
  cbn [scrape_all snd].
  set (l := gather_all check_bracketed_netloc get_page).
  destruct (scrape_all_unique_valid_sublist l) as [Hsub Hvalid].
  pose proof (Forall_of_sublist _ _ _ Hsub
                (gather_all_stamped check_bracketed_netloc get_page)) as Hst.
  apply Forall_forall. intros a Ha.
  rewrite Forall_forall in Hst, Hvalid.
  destruct (Hst a Ha) as [Hc Ht].
  destruct (Hvalid a Ha) as (t & u & _ & _ & Hu & Hne). eauto 10.
Qed.

(** X14: the final list of [scrape_all] holds at most 10 records of each
    genre category (the genre lists are cut to their first 10 records
    before duplicates are removed). *)
Theorem scrape_all_genre_cap (Tag : Type) (M : Markup Tag)
    (check_bracketed_netloc : string → bool) (get_page : string → option Tag)
    (self : NineAnimeScraper) (genre : string) :
  genre ∈ popular_genres →
  (length (in_category ("genre_" +:+ Py.lower genre)
             (scrape_all check_bracketed_netloc get_page self).2) ≤ 10)%nat.
Proof.
  intros Hgenre. cbn [scrape_all snd].
  etrans; [|by apply (gather_all_genre_cap check_bracketed_netloc get_page)].
  apply sublist_length, filter_sublist_mono.
  apply scrape_all_unique_valid_sublist.
Qed.

Lemma scrape_all_genre_cap_witness :
  "Action" ∈ popular_genres
  ∧ length (scrape_by_genre Doc.no_brackets action_site "Action") = 12%nat
  ∧ length (in_category "genre_action"
              (scrape_all Doc.no_brackets action_site
                 {| scraped_anime := [] |}).2) = 10%nat
  ∧ (length (in_category ("genre_" +:+ Py.lower "Action")
               (scrape_all Doc.no_brackets action_site
                  {| scraped_anime := [] |}).2) ≤ 10)%nat.
Proof.
  assert (Hin : "Action" ∈ popular_genres) by apply list_elem_of_here.
  split; [exact Hin|].
  split; [vm_compute; reflexivity|].
  split; [vm_compute; reflexivity|].
  exact (scrape_all_genre_cap Doc.tag Doc.markup Doc.no_brackets action_site
           {| scraped_anime := [] |} "Action" Hin).
Defined.

(** X15: every record [scrape_recently_added_multiple_pages] returns is
    stamped [recently_added], carries the number of the page it came
    from, between 1 and [max_pages], has a title that passed the
    extractor's test and a non-empty url; so nothing is returned for
    [max_pages] below 1. *)
Theorem multiple_pages_records (Tag : Type) (M : Markup Tag)
    (check_bracketed_netloc : string → bool) (get_page : string → option Tag)
    (max_pages : Z) :
  Forall (fun anime =>
            tagged "recently_added" anime
            ∧ (∃ p, page anime = Some p ∧ (1 ≤ p ≤ max_pages)%Z)
            ∧ valid_title anime
            ∧ ∃ url, strs anime !! "url" = Some url ∧ url ≠ "")
         (scrape_recently_added_multiple_pages
            check_bracketed_netloc get_page max_pages).
Proof.
  unfold scrape_recently_added_multiple_pages.
  set (l := recently_added_pages check_bracketed_netloc get_page max_pages).
  destruct (multiple_pages_unique_props l) as (Hsub & _ & _ & Hvalid & _).
  assert (Hl : Forall (fun anime =>
            tagged "recently_added" anime
            ∧ (∃ p, page anime = Some p ∧ (1 ≤ p ≤ max_pages)%Z)
            ∧ valid_title anime) l).
  { subst l. unfold recently_added_pages.
    apply foldl_app_Forall; [constructor|].
    intros p Hp%elem_of_seqZ.
    eapply Forall_impl; [apply recently_added_stamped|].
    intros a (Ht & Hpage & Hv). repeat split; try done.
    exists p. split; [done|lia]. }
  pose proof (Forall_of_sublist _ _ _ Hsub Hl) as Hst.
  apply Forall_forall. intros a Ha.
  rewrite Forall_forall in Hst, Hvalid.
  destruct (Hst a Ha) as (Ht & Hp & Hv).
  destruct (Hvalid a Ha) as (t & u & _ & _ & Hu & Hne). eauto 10.
Qed.

Section DeadSite.

Context {Tag : Type} `{Markup Tag}.
Variable check_bracketed_netloc : string → bool.
Variable get_page : string → option Tag.
Hypothesis no_answer : ∀ url, get_page url = None.

Lemma gather_all_dead : gather_all check_bracketed_netloc get_page = [].
Proof.
  rewrite gather_all_parts.
  unfold scrape_homepage_anime, scrape_recently_updated, scrape_recently_added,
    scrape_ongoing_anime, scrape_upcoming_anime, scrape_by_genre.
  by rewrite !no_answer.
Qed.

End DeadSite.

(** X16: when no page can be fetched, [scrape_all] returns the empty
    list and stores it, and [main] writes no file and prints only that
    nothing could be scraped. *)
Theorem nothing_fetched_nothing_written (Tag : Type) (M : Markup Tag)
    (check_bracketed_netloc : string → bool) (get_page : string → option Tag)
    (json_dict : nat → AnimeInfo → string)
    (csv_document : list string → list AnimeInfo → string)
    (self : NineAnimeScraper) (files : gmap string string) :
  (∀ url, get_page url = None) →
  scrape_all check_bracketed_netloc get_page self
  = ({| scraped_anime := [] |}, [])
  ∧ main check_bracketed_netloc get_page json_dict csv_document files
    = (files, [nothing_scraped]).
Proof.
  intros Hdead. unfold main, scrape_all.
  by rewrite (gather_all_dead _ _ Hdead).
Qed.

Lemma nothing_fetched_nothing_written_witness :
  scrape_all Doc.no_brackets dead_site {| scraped_anime := [naruto_677] |}
  = ({| scraped_anime := [] |}, [])
  ∧ main Doc.no_brackets dead_site no_json no_csv ∅ = (∅, [nothing_scraped]).
Proof.
  exact (nothing_fetched_nothing_written Doc.tag Doc.markup Doc.no_brackets
           dead_site no_json no_csv {| scraped_anime := [naruto_677] |} ∅
           (fun _ => eq_refl)).
Defined.

(** X17: when something was scraped, [main] writes the two output files
    and no other: [9anime_anime.json] holds the dump of the final list,
    [9anime_anime.csv] holds a document over it, every other file is as
    it was, and the summary of the final list is printed. *)
Theorem main_writes_two_files (Tag : Type) (M : Markup Tag)
    (check_bracketed_netloc : string → bool) (get_page : string → option Tag)
    (json_dict : nat → AnimeInfo → string)
    (csv_document : list string → list AnimeInfo → string)
    (files : gmap string string) :
  let final :=
    (scrape_all check_bracketed_netloc get_page {| scraped_anime := [] |}).2 in
  let after :=
    (main check_bracketed_netloc get_page json_dict csv_document files).1 in
  final ≠ [] →
  after !! "9anime_anime.json" = Some (json_dump json_dict final)
  ∧ (∃ header, after !! "9anime_anime.csv" = Some (csv_document header final))
  ∧ (∀ name, name ≠ "9anime_anime.json" → name ≠ "9anime_anime.csv" →
             after !! name = files !! name)
  ∧ (main check_bracketed_netloc get_page json_dict csv_document files).2
    = print_summary {| scraped_anime := final |}.
Proof.
  cbn zeta. unfold main, scrape_all. cbn [snd].
  set (final := scrape_all_unique (gather_all check_bracketed_netloc get_page)).
  intros Hne. destruct final as [|a final'] eqn:E; [done|].
  cbn [fst snd]. unfold save_to_csv, save_to_json. cbn [scraped_anime].
  repeat split.
  - rewrite lookup_insert_ne by done. apply lookup_insert_eq.
  - eexists. apply lookup_insert_eq.
  - intros name H1 H2. by rewrite !lookup_insert_ne.
Qed.

Lemma main_writes_two_files_witness :
  let final :=
    (scrape_all Doc.no_brackets one_entry_site {| scraped_anime := [] |}).2 in
  let after := (main Doc.no_brackets one_entry_site no_json no_csv ∅).1 in
  final ≠ []
  ∧ after !! "9anime_anime.json" = Some (json_dump no_json final)
  ∧ (∃ header, after !! "9anime_anime.csv" = Some (no_csv header final))
  ∧ (∀ name, name ≠ "9anime_anime.json" → name ≠ "9anime_anime.csv" →
             after !! name = (∅ : gmap string string) !! name)
  ∧ (main Doc.no_brackets one_entry_site no_json no_csv ∅).2
    = print_summary {| scraped_anime := final |}.
Proof.
  assert (Hne : (scrape_all Doc.no_brackets one_entry_site
                   {| scraped_anime := [] |}).2 ≠ []).
  { vm_compute. discriminate. }
  split; [exact Hne|].
  exact (main_writes_two_files Doc.tag Doc.markup Doc.no_brackets
           one_entry_site no_json no_csv ∅ Hne).
Defined.

(** ** The keys of a record *)

Lemma elem_of_keys k anime :
  k ∈ keys anime
  ↔ is_Some (strs anime !! k)
    ∨ (k = "genres" ∧ is_Some (genres anime))
    ∨ (k = "page" ∧ is_Some (page anime)).
Proof.
  unfold keys. rewrite !elem_of_union, elem_of_dom.
  destruct (genres anime), (page anime);
    rewrite ?elem_of_singleton, ?elem_of_empty; split.
  all: try (intros [[?|?]|?]; eauto; done).
  all: intros [?|[[? H]|[? H]]]; eauto; try by destruct H.
Qed.

Lemma known_keys_set_str key value anime :
  key ∈ recognized_fields → known_keys anime →
  known_keys (set_str key value anime).
Proof.
  intros Hkey Hk k. rewrite elem_of_keys. cbn.
  intros [Hs|Hrest].
  - destruct (decide (key = k)) as [<-|Hne]; [done|].
    rewrite lookup_insert_ne in Hs by done.
    apply Hk, elem_of_keys. by left.
  - apply Hk, elem_of_keys. by right.
Qed.

Lemma known_keys_set_page value anime :
  known_keys anime → known_keys (set_page value anime).
Proof.
  intros Hk k. rewrite elem_of_keys. cbn.
  intros [Hs|[Hg|[-> _]]].
  - apply Hk, elem_of_keys. by left.
  - apply Hk, elem_of_keys. right. by left.
  - unfold recognized_fields, extractor_keys. cbn. rewrite !elem_of_cons. tauto.
Qed.

Section KeyFacts.

Context {Tag : Type} `{Markup Tag}.
Variable check_bracketed_netloc : string → bool.
Variable get_page : string → option Tag.

Lemma extract_keys (elem : Tag) k :
  k ∈ keys (extract_anime_info check_bracketed_netloc elem) →
  k ∈ extractor_keys ∨ k = "genres".
Proof.
  rewrite elem_of_keys. intros [Hs|[[-> _]|[_ Hp]]].
  - destruct (decide (k ∈ extractor_keys)) as [|Hout]; [by left|].
    rewrite (extract_only_its_keys _ _ _ Hout) in Hs. by destruct Hs.
  - by right.
  - rewrite extract_no_page in Hp. by destruct Hp.
Qed.

Lemma extract_known_keys (elem : Tag) :
  known_keys (extract_anime_info check_bracketed_netloc elem).
Proof.
  intros k [Hk| ->]%extract_keys; unfold recognized_fields.
  - apply elem_of_app. by left.
  - apply elem_of_app. right. apply list_elem_of_here.
Qed.

Lemma category_recognized : "category" ∈ recognized_fields.
Proof.
  unfold recognized_fields, extractor_keys. cbn. rewrite !elem_of_cons. tauto.
Qed.

Lemma genre_recognized : "genre" ∈ recognized_fields.
Proof.
  unfold recognized_fields, extractor_keys. cbn. rewrite !elem_of_cons. tauto.
Qed.

Lemma scrape_elements_known skip accept category (elements : list Tag) :
  Forall known_keys
         (scrape_elements check_bracketed_netloc skip accept
            (set_str "category" category) elements).
Proof.
  apply scrape_elements_extracted. intros e _.
  apply known_keys_set_str; [apply category_recognized|].
  apply extract_known_keys.
Qed.

Lemma by_genre_known genre :
  Forall known_keys (scrape_by_genre check_bracketed_netloc get_page genre).
Proof.
  unfold scrape_by_genre. destruct (get_page _); [|constructor].
  apply scrape_elements_extracted. intros e _.
  apply known_keys_set_str; [apply genre_recognized|].
  apply known_keys_set_str; [apply category_recognized|].
  apply extract_known_keys.
Qed.

Lemma recently_added_known page_number :
  Forall known_keys
         (scrape_recently_added check_bracketed_netloc get_page page_number).
Proof.
  unfold scrape_recently_added. destruct (get_page _); [|constructor].
  apply scrape_elements_extracted. intros e _.
  apply known_keys_set_page.
  apply known_keys_set_str; [apply category_recognized|].
  apply extract_known_keys.
Qed.

Lemma gather_all_known :
  Forall known_keys (gather_all check_bracketed_netloc get_page).
Proof.
  rewrite gather_all_parts. repeat apply Forall_app_2.
  - unfold scrape_homepage_anime. destruct (get_page _); [|constructor].
    apply foldl_app_Forall; [constructor|]. intros section _.
    apply scrape_elements_known.
  - unfold scrape_recently_updated. destruct (get_page _); [|constructor].
    apply scrape_elements_known.
  - apply recently_added_known.
  - unfold scrape_ongoing_anime. destruct (get_page _); [|constructor].
    apply scrape_elements_known.
  - unfold scrape_upcoming_anime. destruct (get_page _); [|constructor].
    apply scrape_elements_known.
  - apply Forall_take, by_genre_known.
  - apply Forall_take, by_genre_known.
  - apply Forall_take, by_genre_known.
  - apply Forall_take, by_genre_known.
  - apply Forall_take, by_genre_known.
Qed.

End KeyFacts.

(** X10: the extractor writes only its twelve string keys and [genres];
    with the stamps of the scrapers, every key of every record in the
    final list of [scrape_all] is one of the sixteen recognized fields,
    so the CSV header holds no other column. *)
Theorem records_have_known_keys (Tag : Type) (M : Markup Tag)
    (check_bracketed_netloc : string → bool) (get_page : string → option Tag)
    (self : NineAnimeScraper) :
  (∀ (elem : Tag) k,
      k ∈ keys (extract_anime_info check_bracketed_netloc elem) →
      k ∈ extractor_keys ∨ k = "genres")
  ∧ Forall known_keys (scrape_all check_bracketed_netloc get_page self).2.
Proof.
  split; [apply extract_keys|].
  cbn [scrape_all snd].
  eapply Forall_of_sublist; [|apply gather_all_known].
  apply scrape_all_unique_valid_sublist.
Qed.

(** ** The CSV header and the summary counts *)

Lemma elem_of_all_keys k (l : list AnimeInfo) (init : gset string) :
  k ∈ foldl (fun all_keys anime => all_keys ∪ keys anime) init l
  ↔ k ∈ init ∨ ∃ anime, anime ∈ l ∧ k ∈ keys anime.
Proof.
  revert init. induction l as [|a l IH]; intros init; cbn.
  - split; [by left|]. intros [?|(a & Ha & _)]; [done|].
    by apply elem_of_nil in Ha.
  - rewrite IH, elem_of_union. split.
    + intros [[?|?]|(b & Hb & Hk)]; [by left| |].
      * right. exists a. split; [apply list_elem_of_here|done].
      * right. exists b. split; [by apply list_elem_of_further|done].
    + intros [?|(b & Hb & Hk)]; [by left; left|].
      apply elem_of_cons in Hb as [->|Hb]; [by left; right|].
      right. eauto.
Qed.

Lemma sorted_facts (all_keys : gset string) :
  StronglySorted String.le (sorted all_keys)
  ∧ NoDup (sorted all_keys)
  ∧ ∀ k, k ∈ sorted all_keys ↔ k ∈ all_keys.
Proof.
  unfold sorted. split; [|split].
  - apply StronglySorted_merge_sort; apply _.
  - rewrite merge_sort_Permutation. apply NoDup_elements.
  - intros k. rewrite merge_sort_Permutation. apply elem_of_elements.
Qed.

(** X18: for a non-empty list [save_to_csv] writes a document whose
    header is in ascending order, has no column twice, and holds exactly
    the keys that occur in some record. *)
Theorem csv_header_is_sorted_union
    (csv_document : list string → list AnimeInfo → string)
    (self : NineAnimeScraper) (filename : string) (files : gmap string string) :
  scraped_anime self ≠ [] →
  ∃ header,
    save_to_csv csv_document self filename files !! filename
    = Some (csv_document header (scraped_anime self))
    ∧ StronglySorted String.le header
    ∧ NoDup header
    ∧ ∀ k, k ∈ header ↔ ∃ anime, anime ∈ scraped_anime self ∧ k ∈ keys anime.
Proof.
  intros Hne. unfold save_to_csv.
  destruct (scraped_anime self) as [|a l] eqn:E; [done|].
  eexists. split; [apply lookup_insert_eq|].
  destruct (sorted_facts
              (foldl (fun all_keys anime => all_keys ∪ keys anime) ∅ (a :: l)))
    as (Hs & Hn & Hk).
  split; [done|]. split; [done|].
  intros k. rewrite Hk, elem_of_all_keys. split.
  - intros [Hin|?]; [|done]. by apply elem_of_empty in Hin.
  - by right.
Qed.

Lemma csv_header_is_sorted_union_witness :
  ∃ header,
    save_to_csv no_csv {| scraped_anime := [naruto_677; air_1234] |}
      "9anime_anime.csv" ∅ !! "9anime_anime.csv"
    = Some (no_csv header [naruto_677; air_1234])
    ∧ StronglySorted String.le header
    ∧ NoDup header
    ∧ ∀ k, k ∈ header
           ↔ ∃ anime, anime ∈ [naruto_677; air_1234] ∧ k ∈ keys anime.
Proof.
  refine (csv_header_is_sorted_union no_csv
            {| scraped_anime := [naruto_677; air_1234] |}
            "9anime_anime.csv" ∅ _).
  discriminate.
Defined.

(** *** Counting categories *)

Lemma category_count_bump c c' cats :
  category_count c (bump c' cats)
  = if decide (c' = c) then S (category_count c cats) else category_count c cats.
Proof.
  induction cats as [|[d n] cats IH]; cbn.
  - destruct (String.eqb_spec c' c), (decide (c' = c)); done.
  - destruct (String.eqb_spec d c') as [->|Hd]; cbn.
    + destruct (String.eqb_spec c' c), (decide (c' = c)); done.
    + rewrite IH.
      destruct (String.eqb_spec d c) as [->|Hdc]; [|done].
      by rewrite decide_False by done.
Qed.

Lemma total_count_bump c cats :
  total_count (bump c cats) = S (total_count cats).
Proof.
  induction cats as [|[d n] cats IH]; [done|].
  cbn [bump]. destruct (String.eqb d c); [done|].
  change (total_count ((d, n) :: bump c cats))
    with (n + total_count (bump c cats))%nat.
  change (total_count ((d, n) :: cats)) with (n + total_count cats)%nat.
  rewrite IH. lia.
Qed.

Lemma bump_keys c cats :
  (bump c cats).*1 = if decide (c ∈ cats.*1) then cats.*1 else cats.*1 ++ [c].
Proof.
  induction cats as [|[d n] cats IH]; cbn.
  - rewrite decide_False; [done|apply not_elem_of_nil].
  - destruct (String.eqb_spec d c) as [->|Hd]; cbn.
    + rewrite decide_True; [done|apply list_elem_of_here].
    + rewrite IH. destruct (decide (c ∈ cats.*1)) as [Hin|Hout].
      * rewrite decide_True; [done|by apply list_elem_of_further].
      * rewrite decide_False; [done|].
        rewrite not_elem_of_cons. split; [congruence|done].
Qed.

Lemma bump_keys_NoDup c cats : NoDup cats.*1 → NoDup (bump c cats).*1.
Proof.
  intros Hnd. rewrite bump_keys. destruct (decide _) as [|Hout]; [done|].
  apply NoDup_app. split; [done|]. split; [|apply NoDup_singleton].
  intros x Hx ->%list_elem_of_singleton. done.
Qed.

(** X19: the counts [print_summary] prints partition the list: each
    category is listed once, its count is the number of records of that
    category (a record without category counts as [unknown]), and the
    counts add up to the number of records. *)
Theorem category_counts_partition (scraped : list AnimeInfo) :
  NoDup (count_categories scraped).*1
  ∧ (∀ category,
        category_count category (count_categories scraped)
        = length (in_category category scraped))
  ∧ total_count (count_categories scraped) = length scraped.
Proof.
  unfold count_categories, in_category.
  induction scraped as [|a l (Hnd & Hcount & Htotal)] using rev_ind.
  - split; [constructor|]. done.
  - rewrite foldl_app. cbn [foldl]. split; [by apply bump_keys_NoDup|]. split.
    + intros c. rewrite category_count_bump, filter_app, length_app, Hcount.
      rewrite filter_cons, filter_nil.
      destruct (decide (category_of a = c)); cbn; lia.
    + rewrite total_count_bump, Htotal, length_app. cbn. lia.
Qed.

(** ** The detail page *)

Section DetailFacts.

Context {Tag : Type} `{Markup Tag}.
Variable check_bracketed_netloc : string → bool.

Lemma episode_infos_length (episodes : list Tag) :
  (length (episode_infos check_bracketed_netloc episodes) ≤ length episodes)%nat.
Proof.
  induction episodes as [|ep l IH]; cbn; [done|].
  destruct (episode_info _ ep); cbn; lia.
Qed.

Lemma episode_infos_all (episodes : list Tag) :
  Forall (fun ep => is_Some (episode_info check_bracketed_netloc ep)) episodes →
  length (episode_infos check_bracketed_netloc episodes) = length episodes.
Proof.
  induction 1 as [|ep l [info Hep] Hl IH]; cbn; [done|].
  rewrite Hep. cbn. by rewrite IH.
Qed.

(** The labels a section records. *)
Lemma add_labels_dom (details : gmap string detail) (labels values : list Tag) :
  dom (add_labels details labels values)
  = dom details
    ∪ list_to_set ((fun label => Py.lower (get_text label))
                     <$> take (length values) labels).
Proof.
  unfold add_labels. revert details values.
  induction labels as [|label labels IH]; intros details values.
  - cbn. rewrite take_nil. cbn. by rewrite (right_id_L ∅ (∪)).
  - destruct values as [|value values]; [cbn; by rewrite (right_id_L ∅ (∪))|].
    cbn [zip zip_with foldl length take fmap list_fmap list_to_set].
    rewrite IH, dom_insert_L. cbn [fst snd].
    rewrite (comm_L (∪) {[Py.lower (get_text label)]} (dom details)).
    by rewrite <- (assoc_L (∪)).
Qed.

End DetailFacts.

(** X20: when the detail page has episode elements,
    [scrape_anime_details] records their full number under
    [episode_count] and lists at most the first 10 of them under
    [episodes]: exactly [min 10 count] when no entry raises, fewer when
    building an entry raises (the entries before it stay). *)
Theorem details_list_at_most_10_episodes (Tag : Type) (M : Markup Tag)
    (check_bracketed_netloc : string → bool) (get_page : string → option Tag)
    (anime_url : string) (soup : Tag) :
  get_page anime_url = Some soup →
  find_all soup episode_selector ≠ [] →
  let details :=
    scrape_anime_details check_bracketed_netloc get_page anime_url in
  let episodes := find_all soup episode_selector in
  details !! "episode_count" = Some (DInt (Z.of_nat (length episodes)))
  ∧ ∃ infos,
      details !! "episodes" = Some (DEpisodes infos)
      ∧ (length infos ≤ 10)%nat
      ∧ (length infos ≤ length episodes)%nat
      ∧ (Forall (fun ep => is_Some (episode_info check_bracketed_netloc ep))
                (take 10 episodes) →
         length infos = Nat.min 10 (length episodes)).
Proof.
  intros Hpage Hne. cbn zeta. unfold scrape_anime_details. rewrite Hpage.
  fold episode_selector.
  destruct (find_all soup episode_selector) as [|ep eps] eqn:E; [done|].
  split.
  - rewrite lookup_insert_ne by done. apply lookup_insert_eq.
  - eexists. split; [apply lookup_insert_eq|].
    pose proof (episode_infos_length check_bracketed_netloc
                  (take 10 (ep :: eps))) as Hlen.
    rewrite length_take in Hlen. repeat split; [lia|lia|].
    intros Hall. rewrite (episode_infos_all _ _ Hall). apply length_take.
Qed.

Lemma details_list_at_most_10_episodes_witness :
  let details :=
    scrape_anime_details Doc.no_brackets episode_site
      "https://9animetv.to/watch/one-piece-100" in
  details !! "episode_count" = Some (DInt 2)
  ∧ ∃ infos,
      details !! "episodes" = Some (DEpisodes infos)
      ∧ (length infos ≤ 10)%nat ∧ (length infos ≤ 2)%nat.
Proof.
  destruct (details_list_at_most_10_episodes Doc.tag Doc.markup
              Doc.no_brackets episode_site
              "https://9animetv.to/watch/one-piece-100"
              (Doc.root episode_page) eq_refl)
    as (Hcount & infos & Hinfos & H10 & Hlen & _).
  { vm_compute. discriminate. }
  split; [exact Hcount|]. exists infos. repeat split; assumption.
Defined.

(** X21: the labels of an info section are paired with its values by
    position: the keys a section adds are the lowercased texts of its
    first [len(values)] labels, so a label without a value at its
    position is not recorded. *)
Theorem labels_pair_with_values (Tag : Type) (M : Markup Tag)
    (details : gmap string detail) (labels values : list Tag) :
  dom (add_labels details labels values)
  = dom details
    ∪ list_to_set ((fun label => Py.lower (get_text label))
                     <$> take (length values) labels).
Proof. exact (add_labels_dom details labels values). Qed.

(** ** More on addresses *)

Lemma lower_char_idempotent c :
  Py.lower_char (Py.lower_char c) = Py.lower_char c.
Proof. by destruct c as [[] [] [] [] [] [] [] []]. Qed.

Lemma lower_idempotent s : Py.lower (Py.lower s) = Py.lower s.
Proof.
  induction s as [|c s IH]; [done|]. cbn. by rewrite lower_char_idempotent, IH.
Qed.

Lemma has_char_app c a b :
  Py.has_char c (a +:+ b) = Py.has_char c a || Py.has_char c b.
Proof.
  induction a as [|x a IH]; [done|].
  rewrite str_app_cons. cbn. by rewrite IH, orb_assoc.
Qed.

Lemma slug_char_clean c :
  Py.has_char " " (slug_char c) = false ∧ Py.has_char "&" (slug_char c) = false.
Proof.
  unfold slug_char.
  destruct (Ascii.eqb c " ") eqn:Hsp; [done|].
  destruct (Ascii.eqb c "&") eqn:Hamp; [done|].
  cbn. rewrite !orb_false_r, lower_char_space, lower_char_amp. done.
Qed.

(** X22: the path segment of a genre page holds no space and no
    ampersand, and does not depend on the case of the genre: a genre and
    its lowercased form lead to the same page. *)
Theorem genre_slug_clean (genre : string) :
  Py.has_char " " (genre_slug genre) = false
  ∧ Py.has_char "&" (genre_slug genre) = false
  ∧ genre_slug (Py.lower genre) = genre_slug genre
  ∧ genre_page_url (Py.lower genre) = genre_page_url genre.
Proof.
  assert (Hcase : genre_slug (Py.lower genre) = genre_slug genre)
    by (unfold genre_slug; by rewrite lower_idempotent).
  split; [|split; [|split; [done|]]].
  - rewrite genre_slug_by_char.
    induction genre as [|c genre IH]; [done|].
    cbn [slug_by_char]. rewrite has_char_app, IH; [|].
    + by rewrite (proj1 (slug_char_clean c)).
    + unfold genre_slug. by rewrite lower_idempotent.
  - rewrite genre_slug_by_char.
    induction genre as [|c genre IH]; [done|].
    cbn [slug_by_char]. rewrite has_char_app, IH; [|].
    + by rewrite (proj2 (slug_char_clean c)).
    + unfold genre_slug. by rewrite lower_idempotent.
  - unfold genre_page_url. by rewrite Hcase.
Qed.

Section ForeignScheme.

Import UrlParse.
Variable check_bracketed_netloc : string → bool.

(** An href with a scheme other than [https] is returned as it is. *)
Lemma urljoin_other_scheme href s n :
  origin check_bracketed_netloc href = Some (s, n) →
  s ≠ "" → s ≠ "https" →
  UrlParse.urljoin check_bracketed_netloc base_url href = Some href.
Proof.
  unfold origin. intros Ho Hs1 Hs2.
  destruct (urlsplit check_bracketed_netloc href "") as [r|] eqn:Er; [|done].
  cbn in Ho. injection Ho as <- <-.
  unfold UrlParse.urljoin.
  change (negb (Py.truthy base_url)) with false. cbv iota.
  assert (Py.truthy href = true) as ->.
  { destruct href; [|done]. by vm_compute in Er; injection Er as <-. }
  cbn [negb]. rewrite urlparse_base.
  cbn [p_scheme p_netloc p_path p_params p_query p_fragment].
  unfold urlparse. rewrite (urlsplit_default _ _ _ Er).
  cbn [scheme netloc path query fragment].
  assert (Py.truthy (scheme r) = true) as ->
    by (by destruct (scheme r)).
  destruct (if in_list (scheme r) uses_params && Py.has_char ";" (path r)
            then splitparams (path r) else (path r, "")) as [p prm].
  cbn [p_scheme].
  destruct (String.eqb_spec (scheme r) "https") as [|_]; [done|].
  done.
Qed.

End ForeignScheme.

(** X23: an href that names a scheme other than [https] ([http],
    [mailto], ...) is stored as the record's url character for
    character: [urljoin] does not resolve it against the base. *)
Theorem foreign_scheme_url_is_href (Tag : Type) (M : Markup Tag)
    (check_bracketed_netloc : string → bool) (elem link : Tag)
    (href url scheme netloc : string) :
  select_link elem = Some link →
  get link "href" = Some href →
  origin check_bracketed_netloc href = Some (scheme, netloc) →
  scheme ≠ "" → scheme ≠ "https" →
  strs (extract_anime_info check_bracketed_netloc elem) !! "url" = Some url →
  url = href.
Proof.
  intros Hlink Hhref Ho Hs1 Hs2
    (link' & href' & Hlink' & Hhref' & _ & _ & Hjoin & _)%extract_link_inv.
  rewrite Hlink in Hlink'. injection Hlink' as <-.
  rewrite Hhref in Hhref'. injection Hhref' as <-.
  unfold urljoin in Hjoin.
  rewrite (urljoin_other_scheme _ _ _ _ Ho Hs1 Hs2) in Hjoin. congruence.
Qed.

Lemma foreign_scheme_url_is_href_witness :
  origin Doc.no_brackets "http://example.org/watch/one-piece-100"
  = Some ("http", "example.org")
  ∧ strs (extract_anime_info Doc.no_brackets
            (listing "http://example.org/watch/one-piece-100"
               ["tick-eps"] "Ep 12")) !! "url"
    = Some "http://example.org/watch/one-piece-100"
  ∧ "http://example.org/watch/one-piece-100"
    = "http://example.org/watch/one-piece-100".
Proof.
  split; [reflexivity|]. split; [reflexivity|].
  refine (foreign_scheme_url_is_href Doc.tag Doc.markup Doc.no_brackets
            (listing "http://example.org/watch/one-piece-100" ["tick-eps"] "Ep 12")
            (listing_anchor "http://example.org/watch/one-piece-100"
               ["tick-eps"] "Ep 12")
            "http://example.org/watch/one-piece-100"
            "http://example.org/watch/one-piece-100" "http" "example.org"
            eq_refl eq_refl eq_refl _ _ eq_refl); discriminate.
Defined.

(** X24: a record gets a [url] (and an [id]) only from an anchor whose
    href contains [/watch/]: when the href of the selected anchor does
    not, or the anchor has no href, or there is no anchor, neither key is
    written. *)
Theorem url_only_from_watch_links (Tag : Type) (M : Markup Tag)
    (check_bracketed_netloc : string → bool) (elem : Tag) :
  match select_link elem with
  | Some link =>
      match get link "href" with
      | Some href => Py.contains "/watch/" href = false
      | None => True
      end
  | None => True
  end →
  strs (extract_anime_info check_bracketed_netloc elem) !! "url" = None
  ∧ strs (extract_anime_info check_bracketed_netloc elem) !! "id" = None.
Proof.
  intros Hno.
  assert (Hurl : strs (extract_anime_info check_bracketed_netloc elem) !! "url"
                 = None).
  { destruct (strs _ !! "url") as [u|] eqn:E; [|done].
    apply extract_link_inv in E
      as (link & href & Hlink & Hhref & _ & Hwatch & _).
    rewrite Hlink, Hhref in Hno. congruence. }
  split; [done|].
  destruct (link_keys_together check_bracketed_netloc elem) as [[_ Hid] _].
  destruct (strs _ !! "id") as [i|] eqn:E; [|done].
  destruct Hid as [u Hu]; [eauto|]. congruence.
Qed.

Lemma url_only_from_watch_links_witness :
  strs (extract_anime_info Doc.no_brackets
          (listing "/genre/action" ["tick-eps"] "Ep 12")) !! "url" = None
  ∧ strs (extract_anime_info Doc.no_brackets
            (listing "/genre/action" ["tick-eps"] "Ep 12")) !! "id" = None.
Proof.
  exact (url_only_from_watch_links Doc.tag Doc.markup Doc.no_brackets
           (listing "/genre/action" ["tick-eps"] "Ep 12") eq_refl).
Defined.
